(** * wsi-reader: region addressing and resampling layer

    A shallow embedding of [wsi_reader/base.py] (the [WSIReader] base class)
    and of the tifffile backend's [_read_region], followed by the properties
    of the level selector, the region resolver and the normaliser.

    Conventions of the embedding:
    - Python [int] is [Z]; Python [float] is an exact rational [Q] (no
      rounding error, no NaN or infinity).  [round] is Python's
      round-half-to-even.
    - A Python exception is the [Raise] case of [result]; a method of the
      reader is a function of the handle's mutable state ([handle]) that
      returns its outcome together with the state it leaves behind.
    - A numpy array is a record of its dtype class, its shape and its
      cells, row by row.
    - The members a backend provides are functions of the opened slide.
      The state that is followed is the base class's memoised
      [_level_downsamples] and the list of backend fetches; what a
      backend memoises for itself ([_level_dimensions], and
      [_level_downsamples] where [IsyntaxReader] overrides the property
      and reads it inside [_read_region]) is outside it. *)

From Stdlib Require Import String ZArith QArith List Bool Lia.
From Stdlib Require Import Sorted.
Import ListNotations.
Open Scope Z_scope.

Set Implicit Arguments.

(** ** Exceptions and outcomes *)

Inductive exn : Type :=
| RuntimeError (msg : string)
| ValueError
| IndexError
| KeyError
| ZeroDivisionError
| cv2_error.

Inductive result (A : Type) : Type :=
| Ok (a : A)
| Raise (e : exn).
Arguments Ok {A} a.
Arguments Raise {A} e.

Definition result_bind {A B} (m : result A) (k : A -> result B) : result B :=
  match m with
  | Ok a => k a
  | Raise e => Raise e
  end.

(** ** Python primitives *)

Module Py.

(** [range(a, b)] *)
Definition range (a b : Z) : list Z :=
  map (fun k => a + Z.of_nat k) (seq 0 (Z.to_nat (b - a))).

(** [l[i]] on a list: negative indices count from the end, anything
    outside [-len, len) raises IndexError. *)
Definition index {A} (l : list A) (i : Z) : result A :=
  let n := Z.of_nat (length l) in
  let j := if i <? 0 then i + n else i in
  if (j <? 0) || (n <=? j) then Raise IndexError
  else match nth_error l (Z.to_nat j) with
       | Some a => Ok a
       | None => Raise IndexError
       end.

(** [a / b] on two ints. *)
Definition truediv (a b : Z) : result Q :=
  if b =? 0 then Raise ZeroDivisionError
  else Ok (Qred (inject_Z a / inject_Z b)).

(** [a / b] on floats. *)
Definition fdiv (a b : Q) : result Q :=
  if Qeq_bool b 0 then Raise ZeroDivisionError
  else Ok (Qred (a / b)).

(** [a // b] on two ints. *)
Definition floordiv (a b : Z) : result Z :=
  if b =? 0 then Raise ZeroDivisionError else Ok (a / b).

(** [round(x)] on a float: nearest integer, ties to the even one. *)
Definition round (x : Q) : Z :=
  let n := Qnum x in
  let d := Zpos (Qden x) in
  let k := n / d in
  match (2 * (n mod d)) ?= d with
  | Lt => k
  | Gt => k + 1
  | Eq => if Z.even k then k else k + 1
  end.

(** [x < y] and [x <= y] on floats. *)
Definition ltb (x y : Q) : bool := negb (Qle_bool y x).
Definition leb (x y : Q) : bool := Qle_bool x y.

(** [x in l] on a list of floats. *)
Definition contains (x : Q) (l : list Q) : bool :=
  existsb (Qeq_bool x) l.

(** [l.index(x)]: position of the first equal element. *)
Fixpoint index_of (x : Q) (l : list Q) : result Z :=
  match l with
  | [] => Raise ValueError
  | y :: l' =>
      if Qeq_bool y x then Ok 0
      else result_bind (index_of x l') (fun i => Ok (i + 1))
  end.

End Py.

(** ** Two-dimensional buffers *)

(** The two leading axes of a numpy array: [shape] is (rows, columns) and
    [rows] lists the cells row by row.  What a cell holds (a boolean, the
    samples of one pixel) is up to the user of the type. *)
Record grid (A : Type) : Type := Grid {
  shape : Z * Z;
  rows : list (list A)
}.

Section GridOps.
Context {A B : Type}.

Definition grid_wf (g : grid A) : Prop :=
  0 <= fst (shape g) /\ 0 <= snd (shape g) /\
  Z.of_nat (length (rows g)) = fst (shape g) /\
  Forall (fun row => Z.of_nat (length row) = snd (shape g)) (rows g).

(** The cell at row [r], column [c]. *)
Definition cell (g : grid A) (r c : Z) : option A :=
  if (r <? 0) || (c <? 0) then None
  else match nth_error (rows g) (Z.to_nat r) with
       | Some row => nth_error row (Z.to_nat c)
       | None => None
       end.

Definition tabulate (h w : Z) (f : Z -> Z -> A) : grid A :=
  Grid (Z.max 0 h, Z.max 0 w)
       (map (fun r => map (f r) (Py.range 0 w)) (Py.range 0 h)).

Definition grid_map (f : A -> B) (g : grid A) : grid B :=
  Grid (shape g) (map (map f) (rows g)).

Definition is_empty (g : grid A) : bool :=
  (fst (shape g) <=? 0) || (snd (shape g) <=? 0).

(** Constant padding of the two leading axes:
    [top]/[bottom] rows and [lft]/[rgt] columns of [fill]. *)
Definition pad_cells (fill : A) (top bottom lft rgt : Z) (g : grid A)
  : grid A :=
  let '(h, w) := shape g in
  let blank := repeat fill (Z.to_nat (lft + w + rgt)) in
  Grid (top + h + bottom, lft + w + rgt)
       (repeat blank (Z.to_nat top)
        ++ map (fun row => repeat fill (Z.to_nat lft) ++ row
                           ++ repeat fill (Z.to_nat rgt)) (rows g)
        ++ repeat blank (Z.to_nat bottom)).

End GridOps.

(** ** numpy arrays *)

Inductive scalar : Type :=
| Int (z : Z)
| Float (q : Q).

(** The two dtype classes the code tells apart:
    [np.issubdtype(dtype, np.integer)] or not. *)
Inductive dtype_class : Type := np_integer | np_floating.

(** A pixel buffer of shape (h, w) or (h, w, channels): every cell of [px]
    lists the samples of one pixel (one sample when there is no channel
    axis). *)
Record ndarray : Type := NDArray {
  dtype : dtype_class;
  channels : option nat;
  px : grid (list scalar)
}.

(** A validity (alpha) mask: a boolean array of shape (h, w). *)
Definition mask : Type := grid bool.

Definition ndarray_wf (a : ndarray) : Prop := grid_wf (px a).

Definition zero_of (d : dtype_class) : scalar :=
  match d with
  | np_integer => Int 0
  | np_floating => Float 0
  end.

Definition zero_cell (a : ndarray) : list scalar :=
  repeat (zero_of (dtype a))
         (match channels a with Some c => c | None => 1%nat end).

Definition negative_pad (padding : (Z * Z) * (Z * Z)) : bool :=
  let '((top, bottom), (lft, rgt)) := padding in
  (top <? 0) || (bottom <? 0) || (lft <? 0) || (rgt <? 0).

(** [np.pad(a, padding + [(0, 0)] * (a.ndim - 2), "constant",
    constant_values=0)]; numpy refuses negative pad widths. *)
Definition np_pad (a : ndarray) (padding : (Z * Z) * (Z * Z))
  : result ndarray :=
  let '((top, bottom), (lft, rgt)) := padding in
  if negative_pad padding then Raise ValueError
  else Ok (NDArray (dtype a) (channels a)
             (pad_cells (zero_cell a) top bottom lft rgt (px a))).

(** [np.pad(m, padding, "constant", constant_values=0)] on a mask. *)
Definition np_pad_mask (m : mask) (padding : (Z * Z) * (Z * Z))
  : result mask :=
  let '((top, bottom), (lft, rgt)) := padding in
  if negative_pad padding then Raise ValueError
  else Ok (pad_cells false top bottom lft rgt m).

(** [np.ones((h, w), bool)]; numpy refuses negative dimensions. *)
Definition np_ones (h w : Z) : result mask :=
  if (h <? 0) || (w <? 0) then Raise ValueError
  else Ok (tabulate h w (fun _ _ => true)).

Definition nonzero (v : scalar) : bool :=
  match v with
  | Int z => negb (z =? 0)
  | Float q => negb (Qeq_bool q 0)
  end.

(** [m.astype(np.uint8)] and [a.astype(bool)]. *)
Definition mask_astype_uint8 (m : mask) : ndarray :=
  NDArray np_integer None
    (grid_map (fun b : bool => [Int (if b then 1 else 0)]) m).

Definition astype_bool (a : ndarray) : mask :=
  grid_map (existsb nonzero) (px a).

(** ** The handle's state and the reader's abstract members *)

(** One call of the backend's [_read_region]. *)
Record fetch : Type := Fetch {
  fetch_x_y : Z * Z;
  fetch_level : Z;
  fetch_tile_size : Z * Z
}.

(** The mutable part of a reader object: the memoised attribute
    [_level_downsamples] ([None] while [hasattr] is false) and the backend
    fetches performed so far, latest first. *)
Record handle : Type := Handle {
  _level_downsamples : option (list Q);
  fetches : list fetch
}.

(** The members a backend provides.  [level_downsamples_native] is [Some]
    for a backend that overrides the [level_downsamples] property with the
    format's own factors, [None] for one that inherits the derived list. *)
Record WSIReader : Type := Reader {
  level_count : Z;
  level_dimensions : list (Z * Z);
  level_downsamples_native : option (list Q);
  _read_region : Z * Z -> Z -> Z * Z -> result (ndarray * mask)
}.

(** A stateful computation that may raise; the state survives a raise. *)
Definition M (A : Type) : Type := handle -> result A * handle.

Definition ret {A} (a : A) : M A := fun s => (Ok a, s).

Definition raise {A} (e : exn) : M A := fun s => (Raise e, s).

Definition lift {A} (m : result A) : M A := fun s => (m, s).

Definition bind {A B} (m : M A) (k : A -> M B) : M B :=
  fun s =>
    match m s with
    | (Ok a, s') => k a s'
    | (Raise e, s') => (Raise e, s')
    end.

Declare Scope wsi_scope.
Delimit Scope wsi_scope with wsi.
Notation "x <- m ;; k" := (bind m (fun x => k))
  (at level 61, m at next level, right associativity) : wsi_scope.
Notation "m ;;; k" := (bind m (fun _ => k))
  (at level 61, right associativity) : wsi_scope.
Open Scope wsi_scope.

(** [tile_size] as the callers may pass it: a scalar or a (width, height)
    tuple. *)
Inductive size_arg : Type :=
| Scalar (n : Z)
| Pair (w h : Z).

Definition as_pair (tile_size : size_arg) : Z * Z :=
  match tile_size with
  | Scalar n => (n, n)
  | Pair w h => (w, h)
  end.

Definition invalid_downsample : exn :=
  RuntimeError "Downsample factor must be positive".

(** ** The [WSIReader] base class *)

Section Base.

(** The bicubic kernel of [cv2.resize]: the samples of the destination
    cell at row [r], column [c], given the source and the destination
    size (width, height).  Its arithmetic is outside this development. *)
Variable INTER_CUBIC : ndarray -> Z * Z -> Z -> Z -> list scalar.

(** The channel axis of what [cv2.resize] returns: OpenCV gives a
    one-channel image back as a two-dimensional array. *)
Definition resized_channels (c : option nat) : option nat :=
  match c with
  | Some 1%nat => None
  | _ => c
  end.

(** [cv2.resize(src, dsize, interpolation=cv2.INTER_CUBIC)]: [dsize] is
    (width, height); OpenCV rejects an empty source and an empty or
    negative destination. *)
Definition cv2_resize (src : ndarray) (dsize : Z * Z) : result ndarray :=
  let '(w, h) := dsize in
  if is_empty (px src) || (w <=? 0) || (h <=? 0) then Raise cv2_error
  else Ok (NDArray (dtype src) (resized_channels (channels src))
             (tabulate h w (INTER_CUBIC src dsize))).

(** [cv2.resize(m.astype(np.uint8), dsize,
    interpolation=cv2.INTER_CUBIC).astype(bool)] *)
Definition resize_mask (m : mask) (dsize : Z * Z) : result mask :=
  result_bind (cv2_resize (mask_astype_uint8 m) dsize)
              (fun a => Ok (astype_bool a)).

Definition div255 (v : scalar) : scalar :=
  match v with
  | Int z => Float (Qred (inject_Z z / 255))
  | Float q => Float (Qred (q / 255))
  end.

(** [WSIReader._normalize] *)
Definition _normalize (pixels : ndarray) : ndarray :=
  match dtype pixels with
  | np_integer =>
      NDArray np_floating (channels pixels)
              (grid_map (map div255) (px pixels))
  | np_floating => pixels
  end.

Variable self : WSIReader.

(** The call [self._read_region(x_y, level, tile_size)]. *)
Definition call_read_region (x_y : Z * Z) (level : Z) (tile_size : Z * Z)
  : M (ndarray * mask) :=
  fun s =>
    (_read_region self x_y level tile_size,
     Handle (_level_downsamples s)
            (Fetch x_y level tile_size :: fetches s)).

(** The body of the loop of the [level_downsamples] property: one
    factor is appended to the attribute per level. *)
Fixpoint fill_level_downsamples (width : Z) (levels : list Z) : M unit :=
  match levels with
  | [] => ret tt
  | level :: rest =>
      wh <- lift (Py.index (level_dimensions self) level) ;;
      q <- lift (Py.truediv width (fst wh)) ;;
      let ds := inject_Z (Py.round q) in
      (fun s =>
         (Ok tt,
          Handle (match _level_downsamples s with
                  | Some l => Some (l ++ [ds])
                  | None => Some [ds]
                  end)
                 (fetches s))) ;;;
      fill_level_downsamples width rest
  end.

(** [WSIReader.level_downsamples] (a memoised property), or the
    backend's own list where the backend overrides it. *)
Definition level_downsamples : M (list Q) :=
  match level_downsamples_native self with
  | Some l => ret l
  | None =>
      fun s =>
        match _level_downsamples s with
        | Some l => (Ok l, s)
        | None =>
            ((fun s0 => (Ok tt, Handle (Some []) (fetches s0))) ;;;
             wh <- lift (Py.index (level_dimensions self) 0) ;;
             fill_level_downsamples (fst wh)
               (Py.range 0 (level_count self)) ;;;
             (fun s1 =>
                (match _level_downsamples s1 with
                 | Some l => Ok l
                 | None => Ok []
                 end, s1))) s
        end
  end.

(** The [for] loop of [get_best_level_for_downsample]: [Some] is the
    value returned from inside the loop, [None] means the loop ran out. *)
Fixpoint scan_levels (downsample : Q) (levels : list Z) : M (option Z) :=
  match levels with
  | [] => ret None
  | i :: rest =>
      lds <- level_downsamples ;;
      d <- lift (Py.index lds i) ;;
      if Py.ltb downsample d then ret (Some (i - 1))
      else scan_levels downsample rest
  end.

(** [WSIReader.get_best_level_for_downsample] *)
Definition get_best_level_for_downsample (downsample : Q) : M Z :=
  lds <- level_downsamples ;;
  d0 <- lift (Py.index lds 0) ;;
  if Py.ltb downsample d0 then ret 0
  else
    found <- scan_levels downsample (Py.range 1 (level_count self)) ;;
    match found with
    | Some level => ret level
    | None => ret (level_count self - 1)
    end.

(** Lines 61-66 of [read_region]: clipping of the request against the
    level, both axes. *)
Definition clip (x y tile_w tile_h width height : Z)
  : (Z * Z) * (Z * Z) :=
  let tile_w := if x <? 0 then tile_w + x else tile_w in
  let tile_h := if y <? 0 then tile_h + y else tile_h in
  let x := Z.max x 0 in
  let y := Z.max y 0 in
  let tile_w := if x + tile_w >? width then width - x else tile_w in
  let tile_h := if y + tile_h >? height then height - y else tile_h in
  ((x, y), (tile_w, tile_h)).

(** [WSIReader.read_region].  The first component of [g] is the local
    [downsample]; it is bound on the synthesised path only, the plain
    path never reads it. *)
Definition read_region (x_y : Z * Z) (level : Z) (tile_size : size_arg)
           (normalize downsample_level_0 : bool) : M (ndarray * mask) :=
  let tile_size := as_pair tile_size in
  let '(x, y) := x_y in
  let synth := downsample_level_0 && (level >? 0) in
  g <- (if synth then
          d0 <- lift (Py.index (level_dimensions self) 0) ;;
          dl <- lift (Py.index (level_dimensions self) level) ;;
          q <- lift (Py.truediv (fst d0) (fst dl)) ;;
          let downsample := Py.round q in
          ret (downsample,
               (x * downsample, y * downsample),
               (fst tile_size * downsample, snd tile_size * downsample),
               d0)
        else
          wh <- lift (Py.index (level_dimensions self) level) ;;
          ret (1, (x, y), tile_size, wh)) ;;
  let '(downsample, (x, y), (tile_w, tile_h), (width, height)) := g in
  let '((x, y), (tile_w, tile_h)) :=
    clip x y tile_w tile_h width height in
  fetched <- call_read_region
               (x, y) (if downsample_level_0 then 0 else level)
               (tile_w, tile_h) ;;
  let '(tile, alfa_mask) := fetched in
  g <- (if synth then
          tile_w <- lift (Py.floordiv tile_w downsample) ;;
          tile_h <- lift (Py.floordiv tile_h downsample) ;;
          x <- lift (Py.floordiv x downsample) ;;
          y <- lift (Py.floordiv y downsample) ;;
          tile <- lift (cv2_resize tile (tile_w, tile_h)) ;;
          alfa_mask <- lift (resize_mask alfa_mask (tile_w, tile_h)) ;;
          ret ((x, y), (tile_w, tile_h), tile, alfa_mask)
        else ret ((x, y), (tile_w, tile_h), tile, alfa_mask)) ;;
  let '((x, y), (tile_w, tile_h), tile, alfa_mask) := g in
  let tile := if normalize then _normalize tile else tile in
  let padding :=
    ((y - snd x_y, snd tile_size - tile_h + Z.min (snd x_y) 0),
     (x - fst x_y, fst tile_size - tile_w + Z.min (fst x_y) 0)) in
  tile <- lift (np_pad tile padding) ;;
  alfa_mask <- lift (np_pad_mask alfa_mask padding) ;;
  ret (tile, alfa_mask).

(** [WSIReader.read_region_ds] *)
Definition read_region_ds (x_y : Z * Z) (downsample : Q)
           (tile_size : size_arg) (normalize downsample_level_0 : bool)
  : M (ndarray * mask) :=
  if Py.leb downsample 0 then raise invalid_downsample
  else
    let tile_size := as_pair tile_size in
    let downsample_level_0 :=
      if Qeq_bool downsample 1 then false else downsample_level_0 in
    lds <- level_downsamples ;;
    g <- (if Py.contains downsample lds && negb downsample_level_0 then
            level <- get_best_level_for_downsample downsample ;;
            read_region x_y level (Pair (fst tile_size) (snd tile_size))
                        false false
          else
            level <- (if downsample_level_0 then ret 0
                      else get_best_level_for_downsample downsample) ;;
            lds <- level_downsamples ;;
            dx <- lift (Py.index lds level) ;;
            xl <- lift (Py.fdiv (inject_Z (fst x_y) * downsample) dx) ;;
            lds <- level_downsamples ;;
            dy <- lift (Py.index lds level) ;;
            yl <- lift (Py.fdiv (inject_Z (snd x_y) * downsample) dy) ;;
            lds <- level_downsamples ;;
            dw <- lift (Py.index lds level) ;;
            wl <- lift (Py.fdiv (inject_Z (fst tile_size) * downsample)
                                dw) ;;
            lds <- level_downsamples ;;
            dh <- lift (Py.index lds level) ;;
            hl <- lift (Py.fdiv (inject_Z (snd tile_size) * downsample)
                                dh) ;;
            fetched <- read_region
                         (Py.round xl, Py.round yl) level
                         (Pair (Py.round wl) (Py.round hl))
                         false downsample_level_0 ;;
            let '(tile, alfa_mask) := fetched in
            tile <- lift (cv2_resize tile tile_size) ;;
            alfa_mask <- lift (resize_mask alfa_mask tile_size) ;;
            ret (tile, alfa_mask)) ;;
    let '(tile, alfa_mask) := g in
    let tile := if normalize then _normalize tile else tile in
    ret (tile, alfa_mask).

(** [WSIReader.get_dimensions_for_downsample] *)
Definition get_dimensions_for_downsample (downsample : Q) : M (Z * Z) :=
  if Py.leb downsample 0 then raise invalid_downsample
  else
    lds <- level_downsamples ;;
    if Py.contains downsample lds then
      lds <- level_downsamples ;;
      level <- lift (Py.index_of downsample lds) ;;
      lift (Py.index (level_dimensions self) level)
    else
      wh <- lift (Py.index (level_dimensions self) 0) ;;
      let '(w, h) := wh in
      qw <- lift (Py.fdiv (inject_Z w) downsample) ;;
      qh <- lift (Py.fdiv (inject_Z h) downsample) ;;
      ret (Py.round qw, Py.round qh).

(** [WSIReader.get_downsampled_slide]; [dims] is (width, height). *)
Definition get_downsampled_slide (dims : Z * Z) (normalize : bool)
  : M (ndarray * mask) :=
  wh <- lift (Py.index (level_dimensions self) 0) ;;
  qw <- lift (Py.truediv (fst wh) (fst dims)) ;;
  qh <- lift (Py.truediv (snd wh) (snd dims)) ;;
  let downsample := if Py.ltb qh qw then qh else qw in
  size <- get_dimensions_for_downsample downsample ;;
  read_region_ds (0, 0) downsample (Pair (fst size) (snd size))
                 normalize false.

End Base.

(** A keyword argument the caller may leave out: [None] is a call
    without it, which takes the default of the signature. *)
Definition keyword {A} (default : A) (arg : option A) : A :=
  match arg with
  | Some a => a
  | None => default
  end.

(** [read_region] as its signature lets it be called:
    [normalize: bool = True, downsample_level_0: bool = False]. *)
Definition read_region_with_defaults
           (INTER_CUBIC : ndarray -> Z * Z -> Z -> Z -> list scalar)
           (self : WSIReader) (x_y : Z * Z) (level : Z)
           (tile_size : size_arg) (normalize downsample_level_0 : option bool)
  : M (ndarray * mask) :=
  read_region INTER_CUBIC self x_y level tile_size
              (keyword true normalize) (keyword false downsample_level_0).

(** ** The tifffile backend *)

Module Tiff.

(** One level of the zarr store behind a [TiffReader]: its cells are
    read on demand. *)
Record zarr_array : Type := ZArray {
  z_dtype : dtype_class;
  z_channels : option nat;
  z_shape : Z * Z;
  z_at : Z -> Z -> list scalar
}.

(** Bounds of the slice [start:stop] on an axis of length [len]
    (Python's [slice.indices], step 1). *)
Definition slice_bounds (len start stop : Z) : Z * Z :=
  let norm := fun i => if i <? 0 then Z.max (i + len) 0 else Z.min i len in
  (norm start, norm stop).

(** [a[y0:y1, x0:x1]] *)
Definition getitem (a : zarr_array) (y0 y1 x0 x1 : Z) : ndarray :=
  let '(h, w) := z_shape a in
  let '(r0, r1) := slice_bounds h y0 y1 in
  let '(c0, c1) := slice_bounds w x0 x1 in
  NDArray (z_dtype a) (z_channels a)
          (tabulate (r1 - r0) (c1 - c0)
                    (fun r c => z_at a (r0 + r) (c0 + c))).

(** [self._z[level]]: the group has one array per level, keyed by the
    level number. *)
Definition level_array (z : list zarr_array) (level : Z)
  : result zarr_array :=
  if level <? 0 then Raise KeyError
  else match nth_error z (Z.to_nat level) with
       | Some a => Ok a
       | None => Raise KeyError
       end.

(** [TiffReader._read_region] *)
Definition _read_region (z : list zarr_array)
           (x_y : Z * Z) (level : Z) (tile_size : Z * Z)
  : result (ndarray * mask) :=
  let '(x, y) := x_y in
  let '(tile_w, tile_h) := tile_size in
  result_bind (level_array z level) (fun a =>
  let tile := getitem a y (y + tile_h) x (x + tile_w) in
  result_bind (np_ones tile_h tile_w) (fun ones =>
  Ok (tile, ones))).

(** zarr opens the store of a multi-level series as a group holding one
    array per level; that is the store [TiffReader] below describes.  The
    store of a single-level series opens as one plain array, whose length
    and items are rows of the image and not levels. *)
Definition pyramidal (z : list zarr_array) : Prop := (2 <= length z)%nat.

(** A [TiffReader] over the group [z]: [level_count] is [len(self._z)],
    [level_dimensions] lists (imagewidth, imagelength) of each level,
    [level_downsamples] is inherited. *)
Definition TiffReader (z : list zarr_array) : WSIReader :=
  Reader (Z.of_nat (length z))
         (map (fun a => (snd (z_shape a), fst (z_shape a))) z)
         None
         (_read_region z).

End Tiff.

(** ** Sample slides *)

Module Samples.

(** A one-channel integer level of the given size whose pixel at
    (row, column) holds [(7 * row + 3 * column) mod 256]. *)
Definition gradient (h w : Z) : Tiff.zarr_array :=
  Tiff.ZArray np_integer (Some 1%nat) (h, w)
              (fun r c => [Int ((7 * r + 3 * c) mod 256)]).

(** Nearest-neighbour sampling, standing in for the bicubic kernel
    where a concrete one is needed. *)
Definition nearest (src : ndarray) (dsize : Z * Z) (r c : Z)
  : list scalar :=
  let '(h, w) := shape (px src) in
  match cell (px src) (r * h / snd dsize) (c * w / fst dsize) with
  | Some v => v
  | None => zero_cell src
  end.

Definition fresh : handle := Handle None [].

(** 1000 x 1000 at level 0, then 500 x 500 and 250 x 250. *)
Definition pyramid : WSIReader :=
  Tiff.TiffReader [gradient 1000 1000; gradient 500 500; gradient 250 250].

(** A single, empty level. *)
Definition empty_level : WSIReader := Tiff.TiffReader [gradient 0 0].

(** 1000 x 1000 at level 0 and 800 x 800 at level 1. *)
Definition shallow : WSIReader :=
  Tiff.TiffReader [gradient 1000 1000; gradient 800 800].

(** The blocks the tifffile backend returns for the fetches of the two
    concrete scenarios. *)
Definition corner40 : ndarray :=
  Tiff.getitem (gradient 1000 1000) 0 40 0 40.


Definition block150 : ndarray :=
  Tiff.getitem (gradient 500 500) 0 150 0 150.

Definition ones150 : mask := tabulate 150 150 (fun _ _ => true).

End Samples.

(** ** Further sample slides *)

Module Cases.

(** Level 1 has no columns: its factor cannot be computed. *)
Definition broken : WSIReader :=
  Tiff.TiffReader [Samples.gradient 1000 1000; Samples.gradient 0 0].

(** The state of [broken] after a failed access to [level_downsamples]. *)
Definition stale : handle := Handle (Some [1%Q]) [].

(** The state of [Samples.pyramid] once [level_downsamples] is memoised. *)
Definition memoised : handle := Handle (Some [1%Q; 2%Q; 4%Q]) [].

(** 8 x 8 at level 0 and 4 x 4 at level 1. *)
Definition two_level_store : list Tiff.zarr_array :=
  [Samples.gradient 8 8; Samples.gradient 4 4].

Definition two_level : WSIReader := Tiff.TiffReader two_level_store.

End Cases.

(** ** Results of sample reads *)

Module Runs.

(** [read_region((-3, 498), 1, 4, normalize=False,
    downsample_level_0=True)] on the sample pyramid, from a fresh
    handle. *)
Definition synthesised : result (ndarray * mask) * handle :=
  Eval vm_compute in
    read_region Samples.nearest Samples.pyramid (-3, 498) 1 (Scalar 4)
                false true Samples.fresh.

Definition synthesised_tile : ndarray :=
  match fst synthesised with
  | Ok (t, _) => t
  | Raise _ => NDArray np_integer None (Grid (0, 0) [])
  end.

Definition synthesised_mask : mask :=
  match fst synthesised with
  | Ok (_, m) => m
  | Raise _ => Grid (0, 0) []
  end.

(** [read_region_ds((1, 1), 3.0, (3, 2), normalize=True,
    downsample_level_0=True)] on the sample pyramid, from a fresh
    handle. *)
Definition resampled : result (ndarray * mask) * handle :=
  Eval vm_compute in
    read_region_ds Samples.nearest Samples.pyramid (1, 1) 3 (Pair 3 2)
                   true true Samples.fresh.

Definition resampled_tile : ndarray :=
  match fst resampled with
  | Ok (t, _) => t
  | Raise _ => NDArray np_integer None (Grid (0, 0) [])
  end.

Definition resampled_mask : mask :=
  match fst resampled with
  | Ok (_, m) => m
  | Raise _ => Grid (0, 0) []
  end.

End Runs.

(** ** The Philips backend: coordinates of a fetch *)

Module Philips.

(** One entry of [view.dimension_ranges(level)]: [start, step, end]. *)
Record dimension_range : Type := Range {
  first : Z;
  step : Z;
  last : Z
}.

(** The body of the loop of [IsyntaxReader.level_dimensions]: the
    dimensions of a level from its x and y ranges. *)
Definition level_dimension (rx ry : dimension_range) : result (Z * Z) :=
  result_bind (Py.floordiv (last rx + 1) (step rx)) (fun range_x =>
  result_bind (Py.floordiv (last ry + 1) (step ry)) (fun range_y =>
  Ok (range_x, range_y))).

(** An element of [IsyntaxReader.level_downsamples]:
    [float(dimension_ranges(level)[0][1])]. *)
Definition level_downsample (rx : dimension_range) : Q :=
  inject_Z (step rx).

(** The [view_range] that [IsyntaxReader._read_region] requests, [ds]
    being [self.level_downsamples[level]]. *)
Definition view_range (ds : Q) (x_y : Z * Z) (level : Z)
           (tile_size : Z * Z) : list Z :=
  let '(x_start, y_start) := x_y in
  let x_start := Py.round (inject_Z x_start * ds) in
  let y_start := Py.round (inject_Z y_start * ds) in
  let '(tile_w, tile_h) := tile_size in
  let x_end := Py.round (inject_Z x_start + inject_Z (tile_w - 1) * ds) in
  let y_end := Py.round (inject_Z y_start + inject_Z (tile_h - 1) * ds) in
  [x_start; x_end; y_start; y_end; level].

End Philips.

Unset Implicit Arguments.

(** * Vocabulary of the properties *)

(** The property has a settled value in state [s]: the backend's own list,
    or the memoised attribute. *)
Definition settled (r : WSIReader) (lds : list Q) (s : handle) : Prop :=
  level_downsamples_native r = Some lds \/
  (level_downsamples_native r = None /\ _level_downsamples s = Some lds).

Ltac run :=
  cbv beta delta [bind ret lift raise] in *; cbn beta iota in *.

(** Case analysis on a scrutinee of the goal that has no [match] inside. *)
Ltac destruct_innermost :=
  match goal with
  | |- context [match ?X with _ => _ end] =>
      lazymatch X with
      | context [match _ with _ => _ end] => fail
      | _ => destruct X eqn:?
      end
  end.

(** The value of the scan of [get_best_level_for_downsample] over a given
    list of factors. *)
Fixpoint scan_value (lds : list Q) (downsample : Q) (levels : list Z)
  : result (option Z) :=
  match levels with
  | [] => Ok None
  | i :: rest =>
      result_bind (Py.index lds i) (fun d =>
      if Py.ltb downsample d then Ok (Some (i - 1))
      else scan_value lds downsample rest)
  end.

(** The value of [get_best_level_for_downsample] for [level_count = n]
    and [level_downsamples = lds]. *)
Definition best_level_value (n : Z) (lds : list Q) (downsample : Q)
  : result Z :=
  result_bind (Py.index lds 0) (fun d0 =>
  if Py.ltb downsample d0 then Ok 0
  else result_bind (scan_value lds downsample (Py.range 1 n)) (fun found =>
       match found with
       | Some level => Ok level
       | None => Ok (n - 1)
       end)).

(** [R] holds between every two neighbours of the list. *)
Fixpoint chain {A} (R : A -> A -> Prop) (l : list A) : Prop :=
  match l with
  | x :: ((y :: _) as t) => R x y /\ chain R t
  | _ => True
  end.

Definition strictly_increasing (l : list Q) : Prop := chain Qlt l.

Definition non_decreasing (l : list Q) : Prop := chain Qle l.

(** Level dimensions that do not grow with the level, on either axis. *)
Definition non_increasing_dims (dims : list (Z * Z)) : Prop :=
  chain (fun a b => fst b <= fst a /\ snd b <= snd a) dims.

(** Order on the outcomes of the scan: a level found earlier is lower, and
    running out of levels is last. *)
Definition found_le (o1 o2 : option Z) : Prop :=
  match o1, o2 with
  | Some a, Some b => a <= b
  | _, None => True
  | None, Some _ => False
  end.

(** The factor the loop of [level_downsamples] appends for a level of
    dimensions [wh], [width] being the width of level 0. *)
Definition derived_factor (width : Z) (wh : Z * Z) : Q :=
  inject_Z (Py.round (Qred (inject_Z width / inject_Z (fst wh)))).

(** What [normalize=True] does to an outcome of [read_region]. *)
Definition normalized (res : result (ndarray * mask))
  : result (ndarray * mask) :=
  match res with
  | Ok (tile, alfa_mask) => Ok (_normalize tile, alfa_mask)
  | Raise e => Raise e
  end.

(** An outcome other than the invalid-downsample error. *)
Definition benign {A} (res : result A) : Prop :=
  res <> Raise invalid_downsample.

(** A computation that never ends in the invalid-downsample error. *)
Definition quiet {A} (m : M A) : Prop :=
  forall s, benign (fst (m s)).

(** The backend does not raise the invalid-downsample error itself. *)
Definition backend_quiet (r : WSIReader) : Prop :=
  forall x_y level tile_size, benign (_read_region r x_y level tile_size).

(** The padding [read_region] applies: (top, bottom), (left, right). *)
Definition padding_of (x_y tile_size clipped_x_y clipped_size : Z * Z)
  : (Z * Z) * (Z * Z) :=
  ((snd clipped_x_y - snd x_y,
    snd tile_size - snd clipped_size + Z.min (snd x_y) 0),
   (fst clipped_x_y - fst x_y,
    fst tile_size - fst clipped_size + Z.min (fst x_y) 0)).

(** The request lies inside the level. *)
Definition within (r : WSIReader) (x_y : Z * Z) (level : Z)
           (tile_size : Z * Z) : Prop :=
  exists W H,
    Py.index (level_dimensions r) level = Ok (W, H) /\
    0 <= fst x_y /\ 0 <= snd x_y /\
    fst x_y + fst tile_size <= W /\ snd x_y + snd tile_size <= H.

(** The contract of a backend: whenever a fetch that lies inside its
    level returns, the block and its mask have exactly the size asked
    for. *)
Definition backend_exact (r : WSIReader) : Prop :=
  forall x_y level tile_size bt bm,
    within r x_y level tile_size ->
    _read_region r x_y level tile_size = Ok (bt, bm) ->
    shape (px bt) = (snd tile_size, fst tile_size) /\
    shape bm = (snd tile_size, fst tile_size) /\
    ndarray_wf bt /\ grid_wf bm.

(** The factor [get_downsampled_slide] computes for a slide of
    [W] x [H] and a requested box of [w] x [h]:
    [min(W / w, H / h)]. *)
Definition uniform_factor (W H w h : Z) : Q :=
  let qw := Qred (inject_Z W / inject_Z w) in
  let qh := Qred (inject_Z H / inject_Z h) in
  if Py.ltb qh qw then qh else qw.

(** Every sample of the buffer satisfies [P]. *)
Definition all_samples (P : scalar -> Prop) (a : ndarray) : Prop :=
  Forall (Forall (Forall P)) (rows (px a)).

(** An 8-bit sample. *)
Definition is_uint8 (v : scalar) : Prop :=
  exists z, v = Int z /\ 0 <= z <= 255.

(** A floating sample in the unit range. *)
Definition in_unit_range (v : scalar) : Prop :=
  exists q, v = Float q /\ (0 <= q <= 1)%Q.

(** Every block the backend returns has the dtype class [k]. *)
Definition backend_dtype (r : WSIReader) (k : dtype_class) : Prop :=
  forall x_y level tile_size bt bm,
    _read_region r x_y level tile_size = Ok (bt, bm) -> dtype bt = k.

(** What [_normalize] makes of a buffer of dtype class [k]. *)
Definition divided (k : dtype_class) (t : ndarray) : ndarray :=
  match k with
  | np_integer =>
      NDArray np_floating (channels t) (grid_map (map div255) (px t))
  | np_floating => t
  end.

(** The tail of the resampling path of [read_region_ds]: the outcome of
    the level read is resized to [dsize] and normalised on demand. *)
Definition resampled
           (K : ndarray -> Z * Z -> Z -> Z -> list scalar)
           (dsize : Z * Z) (normalize : bool)
           (res : result (ndarray * mask)) : result (ndarray * mask) :=
  match res with
  | Ok (tile, alfa_mask) =>
      result_bind (cv2_resize K tile dsize) (fun tile =>
      result_bind (resize_mask K alfa_mask dsize) (fun alfa_mask =>
      Ok (if normalize then _normalize tile else tile, alfa_mask)))
  | Raise e => Raise e
  end.

(** * Properties *)

(** ** Ranges and list indexing *)

Lemma range_nil (a b : Z) : b <= a -> Py.range a b = [].
Proof.
  intros H. unfold Py.range.
  replace (Z.to_nat (b - a)) with 0%nat by lia. reflexivity.
Qed.

Lemma range_cons (a b : Z) : a < b -> Py.range a b = a :: Py.range (a + 1) b.
Proof.
  intros H. unfold Py.range.
  replace (Z.to_nat (b - a)) with (S (Z.to_nat (b - (a + 1)))) by lia.
  cbn [seq map]. f_equal; [lia|].
  rewrite <- seq_shift, map_map. apply map_ext. intros k. lia.
Qed.

Lemma range_length (a b : Z) : length (Py.range a b) = Z.to_nat (b - a).
Proof. unfold Py.range. now rewrite length_map, length_seq. Qed.

Lemma range_nth (a b : Z) (k : nat) :
  (k < Z.to_nat (b - a))%nat ->
  nth_error (Py.range a b) k = Some (a + Z.of_nat k).
Proof.
  intros H. unfold Py.range.
  rewrite nth_error_map, nth_error_seq.
  destruct (Nat.ltb_spec k (Z.to_nat (b - a))); [reflexivity | lia].
Qed.

Lemma In_range (a b i : Z) : In i (Py.range a b) <-> a <= i < b.
Proof.
  unfold Py.range. rewrite in_map_iff. split.
  - intros (k & <- & Hk). apply in_seq in Hk. lia.
  - intros H. exists (Z.to_nat (i - a)). split; [lia|].
    apply in_seq. lia.
Qed.

Lemma index_nonneg {A} (l : list A) (i : Z) (a : A) :
  0 <= i -> (Py.index l i = Ok a <-> nth_error l (Z.to_nat i) = Some a).
Proof.
  intros Hi. unfold Py.index.
  destruct (Z.ltb_spec i 0); [lia|].
  destruct (Z.ltb_spec i 0); [lia|]. cbn [orb].
  destruct (Z.leb_spec (Z.of_nat (length l)) i) as [Hle|Hlt].
  - split; [discriminate|]. intros Hn.
    assert (nth_error l (Z.to_nat i) <> None) as Hs by congruence.
    apply nth_error_Some in Hs. lia.
  - destruct (nth_error l (Z.to_nat i)) eqn:E.
    + split; congruence.
    + split; discriminate.
Qed.

Lemma index_in_range {A} (l : list A) (i : Z) :
  0 <= i < Z.of_nat (length l) -> exists a, Py.index l i = Ok a.
Proof.
  intros Hi. destruct (nth_error l (Z.to_nat i)) eqn:E.
  - exists a. now apply index_nonneg.
  - apply nth_error_None in E. lia.
Qed.

Lemma index_raises {A} (l : list A) (i : Z) (e : exn) :
  Py.index l i = Raise e -> e = IndexError.
Proof.
  unfold Py.index. intros H.
  destruct (_ || _); [congruence|].
  destruct (nth_error _ _); congruence.
Qed.

(** ** Grids *)

Lemma nth_error_repeat_lt {A} (x : A) (n k : nat) :
  (k < n)%nat -> nth_error (repeat x n) k = Some x.
Proof.
  revert k. induction n as [|n IH]; intros k Hk; [lia|].
  destruct k; cbn; [reflexivity|]. apply IH. lia.
Qed.

Section GridFacts.
Context {A : Type}.

Lemma tabulate_wf (h w : Z) (f : Z -> Z -> A) : grid_wf (tabulate h w f).
Proof.
  unfold grid_wf, tabulate. cbn [shape rows fst snd].
  repeat split; try lia.
  - rewrite length_map, range_length. lia.
  - apply Forall_forall. intros row Hin.
    apply in_map_iff in Hin. destruct Hin as (r & <- & _).
    rewrite length_map, range_length. lia.
Qed.

Lemma cell_tabulate (h w : Z) (f : Z -> Z -> A) (r c : Z) :
  0 <= r < h -> 0 <= c < w -> cell (tabulate h w f) r c = Some (f r c).
Proof.
  intros Hr Hc. unfold cell, tabulate. cbn [rows].
  destruct (Z.ltb_spec r 0); [lia|]. destruct (Z.ltb_spec c 0); [lia|].
  cbn [orb].
  rewrite nth_error_map, range_nth by lia. cbn [option_map].
  rewrite nth_error_map, range_nth by lia. cbn [option_map].
  f_equal. f_equal; lia.
Qed.

Lemma pad_cells_shape (fill : A) (top bottom lft rgt : Z) (g : grid A) :
  shape (pad_cells fill top bottom lft rgt g)
  = (top + fst (shape g) + bottom, lft + snd (shape g) + rgt).
Proof. unfold pad_cells. destruct (shape g). reflexivity. Qed.

Lemma pad_cells_wf (fill : A) (top bottom lft rgt : Z) (g : grid A) :
  grid_wf g -> 0 <= top -> 0 <= bottom -> 0 <= lft -> 0 <= rgt ->
  grid_wf (pad_cells fill top bottom lft rgt g).
Proof.
  unfold grid_wf, pad_cells. destruct (shape g) as [h w].
  cbn [shape rows fst snd].
  intros (Hh & Hw & Hlen & Hrows) Ht Hb Hl Hr.
  repeat split; try lia.
  - rewrite !length_app, !repeat_length, length_map. lia.
  - rewrite !Forall_app. repeat split.
    + apply Forall_forall. intros row Hin. apply repeat_spec in Hin.
      subst row. rewrite repeat_length. lia.
    + apply Forall_map. eapply Forall_impl; [|exact Hrows].
      intros row Hrow. cbn beta in *.
      rewrite !length_app, !repeat_length. lia.
    + apply Forall_forall. intros row Hin. apply repeat_spec in Hin.
      subst row. rewrite repeat_length. lia.
Qed.

(** A cell of the padded grid that lies over the original one. *)
Lemma cell_pad_cells_inner (fill : A) (top bottom lft rgt : Z)
      (g : grid A) (r c : Z) :
  grid_wf g -> 0 <= top -> 0 <= lft ->
  top <= r < top + fst (shape g) -> lft <= c < lft + snd (shape g) ->
  cell (pad_cells fill top bottom lft rgt g) r c
  = cell g (r - top) (c - lft).
Proof.
  unfold grid_wf, cell, pad_cells. destruct (shape g) as [h w].
  cbn [shape rows fst snd].
  intros (Hh & Hw & Hlen & Hrows) Ht Hl Hr Hc.
  destruct (Z.ltb_spec r 0); [lia|]. destruct (Z.ltb_spec c 0); [lia|].
  destruct (Z.ltb_spec (r - top) 0); [lia|].
  destruct (Z.ltb_spec (c - lft) 0); [lia|]. cbn [orb].
  rewrite nth_error_app2 by (rewrite repeat_length; lia).
  rewrite repeat_length.
  rewrite nth_error_app1 by (rewrite length_map; lia).
  rewrite nth_error_map.
  replace (Z.to_nat r - Z.to_nat top)%nat with (Z.to_nat (r - top)) by lia.
  destruct (nth_error (rows g) (Z.to_nat (r - top))) as [row|] eqn:E;
    cbn [option_map].
  - assert (Hrow : Z.of_nat (length row) = w).
    { rewrite Forall_forall in Hrows. apply Hrows.
      eapply nth_error_In; eauto. }
    rewrite nth_error_app2 by (rewrite repeat_length; lia).
    rewrite repeat_length.
    rewrite nth_error_app1 by lia.
    f_equal. lia.
  - apply nth_error_None in E. lia.
Qed.

(** A cell of the padded grid that lies in the padding. *)
Lemma cell_pad_cells_fill (fill : A) (top bottom lft rgt : Z)
      (g : grid A) (r c : Z) :
  grid_wf g -> 0 <= top -> 0 <= bottom -> 0 <= lft -> 0 <= rgt ->
  0 <= r < top + fst (shape g) + bottom ->
  0 <= c < lft + snd (shape g) + rgt ->
  r < top \/ top + fst (shape g) <= r \/
  c < lft \/ lft + snd (shape g) <= c ->
  cell (pad_cells fill top bottom lft rgt g) r c = Some fill.
Proof.
  unfold grid_wf, cell, pad_cells. destruct (shape g) as [h w].
  cbn [shape rows fst snd].
  intros (Hh & Hw & Hlen & Hrows) Ht Hb Hl Hrg Hr Hc Hout.
  destruct (Z.ltb_spec r 0); [lia|]. destruct (Z.ltb_spec c 0); [lia|].
  cbn [orb].
  destruct (Z.ltb_spec r top) as [Hrt|Hrt].
  { rewrite nth_error_app1 by (rewrite repeat_length; lia).
    rewrite nth_error_repeat_lt by lia.
    apply nth_error_repeat_lt. lia. }
  rewrite nth_error_app2 by (rewrite repeat_length; lia).
  rewrite repeat_length.
  destruct (Z.ltb_spec r (top + h)) as [Hrb|Hrb].
  - rewrite nth_error_app1 by (rewrite length_map; lia).
    rewrite nth_error_map.
    destruct (nth_error (rows g) (Z.to_nat r - Z.to_nat top)) as [row|]
      eqn:E; cbn [option_map].
    + assert (Hrow : Z.of_nat (length row) = w).
      { rewrite Forall_forall in Hrows. apply Hrows.
        eapply nth_error_In; eauto. }
      destruct (Z.ltb_spec c lft) as [Hcl|Hcl].
      * rewrite nth_error_app1 by (rewrite repeat_length; lia).
        apply nth_error_repeat_lt. lia.
      * rewrite nth_error_app2 by (rewrite repeat_length; lia).
        rewrite repeat_length.
        rewrite nth_error_app2 by lia.
        apply nth_error_repeat_lt. lia.
    + apply nth_error_None in E. lia.
  - rewrite nth_error_app2 by (rewrite length_map; lia).
    rewrite length_map.
    rewrite nth_error_repeat_lt by lia.
    apply nth_error_repeat_lt. lia.
Qed.

End GridFacts.

Lemma grid_map_pad_cells {A B} (f : A -> B) (fill : A)
      (top bottom lft rgt : Z) (g : grid A) :
  grid_map f (pad_cells fill top bottom lft rgt g)
  = pad_cells (f fill) top bottom lft rgt (grid_map f g).
Proof.
  unfold grid_map, pad_cells. cbn [shape rows].
  destruct (shape g) as [h w]. cbn [shape rows]. f_equal.
  rewrite !map_app, !map_repeat, !map_map. f_equal. f_equal.
  apply map_ext. intros row. now rewrite !map_app, !map_repeat.
Qed.

(** ** The [level_downsamples] property *)

Lemma settled_eval (r : WSIReader) (lds : list Q) (s : handle) :
  settled r lds s -> level_downsamples r s = (Ok lds, s).
Proof.
  unfold settled, level_downsamples.
  intros [-> | [-> ->]]; reflexivity.
Qed.

Lemma settled_fetches (r : WSIReader) (lds : list Q) (s : handle)
      (f : list fetch) :
  settled r lds s -> settled r lds (Handle (_level_downsamples s) f).
Proof. unfold settled. cbn. tauto. Qed.

Lemma fill_level_downsamples_frame (r : WSIReader) (width : Z)
      (levels : list Z) (s s' : handle) (res : result unit) :
  fill_level_downsamples r width levels s = (res, s') ->
  fetches s' = fetches s /\
  (_level_downsamples s <> None -> _level_downsamples s' <> None).
Proof.
  revert s. induction levels as [|level rest IH]; intros s H.
  - cbn in H. run. inversion H; subst. tauto.
  - cbn [fill_level_downsamples] in H. run.
    destruct (Py.index (level_dimensions r) level) as [wh|e];
      [|inversion H; subst; tauto].
    destruct (Py.truediv width (fst wh)) as [q|e];
      [|inversion H; subst; tauto].
    apply IH in H. cbn [fetches _level_downsamples] in H.
    destruct H as [Hf Hc]. split; [exact Hf|].
    intros _. apply Hc. destruct (_level_downsamples s); discriminate.
Qed.

(** Whenever the property returns, its value is settled from then on and
    no backend fetch was made. *)
Lemma level_downsamples_settles (r : WSIReader) (lds : list Q)
      (s s' : handle) :
  level_downsamples r s = (Ok lds, s') ->
  settled r lds s' /\ fetches s' = fetches s.
Proof.
  unfold level_downsamples, settled.
  destruct (level_downsamples_native r) as [l|] eqn:En.
  - unfold ret. intros H. inversion H; subst. tauto.
  - destruct (_level_downsamples s) as [l|] eqn:Ec.
    + intros H. inversion H; subst. tauto.
    + run. cbn [fetches _level_downsamples].
      destruct (Py.index (level_dimensions r) 0) as [wh|e];
        [|discriminate].
      destruct (fill_level_downsamples r (fst wh)
                  (Py.range 0 (level_count r))
                  (Handle (Some []) (fetches s))) as [[u|e] s1] eqn:Ef;
        [|discriminate].
      apply fill_level_downsamples_frame in Ef.
      cbn [fetches _level_downsamples] in Ef. destruct Ef as [Hf Hc].
      destruct (_level_downsamples s1) as [l|] eqn:E1.
      * intros H. inversion H; subst. rewrite E1. tauto.
      * exfalso. apply Hc; [discriminate | reflexivity].
Qed.

(** ** The level selector *)

Lemma scan_levels_eval (r : WSIReader) (lds : list Q) (d : Q)
      (levels : list Z) (s : handle) :
  settled r lds s ->
  scan_levels r d levels s = (scan_value lds d levels, s).
Proof.
  intros Hs. induction levels as [|i rest IH]; [reflexivity|].
  cbn [scan_levels scan_value]. run.
  rewrite (settled_eval _ _ _ Hs).
  destruct (Py.index lds i) as [x|e]; [|reflexivity].
  cbn [result_bind]. destruct (Py.ltb d x); [reflexivity | exact IH].
Qed.

Lemma get_best_level_settled (r : WSIReader) (lds : list Q) (d : Q)
      (s : handle) :
  settled r lds s ->
  get_best_level_for_downsample r d s
  = (best_level_value (level_count r) lds d, s).
Proof.
  intros Hs. unfold get_best_level_for_downsample, best_level_value. run.
  rewrite (settled_eval _ _ _ Hs).
  destruct (Py.index lds 0) as [d0|e]; [|reflexivity].
  cbn [result_bind]. destruct (Py.ltb d d0); [reflexivity|].
  rewrite (scan_levels_eval _ _ _ _ _ Hs).
  destruct (scan_value lds d _) as [[l|]|e]; reflexivity.
Qed.

Lemma get_best_level_eval (r : WSIReader) (lds : list Q) (d : Q)
      (s s' : handle) :
  level_downsamples r s = (Ok lds, s') ->
  get_best_level_for_downsample r d s
  = (best_level_value (level_count r) lds d, s').
Proof.
  intros H. destruct (level_downsamples_settles _ _ _ _ H) as [Hs _].
  pose proof (get_best_level_settled _ _ d _ Hs) as E.
  unfold get_best_level_for_downsample in *. run.
  rewrite H. rewrite (settled_eval _ _ _ Hs) in E. exact E.
Qed.

Lemma ltb_true (x y : Q) : Py.ltb x y = true <-> (x < y)%Q.
Proof.
  unfold Py.ltb. rewrite negb_true_iff.
  destruct (Qle_bool y x) eqn:E.
  - apply Qle_bool_iff in E. split; [discriminate|].
    intros H. exfalso. exact (Qlt_not_le _ _ H E).
  - split; [|reflexivity]. intros _.
    apply Qnot_le_lt. intros H. apply Qle_bool_iff in H. congruence.
Qed.

Lemma ltb_false (x y : Q) : Py.ltb x y = false <-> (y <= x)%Q.
Proof.
  unfold Py.ltb. rewrite negb_false_iff. apply Qle_bool_iff.
Qed.

Lemma leb_true (x y : Q) : Py.leb x y = true <-> (x <= y)%Q.
Proof. apply Qle_bool_iff. Qed.

Lemma leb_false (x y : Q) : Py.leb x y = false <-> (y < x)%Q.
Proof.
  unfold Py.leb. destruct (Qle_bool x y) eqn:E.
  - apply Qle_bool_iff in E. split; [discriminate|].
    intros H. exfalso. exact (Qlt_not_le _ _ H E).
  - split; [|reflexivity]. intros _.
    apply Qnot_le_lt. intros H. apply Qle_bool_iff in H. congruence.
Qed.

Lemma chain_head {A} (R : A -> A -> Prop) (a : A) (t : list A)
      (j : nat) (y : A) :
  (forall x y z, R x y -> R y z -> R x z) ->
  chain R (a :: t) -> nth_error t j = Some y -> R a y.
Proof.
  intros Htrans. revert a j.
  induction t as [|b t IH]; intros a j Hc Hy.
  - destruct j; discriminate.
  - destruct Hc as [Hab Hc]. destruct j as [|j]; cbn in Hy.
    + inversion Hy; subst. exact Hab.
    + eapply Htrans; [exact Hab|]. eapply IH; eauto.
Qed.

Lemma chain_tail {A} (R : A -> A -> Prop) (a : A) (t : list A) :
  chain R (a :: t) -> chain R t.
Proof. destruct t; cbn; tauto. Qed.

Lemma chain_nth {A} (R : A -> A -> Prop) (l : list A) (i j : nat) (x y : A) :
  (forall x y z, R x y -> R y z -> R x z) ->
  chain R l -> (i < j)%nat ->
  nth_error l i = Some x -> nth_error l j = Some y -> R x y.
Proof.
  intros Htrans. revert i j.
  induction l as [|a t IH]; intros i j Hc Hij Hx Hy.
  - destruct i; discriminate.
  - destruct j as [|j]; [lia|]. destruct i as [|i]; cbn in Hx, Hy.
    + inversion Hx; subst. eapply chain_head; eauto.
    + apply (IH i j); [eapply chain_tail; eauto | lia | assumption ..].
Qed.

Lemma chain_map {A B} (R : A -> A -> Prop) (R' : B -> B -> Prop)
      (P : A -> Prop) (f : A -> B) (l : list A) :
  (forall a b, R a b -> P a -> P b -> R' (f a) (f b)) ->
  Forall P l -> chain R l -> chain R' (map f l).
Proof.
  intros Hf. induction l as [|a t IH]; intros HP Hc; [exact I|].
  destruct t as [|b t]; [exact I|].
  destruct Hc as [Hab Hc]. inversion HP as [|? ? Pa HP']; subst.
  inversion HP' as [|? ? Pb _]; subst.
  split; [now apply Hf | now apply IH].
Qed.

Lemma strictly_increasing_nth (l : list Q) (i j : nat) (x y : Q) :
  strictly_increasing l -> (i < j)%nat ->
  nth_error l i = Some x -> nth_error l j = Some y -> (x < y)%Q.
Proof. apply chain_nth. intros a b c. apply Qlt_trans. Qed.

Lemma range_sorted (a b : Z) : StronglySorted Z.lt (Py.range a b).
Proof.
  remember (Z.to_nat (b - a)) as k eqn:Ek. revert a Ek.
  induction k as [|k IH]; intros a Ek.
  - rewrite range_nil by lia. constructor.
  - rewrite range_cons by lia. constructor.
    + apply IH. lia.
    + apply Forall_forall. intros i Hi. apply In_range in Hi. lia.
Qed.

Lemma scan_value_found (lds : list Q) (d : Q) (levels : list Z) (v : Z) :
  scan_value lds d levels = Ok (Some v) -> In (v + 1) levels.
Proof.
  induction levels as [|i rest IH]; cbn [scan_value]; [discriminate|].
  destruct (Py.index lds i) as [x|e]; cbn [result_bind]; [|discriminate].
  destruct (Py.ltb d x).
  - intros H. inversion H; subst. left. lia.
  - intros H. right. auto.
Qed.

Lemma scan_value_ok (lds : list Q) (d : Q) (levels : list Z) :
  (forall i, In i levels -> 0 <= i < Z.of_nat (length lds)) ->
  exists o, scan_value lds d levels = Ok o.
Proof.
  induction levels as [|i rest IH]; intros Hin; cbn [scan_value].
  - eauto.
  - destruct (@index_in_range _ lds i) as [x Hx]; [apply Hin; now left|].
    rewrite Hx. cbn [result_bind]. destruct (Py.ltb d x); [eauto|].
    apply IH. intros j Hj. apply Hin. now right.
Qed.

Lemma scan_value_mono (lds : list Q) (d1 d2 : Q) (levels : list Z)
      (o1 o2 : option Z) :
  StronglySorted Z.lt levels -> (d1 <= d2)%Q ->
  scan_value lds d1 levels = Ok o1 -> scan_value lds d2 levels = Ok o2 ->
  found_le o1 o2.
Proof.
  intros Hsorted Hd. revert o1 o2.
  induction Hsorted as [|i rest Hrest IH Hall]; cbn [scan_value];
    intros o1 o2 H1 H2.
  - inversion H1; inversion H2; subst. exact I.
  - destruct (Py.index lds i) as [x|e]; cbn [result_bind] in *;
      [|discriminate].
    destruct (Py.ltb d1 x) eqn:E1.
    + inversion H1; subst o1. destruct (Py.ltb d2 x) eqn:E2.
      * inversion H2; subst o2. cbn. lia.
      * destruct o2 as [b|]; cbn; [|exact I].
        apply scan_value_found in H2.
        rewrite Forall_forall in Hall. apply Hall in H2. lia.
    + assert (E2 : Py.ltb d2 x = false).
      { apply ltb_false. apply ltb_false in E1.
        eapply Qle_trans; eauto. }
      rewrite E2 in H2. eauto.
Qed.

Lemma best_level_value_range (n : Z) (lds : list Q) (d : Q) :
  1 <= n -> Z.of_nat (length lds) = n ->
  exists l, best_level_value n lds d = Ok l /\ 0 <= l < n.
Proof.
  intros Hn Hlen. unfold best_level_value.
  destruct (@index_in_range _ lds 0) as [d0 H0]; [lia|].
  rewrite H0. cbn [result_bind].
  destruct (Py.ltb d d0); [exists 0; split; [reflexivity | lia]|].
  destruct (@scan_value_ok lds d (Py.range 1 n)) as [o Ho].
  { intros i Hi. apply In_range in Hi. lia. }
  rewrite Ho. cbn [result_bind]. destruct o as [v|].
  - exists v. split; [reflexivity|].
    apply scan_value_found, In_range in Ho. lia.
  - exists (n - 1). split; [reflexivity | lia].
Qed.

Lemma best_level_value_mono (n : Z) (lds : list Q) (d1 d2 : Q) (l1 l2 : Z) :
  1 <= n -> (d1 <= d2)%Q ->
  best_level_value n lds d1 = Ok l1 -> best_level_value n lds d2 = Ok l2 ->
  l1 <= l2.
Proof.
  intros Hn Hd. unfold best_level_value.
  destruct (Py.index lds 0) as [d0|e]; cbn [result_bind]; [|discriminate].
  destruct (Py.ltb d1 d0) eqn:L1; destruct (Py.ltb d2 d0) eqn:L2.
  - intros H1 H2. inversion H1; inversion H2; lia.
  - intros H1. inversion H1; subst l1.
    destruct (scan_value lds d2 (Py.range 1 n)) as [[b|]|e2] eqn:E2;
      cbn [result_bind]; intros H2; inversion H2; subst.
    + apply scan_value_found, In_range in E2. lia.
    + lia.
  - exfalso. apply ltb_true in L2. apply ltb_false in L1.
    apply (Qlt_not_le _ _ L2). eapply Qle_trans; eauto.
  - destruct (scan_value lds d1 (Py.range 1 n)) as [o1|e1] eqn:E1;
      cbn [result_bind]; [|discriminate].
    destruct (scan_value lds d2 (Py.range 1 n)) as [o2|e2] eqn:E2;
      cbn [result_bind]; [|destruct o1; discriminate].
    assert (Hle : found_le o1 o2)
      by (eapply scan_value_mono; eauto using range_sorted).
    destruct o1 as [a|], o2 as [b|]; intros H1 H2;
      inversion H1; inversion H2; subst; cbn in Hle; try lia.
    apply scan_value_found, In_range in E1. lia.
Qed.

Lemma scan_value_exact (n : Z) (lds : list Q) (i : Z) (x : Q) :
  Z.of_nat (length lds) = n -> strictly_increasing lds ->
  0 <= i < n -> Py.index lds i = Ok x ->
  forall a, 1 <= a <= i + 1 ->
  scan_value lds x (Py.range a n)
  = Ok (if i + 1 <? n then Some i else None).
Proof.
  intros Hlen Hinc Hi Hx a Ha.
  remember (Z.to_nat (i + 1 - a)) as k eqn:Ek. revert a Ha Ek.
  apply index_nonneg in Hx; [|lia].
  induction k as [|k IH]; intros a Ha Ek.
  - assert (a = i + 1) by lia. subst a.
    destruct (Z.ltb_spec (i + 1) n) as [Hlt|Hge].
    + rewrite range_cons by lia. cbn [scan_value].
      destruct (@index_in_range _ lds (i + 1)) as [y Hy]; [lia|].
      rewrite Hy. cbn [result_bind].
      apply index_nonneg in Hy; [|lia].
      assert (Hxy : (x < y)%Q).
      { eapply strictly_increasing_nth;
          [exact Hinc | | eassumption | eassumption]. lia. }
      apply ltb_true in Hxy. rewrite Hxy. do 2 f_equal. lia.
    + now rewrite range_nil by lia.
  - rewrite range_cons by lia. cbn [scan_value].
    destruct (@index_in_range _ lds a) as [y Hy]; [lia|].
    rewrite Hy. cbn [result_bind].
    apply index_nonneg in Hy; [|lia].
    assert (Hyx : (y <= x)%Q).
    { destruct (Z.eq_dec a i) as [->|Hne].
      - assert (y = x) by congruence. subst. apply Qle_refl.
      - apply Qlt_le_weak.
        eapply strictly_increasing_nth;
          [exact Hinc | | eassumption | eassumption]. lia. }
    apply ltb_false in Hyx. rewrite Hyx. apply IH; lia.
Qed.

Lemma best_level_value_exact (n : Z) (lds : list Q) (i : Z) (x : Q) :
  Z.of_nat (length lds) = n -> strictly_increasing lds ->
  0 <= i < n -> Py.index lds i = Ok x ->
  best_level_value n lds x = Ok i.
Proof.
  intros Hlen Hinc Hi Hx. unfold best_level_value.
  destruct (@index_in_range _ lds 0) as [d0 H0]; [lia|].
  rewrite H0. cbn [result_bind].
  assert (Hle : (d0 <= x)%Q).
  { pose proof Hx as Hx'. apply index_nonneg in Hx'; [|lia].
    apply index_nonneg in H0; [|lia].
    destruct (Z.eq_dec i 0) as [->|Hne].
    - assert (d0 = x) by congruence. subst. apply Qle_refl.
    - apply Qlt_le_weak.
      eapply strictly_increasing_nth;
        [exact Hinc | | eassumption | eassumption]. lia. }
  apply ltb_false in Hle. rewrite Hle.
  rewrite (@scan_value_exact n lds i x Hlen Hinc Hi Hx) by lia.
  cbn [result_bind]. destruct (Z.ltb_spec (i + 1) n); f_equal; lia.
Qed.

(** C5.  On a slide whose [level_downsamples] are strictly increasing and
    start at 1.0, [get_best_level_for_downsample] is monotonic
    non-decreasing in its argument, and on the downsample of a valid level
    [i] it returns exactly [i]. *)
Theorem best_level_monotone_and_exact
        (r : WSIReader) (s s' : handle) (lds : list Q) :
  level_downsamples r s = (Ok lds, s') ->
  Z.of_nat (length lds) = level_count r ->
  strictly_increasing lds ->
  (exists q, nth_error lds 0 = Some q /\ (q == 1)%Q) ->
  (forall d1 d2 : Q, (d1 <= d2)%Q ->
     exists l1 l2,
       fst (get_best_level_for_downsample r d1 s) = Ok l1 /\
       fst (get_best_level_for_downsample r d2 s) = Ok l2 /\
       l1 <= l2) /\
  (forall (i : Z) (x : Q),
     0 <= i < level_count r -> Py.index lds i = Ok x ->
     fst (get_best_level_for_downsample r x s) = Ok i).
Proof.
  intros Hlds Hlen Hinc (q & Hq & _).
  assert (Hn : 1 <= level_count r).
  { destruct lds; [discriminate|]. cbn [length] in Hlen. lia. }
  split.
  - intros d1 d2 Hd.
    destruct (@best_level_value_range (level_count r) lds d1 Hn Hlen)
      as (l1 & E1 & _).
    destruct (@best_level_value_range (level_count r) lds d2 Hn Hlen)
      as (l2 & E2 & _).
    exists l1, l2. rewrite !(get_best_level_eval _ _ _ _ _ Hlds). cbn [fst].
    repeat split; try assumption.
    eapply best_level_value_mono; eauto.
  - intros i x Hi Hx. rewrite (get_best_level_eval _ _ _ _ _ Hlds). cbn [fst].
    now apply best_level_value_exact.
Qed.

(** C10.  On a slide with [level_count >= 1], for every downsample
    whatsoever (zero and negative ones included),
    [get_best_level_for_downsample] returns a level in
    [0, level_count); a downsample below [level_downsamples[0]] gives
    level 0. *)
Theorem best_level_in_range
        (r : WSIReader) (s s' : handle) (lds : list Q) (d : Q) :
  level_downsamples r s = (Ok lds, s') ->
  Z.of_nat (length lds) = level_count r ->
  1 <= level_count r ->
  exists l,
    get_best_level_for_downsample r d s = (Ok l, s') /\
    0 <= l < level_count r /\
    (forall d0, Py.index lds 0 = Ok d0 -> (d < d0)%Q -> l = 0).
Proof.
  intros Hlds Hlen Hn.
  destruct (@best_level_value_range (level_count r) lds d Hn Hlen)
    as (l & E & Hl).
  exists l. rewrite (get_best_level_eval _ _ _ _ _ Hlds), E.
  repeat split; try lia.
  intros d0 H0 Hd. unfold best_level_value in E. rewrite H0 in E.
  cbn [result_bind] in E. apply ltb_true in Hd. rewrite Hd in E.
  congruence.
Qed.

Lemma best_level_monotone_and_exact_witness :
  level_downsamples Samples.pyramid Samples.fresh
  = (Ok [1%Q; 2%Q; 4%Q], Handle (Some [1%Q; 2%Q; 4%Q]) []) /\
  Z.of_nat (length [1%Q; 2%Q; 4%Q]) = level_count Samples.pyramid /\
  strictly_increasing [1%Q; 2%Q; 4%Q] /\
  (exists q, nth_error [1%Q; 2%Q; 4%Q] 0 = Some q /\ (q == 1)%Q) /\
  (forall d1 d2 : Q, (d1 <= d2)%Q ->
     exists l1 l2,
       fst (get_best_level_for_downsample Samples.pyramid d1 Samples.fresh)
       = Ok l1 /\
       fst (get_best_level_for_downsample Samples.pyramid d2 Samples.fresh)
       = Ok l2 /\
       l1 <= l2) /\
  (forall (i : Z) (x : Q),
     0 <= i < level_count Samples.pyramid ->
     Py.index [1%Q; 2%Q; 4%Q] i = Ok x ->
     fst (get_best_level_for_downsample Samples.pyramid x Samples.fresh)
     = Ok i).
Proof.
  assert (Hinc : strictly_increasing [1%Q; 2%Q; 4%Q]).
  { vm_compute. repeat split. }
  assert (Hhd : exists q, nth_error [1%Q; 2%Q; 4%Q] 0 = Some q /\ (q == 1)%Q).
  { exists 1%Q. split; reflexivity. }
  split; [reflexivity|]. split; [reflexivity|].
  split; [exact Hinc|]. split; [exact Hhd|].
  apply (best_level_monotone_and_exact
           Samples.pyramid Samples.fresh
           (Handle (Some [1%Q; 2%Q; 4%Q]) []) [1%Q; 2%Q; 4%Q]);
    [reflexivity | reflexivity | exact Hinc | exact Hhd].
Defined.

Lemma best_level_in_range_witness :
  level_downsamples Samples.pyramid Samples.fresh
  = (Ok [1%Q; 2%Q; 4%Q], Handle (Some [1%Q; 2%Q; 4%Q]) []) /\
  Z.of_nat (length [1%Q; 2%Q; 4%Q]) = level_count Samples.pyramid /\
  1 <= level_count Samples.pyramid /\
  exists l,
    get_best_level_for_downsample Samples.pyramid (-3 # 2) Samples.fresh
    = (Ok l, Handle (Some [1%Q; 2%Q; 4%Q]) []) /\
    0 <= l < level_count Samples.pyramid /\
    (forall d0, Py.index [1%Q; 2%Q; 4%Q] 0 = Ok d0 ->
                (-3 # 2 < d0)%Q -> l = 0).
Proof.
  split; [reflexivity|]. split; [reflexivity|]. split; [cbn; lia|].
  apply (best_level_in_range
           Samples.pyramid Samples.fresh
           (Handle (Some [1%Q; 2%Q; 4%Q]) []) [1%Q; 2%Q; 4%Q] (-3 # 2));
    [reflexivity | reflexivity | cbn; lia].
Defined.

(** ** Rounding *)

(** [round] picks an integer within one half of its argument, and an even
    one on a tie. *)
Lemma round_spec (x : Q) :
  let R := Py.round x in
  let n := Qnum x in
  let d := Zpos (Qden x) in
  (2 * R - 1) * d <= 2 * n <= (2 * R + 1) * d /\
  (2 * n = (2 * R - 1) * d \/ 2 * n = (2 * R + 1) * d -> Z.even R = true).
Proof.
  cbv zeta. unfold Py.round.
  set (n := Qnum x). set (d := Zpos (Qden x)).
  assert (Hd : 0 < d) by (unfold d; lia).
  pose proof (Z.div_mod n d ltac:(lia)) as Hdm.
  pose proof (Z.mod_pos_bound n d Hd) as Hm.
  set (k := n / d) in *. set (m := n mod d) in *.
  destruct (Z.compare_spec (2 * m) d) as [He|Hl|Hg].
  - destruct (Z.even k) eqn:Ek.
    + split; [nia|]. intros _. exact Ek.
    + split; [nia|]. intros _.
      rewrite Z.even_add, Ek. reflexivity.
  - split; [nia|]. intros [H|H]; exfalso; nia.
  - split; [nia|]. intros [H|H]; exfalso; nia.
Qed.

Lemma round_mono (x y : Q) : (x <= y)%Q -> Py.round x <= Py.round y.
Proof.
  intros Hxy. unfold Qle in Hxy.
  destruct (round_spec x) as [[Hx1 Hx2] Hxe].
  destruct (round_spec y) as [[Hy1 Hy2] Hye].
  set (Rx := Py.round x) in *. set (Ry := Py.round y) in *.
  set (nx := Qnum x) in *. set (ny := Qnum y) in *.
  set (dx := Zpos (Qden x)) in *. set (dy := Zpos (Qden y)) in *.
  assert (Hdx : 0 < dx) by (unfold dx; lia).
  assert (Hdy : 0 < dy) by (unfold dy; lia).
  destruct (Z_le_gt_dec Rx Ry) as [Hle|Hgt]; [exact Hle|exfalso].
  assert (H1 : (2 * Rx - 1) * dx * dy <= 2 * nx * dy) by nia.
  assert (H2 : 2 * ny * dx <= (2 * Ry + 1) * dy * dx) by nia.
  assert (H3 : (2 * Rx - 1) * (dx * dy) <= (2 * Ry + 1) * (dx * dy)) by nia.
  assert (Hp : 0 < dx * dy) by nia.
  assert (H4 : 2 * Rx - 1 <= 2 * Ry + 1).
  { apply Z.mul_le_mono_pos_r with (p := dx * dy); assumption. }
  assert (HR : Rx = Ry + 1) by lia.
  assert (Ex : 2 * nx = (2 * Rx - 1) * dx).
  { apply Z.mul_reg_r with (p := dy); [lia|]. subst Rx. nia. }
  assert (Ey : 2 * ny = (2 * Ry + 1) * dy).
  { apply Z.mul_reg_r with (p := dx); [lia|]. nia. }
  specialize (Hxe (or_introl Ex)). specialize (Hye (or_intror Ey)).
  rewrite HR, Z.even_add, Hye in Hxe. discriminate.
Qed.

Lemma round_inject (z : Z) : Py.round (inject_Z z) = z.
Proof.
  unfold Py.round, inject_Z. cbn [Qnum Qden].
  rewrite Z.div_1_r, Z.mod_1_r. reflexivity.
Qed.

(** Ties go to the even neighbour, as in Python: round(0.5) = 0,
    round(1.5) = 2, round(2.5) = 2, round(-0.5) = 0, round(-1.5) = -2. *)
Example round_ties :
  Py.round (1 # 2) = 0 /\ Py.round (3 # 2) = 2 /\ Py.round (5 # 2) = 2 /\
  Py.round (-1 # 2) = 0 /\ Py.round (-3 # 2) = -2 /\
  Py.round (143 # 100) = 1 /\ Py.round (8 # 5) = 2.
Proof. repeat split; reflexivity. Qed.

Lemma truediv_eval (a b : Z) :
  b <> 0 -> Py.truediv a b = Ok (Qred (inject_Z a / inject_Z b)).
Proof.
  intros Hb. unfold Py.truediv.
  destruct (Z.eqb_spec b 0); [contradiction | reflexivity].
Qed.

Lemma ratio_self (a : Z) : a <> 0 -> Qred (inject_Z a / inject_Z a) = 1%Q.
Proof.
  intros Ha. change 1%Q with (Qred 1). apply Qred_complete.
  apply Qmult_inv_r. unfold inject_Z, Qeq. cbn. lia.
Qed.

Lemma ratio_antitone (W a b : Z) :
  0 <= W -> 0 < b -> b <= a ->
  (Qred (inject_Z W / inject_Z a) <= Qred (inject_Z W / inject_Z b))%Q.
Proof.
  intros HW Hb Hab. rewrite !Qred_correct.
  destruct a as [|p|p]; try lia. destruct b as [|q|q]; try lia.
  unfold Qle, Qdiv, Qmult, Qinv, inject_Z. cbn [Qnum Qden].
  rewrite !Pos.mul_1_l. nia.
Qed.

(** ** The derived downsample list *)

Lemma fill_level_downsamples_eval (r : WSIReader) (width : Z)
      (f : list fetch) (suf : list (Z * Z)) :
  forall (pre : list (Z * Z)) (acc : list Q),
    level_dimensions r = pre ++ suf ->
    Forall (fun wh => fst wh <> 0) suf ->
    fill_level_downsamples r width
      (Py.range (Z.of_nat (length pre)) (Z.of_nat (length pre + length suf)))
      (Handle (Some acc) f)
    = (Ok tt, Handle (Some (acc ++ map (derived_factor width) suf)) f).
Proof.
  induction suf as [|wh suf IH]; intros pre acc Hdims Hnz.
  - rewrite range_nil by (cbn [length]; lia). cbn. now rewrite app_nil_r.
  - rewrite range_cons by (cbn [length]; lia).
    cbn [fill_level_downsamples]. run.
    assert (Hidx : Py.index (level_dimensions r) (Z.of_nat (length pre))
                   = Ok wh).
    { apply index_nonneg; [lia|]. rewrite Nat2Z.id, Hdims.
      rewrite nth_error_app2 by lia. now rewrite Nat.sub_diag. }
    rewrite Hidx. inversion Hnz as [|? ? Hwh Hnz']; subst.
    rewrite truediv_eval by assumption.
    cbn [_level_downsamples fetches].
    specialize (IH (pre ++ [wh]) (acc ++ [derived_factor width wh])).
    rewrite length_app in IH. cbn [length] in IH.
    replace (Z.of_nat (length pre) + 1)
      with (Z.of_nat (length pre + 1)) by lia.
    cbn [length].
    replace (length pre + S (length suf))%nat
      with (length pre + 1 + length suf)%nat by lia.
    unfold derived_factor at 1 in IH.
    rewrite IH; [|now rewrite <- app_assoc | assumption].
    now rewrite <- app_assoc.
Qed.

(** On a fresh handle of a reader that inherits the property, the list is
    one factor per level of [level_dimensions]. *)
Lemma level_downsamples_derived (r : WSIReader) (s : handle)
      (W H : Z) (rest : list (Z * Z)) :
  level_downsamples_native r = None ->
  _level_downsamples s = None ->
  level_dimensions r = (W, H) :: rest ->
  Z.of_nat (length (level_dimensions r)) = level_count r ->
  Forall (fun wh => fst wh <> 0) (level_dimensions r) ->
  level_downsamples r s
  = (Ok (map (derived_factor W) (level_dimensions r)),
     Handle (Some (map (derived_factor W) (level_dimensions r)))
            (fetches s)).
Proof.
  intros Hnat Hcache Hdims Hlen Hnz.
  unfold level_downsamples. rewrite Hnat, Hcache. run.
  cbn [fetches _level_downsamples].
  assert (H0 : Py.index (level_dimensions r) 0 = Ok (W, H)).
  { apply index_nonneg; [lia|]. now rewrite Hdims. }
  rewrite H0. cbn [fst].
  pose proof (fill_level_downsamples_eval r W (fetches s)
                (level_dimensions r) [] [] eq_refl Hnz) as E.
  cbn [length Nat.add app] in E. change (Z.of_nat 0) with 0 in E.
  rewrite Hlen in E. rewrite E. reflexivity.
Qed.

(** C8 (as amended).  On a fresh handle of a reader that inherits
    [level_downsamples], with [level_count >= 1] levels of positive width
    that do not grow with the level, the derived list has one factor per
    level, starts with 1.0 and is non-decreasing. *)
Theorem derived_downsamples_non_decreasing (r : WSIReader) (s : handle) :
  level_downsamples_native r = None ->
  _level_downsamples s = None ->
  1 <= level_count r ->
  Z.of_nat (length (level_dimensions r)) = level_count r ->
  Forall (fun wh => 0 < fst wh) (level_dimensions r) ->
  non_increasing_dims (level_dimensions r) ->
  exists lds,
    level_downsamples r s = (Ok lds, Handle (Some lds) (fetches s)) /\
    Z.of_nat (length lds) = level_count r /\
    nth_error lds 0 = Some 1%Q /\
    non_decreasing lds.
Proof.
  intros Hnat Hcache Hn Hlen Hpos Hdims.
  destruct (level_dimensions r) as [|[W H] rest] eqn:E;
    [cbn in Hlen; lia|].
  assert (HW : 0 < W) by (inversion Hpos; assumption).
  exists (map (derived_factor W) (level_dimensions r)).
  split; [|split; [|split]].
  - apply level_downsamples_derived with (H := H) (rest := rest);
      try assumption.
    + now rewrite E.
    + rewrite E. eapply Forall_impl; [|exact Hpos]. cbn. lia.
  - rewrite length_map, E. exact Hlen.
  - rewrite E. cbn [map nth_error]. unfold derived_factor. cbn [fst].
    rewrite ratio_self by lia. reflexivity.
  - rewrite E. unfold non_decreasing.
    apply chain_map with (P := fun wh => 0 < fst wh)
                         (R := fun a b => fst b <= fst a /\ snd b <= snd a);
      try assumption.
    intros a b [Hab _] Ha Hb. unfold derived_factor.
    rewrite <- Zle_Qle. apply round_mono. apply ratio_antitone; lia.
Qed.

Lemma derived_downsamples_non_decreasing_witness :
  level_downsamples_native Samples.shallow = None /\
  _level_downsamples Samples.fresh = None /\
  1 <= level_count Samples.shallow /\
  Z.of_nat (length (level_dimensions Samples.shallow))
  = level_count Samples.shallow /\
  Forall (fun wh => 0 < fst wh) (level_dimensions Samples.shallow) /\
  non_increasing_dims (level_dimensions Samples.shallow) /\
  exists lds,
    level_downsamples Samples.shallow Samples.fresh
    = (Ok lds, Handle (Some lds) (fetches Samples.fresh)) /\
    Z.of_nat (length lds) = level_count Samples.shallow /\
    nth_error lds 0 = Some 1%Q /\
    non_decreasing lds.
Proof.
  assert (Hpos : Forall (fun wh => 0 < fst wh)
                        (level_dimensions Samples.shallow)).
  { repeat constructor. }
  assert (Hdims : non_increasing_dims (level_dimensions Samples.shallow)).
  { cbn. lia. }
  repeat split; try reflexivity; try assumption; try (cbn; lia).
  apply (derived_downsamples_non_decreasing Samples.shallow Samples.fresh);
    try reflexivity; try assumption; cbn; lia.
Defined.

(** C8 (as stated) fails: levels of width 1000 and 800 are non-increasing,
    yet both factors round to 1.0, so the derived list [1.0; 1.0] is not
    strictly increasing. *)
Lemma derived_downsamples_not_strict :
  1 <= level_count Samples.shallow /\
  non_increasing_dims (level_dimensions Samples.shallow) /\
  level_downsamples Samples.shallow Samples.fresh
  = (Ok [1%Q; 1%Q], Handle (Some [1%Q; 1%Q]) []) /\
  ~ strictly_increasing [1%Q; 1%Q].
Proof.
  split; [cbn; lia|]. split; [cbn; lia|]. split; [reflexivity|].
  intros [H _]. revert H. apply Qlt_irrefl.
Qed.

(** Without positive widths the derived list does not exist at all: an
    empty level makes the property raise, and the attribute keeps the
    factors appended so far. *)
Lemma derived_downsamples_zero_width :
  non_increasing_dims (level_dimensions Samples.empty_level) /\
  level_downsamples Samples.empty_level Samples.fresh
  = (Raise ZeroDivisionError, Handle (Some []) []).
Proof. split; [exact I | reflexivity]. Qed.

(** ** Normalisation *)

Lemma normalize_zero_cell (t : ndarray) :
  dtype t = np_integer ->
  map div255 (zero_cell t)
  = zero_cell (NDArray np_floating (channels t)
                       (grid_map (map div255) (px t))).
Proof.
  intros Hd. unfold zero_cell. cbn [dtype channels]. rewrite Hd.
  now rewrite map_repeat.
Qed.

(** Zero padding and normalisation commute: a padded cell is 0 before and
    0.0 after division by 255. *)
Lemma np_pad_normalize (t : ndarray) (padding : (Z * Z) * (Z * Z)) :
  np_pad (_normalize t) padding
  = result_bind (np_pad t padding) (fun a => Ok (_normalize a)).
Proof.
  unfold np_pad. destruct padding as [[top bottom] [lft rgt]].
  destruct (negative_pad _); [reflexivity|]. cbn [result_bind].
  unfold _normalize. cbn [dtype channels px].
  destruct (dtype t) eqn:Hd; cbn [dtype channels px]; rewrite ?Hd;
    [|reflexivity].
  f_equal. f_equal.
  rewrite grid_map_pad_cells. f_equal.
  symmetry. now apply normalize_zero_cell.
Qed.

Lemma read_region_normalize_after K (r : WSIReader) (x_y : Z * Z)
      (level : Z) (tile_size : size_arg) (downsample_level_0 : bool)
      (s : handle) :
  read_region K r x_y level tile_size true downsample_level_0 s
  = (normalized
       (fst (read_region K r x_y level tile_size false
                         downsample_level_0 s)),
     snd (read_region K r x_y level tile_size false downsample_level_0 s)).
Proof.
  unfold read_region. destruct x_y as [x y].
  set (synth := downsample_level_0 && (level >? 0)). run.
  repeat match goal with
         | |- context [match ?X with _ => _ end] =>
             lazymatch X with
             | np_pad _ _ => fail
             | np_pad_mask _ _ => fail
             | _ => destruct X eqn:?
             end
         end; try reflexivity.
  all: rewrite np_pad_normalize.
  all: repeat match goal with
         | |- context [match ?X with _ => _ end] => destruct X eqn:?
         end; try reflexivity;
    cbn [result_bind fst snd normalized] in *; try congruence.
Qed.

Lemma np_pad_dtype (a b : ndarray) (padding : (Z * Z) * (Z * Z)) :
  np_pad a padding = Ok b -> dtype b = dtype a.
Proof.
  unfold np_pad. destruct padding as [[top bottom] [lft rgt]].
  destruct (negative_pad _); [discriminate|].
  intros E. inversion E; subst. reflexivity.
Qed.

Lemma cv2_resize_dtype K (src a : ndarray) (dsize : Z * Z) :
  cv2_resize K src dsize = Ok a -> dtype a = dtype src.
Proof.
  unfold cv2_resize. destruct dsize as [w h].
  destruct (is_empty (px src) || (w <=? 0) || (h <=? 0)); [discriminate|].
  intros E. inversion E; subst. reflexivity.
Qed.

(** With [normalize=False] the buffer comes back in the dtype class of
    the backend's block: nothing divides it on the way. *)
Lemma read_region_raw_dtype K (r : WSIReader) (k : dtype_class)
      (x_y : Z * Z) (level : Z) (tile_size : size_arg)
      (downsample_level_0 : bool) (s s' : handle)
      (t : ndarray) (m : mask) :
  backend_dtype r k ->
  read_region K r x_y level tile_size false downsample_level_0 s
  = (Ok (t, m), s') ->
  dtype t = k.
Proof.
  intros Hk. unfold read_region, call_read_region. destruct x_y as [x y].
  set (synth := downsample_level_0 && (level >? 0)). run.
  repeat destruct_innermost; try discriminate.
  all: intros E; inversion E; subst.
  all: repeat match goal with
         | H : np_pad _ _ = Ok _ |- _ => apply np_pad_dtype in H
         | H : cv2_resize _ _ _ = Ok _ |- _ => apply cv2_resize_dtype in H
         | H : _read_region _ _ _ _ = Ok _ |- _ => apply Hk in H
         | H : (_, _) = (_, _) |- _ => inversion H; clear H; subst
         end.
  all: congruence.
Qed.

Lemma normalize_divided (k : dtype_class) (t : ndarray) :
  dtype t = k -> _normalize t = divided k t.
Proof. intros <-. reflexivity. Qed.

(** The blocks of a tifffile store whose arrays all have the dtype class
    [k] have that class. *)
Lemma tiff_backend_dtype (z : list Tiff.zarr_array) (k : dtype_class) :
  Forall (fun a => Tiff.z_dtype a = k) z ->
  backend_dtype (Tiff.TiffReader z) k.
Proof.
  intros Hall [x y] level [tw th] bt bm.
  cbn [_read_region Tiff.TiffReader].
  unfold Tiff._read_region, Tiff.level_array.
  destruct (level <? 0); [discriminate|].
  destruct (nth_error z (Z.to_nat level)) as [a|] eqn:Hn; [|discriminate].
  cbn [result_bind]. destruct (np_ones th tw); [|discriminate].
  cbn [result_bind]. intros E. inversion E; subst.
  apply nth_error_In in Hn. rewrite Forall_forall in Hall.
  unfold Tiff.getitem. destruct (Tiff.z_shape a).
  destruct (Tiff.slice_bounds _ _ _), (Tiff.slice_bounds _ _ _).
  cbn [dtype]. now apply Hall.
Qed.

(** C9 (as amended).  Normalisation follows the [normalize] flag, and a
    call that leaves the flag out is a call with [normalize=True].  With
    [normalize=False] the buffer of [read_region] keeps the dtype class
    of the backend's blocks; with [normalize=True] it is that same buffer
    divided by 255 into a floating-point buffer, sample by sample, when
    the class is integer, and that same buffer unchanged when the class
    is floating; mask, exceptions and effect on the handle are the same
    for both values of the flag. *)
Theorem normalization_follows_the_flag
        (INTER_CUBIC : ndarray -> Z * Z -> Z -> Z -> list scalar)
        (r : WSIReader) (k : dtype_class) (x_y : Z * Z) (level : Z)
        (tile_size : size_arg) (downsample_level_0 : bool) (s : handle) :
  backend_dtype r k ->
  (forall t m s',
     read_region INTER_CUBIC r x_y level tile_size false
                 downsample_level_0 s = (Ok (t, m), s') ->
     dtype t = k /\
     read_region INTER_CUBIC r x_y level tile_size true
                 downsample_level_0 s
     = (Ok (match k with
            | np_integer =>
                NDArray np_floating (channels t)
                        (grid_map (map div255) (px t))
            | np_floating => t
            end, m), s')) /\
  (forall e s',
     read_region INTER_CUBIC r x_y level tile_size false
                 downsample_level_0 s = (Raise e, s') ->
     read_region INTER_CUBIC r x_y level tile_size true
                 downsample_level_0 s = (Raise e, s')) /\
  read_region_with_defaults INTER_CUBIC r x_y level tile_size
                            None (Some downsample_level_0) s
  = read_region INTER_CUBIC r x_y level tile_size true
                downsample_level_0 s /\
  (forall z : Z, div255 (Int z) = Float (Qred (inject_Z z / 255))).
Proof.
  intros Hk.
  pose proof (read_region_normalize_after INTER_CUBIC r x_y level tile_size
                downsample_level_0 s) as Hafter.
  split; [|split; [|split]].
  - intros t m s' Hrun.
    pose proof (read_region_raw_dtype INTER_CUBIC r k x_y level tile_size
                  downsample_level_0 s s' t m Hk Hrun) as Hd.
    split; [exact Hd|].
    rewrite Hafter, Hrun. cbn [fst snd normalized].
    rewrite (normalize_divided k t Hd). reflexivity.
  - intros e s' Hrun. rewrite Hafter, Hrun. reflexivity.
  - reflexivity.
  - reflexivity.
Qed.

(** C9 (as stated) fails: a caller who does not ask for normalisation
    gets it.  On a slide of integer pixels, [read_region] called without
    the [normalize] argument returns a floating-point buffer, which is
    not the integer buffer that [normalize=False] returns. *)
Lemma normalization_without_opt_in :
  (exists t m s',
     read_region_with_defaults Samples.nearest Cases.two_level (0, 0) 0
                               (Pair 2 2) None None Samples.fresh
     = (Ok (t, m), s') /\ dtype t = np_floating) /\
  (exists t m s',
     read_region Samples.nearest Cases.two_level (0, 0) 0 (Pair 2 2)
                 false false Samples.fresh
     = (Ok (t, m), s') /\ dtype t = np_integer) /\
  fst (read_region_with_defaults Samples.nearest Cases.two_level (0, 0) 0
                                 (Pair 2 2) None None Samples.fresh)
  <> fst (read_region Samples.nearest Cases.two_level (0, 0) 0 (Pair 2 2)
                      false false Samples.fresh).
Proof.
  split; [|split].
  - do 3 eexists. split; [vm_compute; reflexivity | reflexivity].
  - do 3 eexists. split; [vm_compute; reflexivity | reflexivity].
  - vm_compute. discriminate.
Qed.

Lemma normalization_follows_the_flag_witness :
  backend_dtype Cases.two_level np_integer /\
  (forall t m s',
     read_region Samples.nearest Cases.two_level (-2, -2) 1 (Pair 5 5)
                 false true Samples.fresh = (Ok (t, m), s') ->
     dtype t = np_integer /\
     read_region Samples.nearest Cases.two_level (-2, -2) 1 (Pair 5 5)
                 true true Samples.fresh
     = (Ok (NDArray np_floating (channels t)
                    (grid_map (map div255) (px t)), m), s')) /\
  div255 (Int 51) = Float (1 # 5).
Proof.
  assert (Hk : backend_dtype Cases.two_level np_integer).
  { apply tiff_backend_dtype. repeat constructor. }
  split; [exact Hk|]. split.
  - apply (normalization_follows_the_flag
             Samples.nearest Cases.two_level np_integer (-2, -2) 1
             (Pair 5 5) true Samples.fresh Hk).
  - reflexivity.
Defined.

(** ** Where the invalid-argument error can come from *)

Lemma quiet_ret {A} (a : A) : quiet (ret a).
Proof. intros s. cbn. discriminate. Qed.

Lemma quiet_lift {A} (res : result A) : benign res -> quiet (lift res).
Proof. intros H s. exact H. Qed.

Lemma quiet_bind {A B} (m : M A) (k : A -> M B) :
  quiet m -> (forall a, quiet (k a)) -> quiet (bind m k).
Proof.
  intros Hm Hk s. unfold bind. specialize (Hm s).
  destruct (m s) as [[a|e] s1]; cbn [fst] in *.
  - apply Hk.
  - unfold benign in *. congruence.
Qed.

Lemma benign_ok {A} (a : A) : benign (Ok a).
Proof. discriminate. Qed.

Lemma benign_index {A} (l : list A) (i : Z) : benign (Py.index l i).
Proof.
  unfold benign. intros H. apply index_raises in H. discriminate.
Qed.

Lemma benign_truediv (a b : Z) : benign (Py.truediv a b).
Proof. unfold benign, Py.truediv. destruct (b =? 0); discriminate. Qed.

Lemma benign_fdiv (a b : Q) : benign (Py.fdiv a b).
Proof. unfold benign, Py.fdiv. destruct (Qeq_bool b 0); discriminate. Qed.

Lemma benign_floordiv (a b : Z) : benign (Py.floordiv a b).
Proof. unfold benign, Py.floordiv. destruct (b =? 0); discriminate. Qed.

Lemma benign_index_of (x : Q) (l : list Q) : benign (Py.index_of x l).
Proof.
  unfold benign. induction l as [|y l IH]; cbn; [discriminate|].
  destruct (Qeq_bool y x); [discriminate|].
  destruct (Py.index_of x l); cbn; [discriminate | exact IH].
Qed.

Lemma benign_np_pad (a : ndarray) (padding : (Z * Z) * (Z * Z)) :
  benign (np_pad a padding).
Proof.
  unfold benign, np_pad. destruct padding as [[? ?] [? ?]].
  destruct (negative_pad _); discriminate.
Qed.

Lemma benign_np_pad_mask (m : mask) (padding : (Z * Z) * (Z * Z)) :
  benign (np_pad_mask m padding).
Proof.
  unfold benign, np_pad_mask. destruct padding as [[? ?] [? ?]].
  destruct (negative_pad _); discriminate.
Qed.

Lemma benign_cv2_resize K (src : ndarray) (dsize : Z * Z) :
  benign (cv2_resize K src dsize).
Proof.
  unfold benign, cv2_resize. destruct dsize as [w h].
  destruct (_ || _); discriminate.
Qed.

Lemma benign_resize_mask K (m : mask) (dsize : Z * Z) :
  benign (resize_mask K m dsize).
Proof.
  unfold benign, resize_mask, cv2_resize. destruct dsize as [w h].
  destruct (_ || _); discriminate.
Qed.

Create HintDb quiet.

#[local] Hint Resolve quiet_ret benign_ok benign_index benign_truediv
  benign_fdiv benign_floordiv benign_index_of benign_np_pad
  benign_np_pad_mask benign_cv2_resize benign_resize_mask : quiet.

Ltac quiet_step :=
  lazymatch goal with
  | |- quiet (bind _ _) => apply quiet_bind; [|intros]
  | |- quiet (ret _) => apply quiet_ret
  | |- quiet (lift _) => apply quiet_lift; auto with quiet
  | |- quiet (if ?b then _ else _) => destruct b
  | |- quiet (match ?x with (_, _) => _ end) => destruct x
  | |- quiet (match ?x with Some _ => _ | None => _ end) => destruct x
  | |- forall _, _ => intros
  end.

Lemma quiet_fill_level_downsamples (r : WSIReader) (width : Z)
      (levels : list Z) :
  quiet (fill_level_downsamples r width levels).
Proof.
  induction levels as [|level rest IH]; cbn [fill_level_downsamples].
  - apply quiet_ret.
  - repeat quiet_step; try exact IH.
    intros s. cbn. discriminate.
Qed.

Lemma quiet_level_downsamples (r : WSIReader) : quiet (level_downsamples r).
Proof.
  unfold level_downsamples.
  destruct (level_downsamples_native r); [apply quiet_ret|].
  intros s. destruct (_level_downsamples s); [cbn; discriminate|].
  revert s. change (quiet
    ((fun s0 => (Ok tt, Handle (Some []) (fetches s0))) ;;;
     wh <- lift (Py.index (level_dimensions r) 0) ;;
     fill_level_downsamples r (fst wh) (Py.range 0 (level_count r)) ;;;
     (fun s1 => (match _level_downsamples s1 with
                 | Some l => Ok l
                 | None => Ok []
                 end, s1)))).
  repeat quiet_step; try apply quiet_fill_level_downsamples.
  - intros s. cbn. discriminate.
  - intros s. cbn. destruct (_level_downsamples s); discriminate.
Qed.

Lemma quiet_scan_levels (r : WSIReader) (d : Q) (levels : list Z) :
  quiet (scan_levels r d levels).
Proof.
  induction levels as [|i rest IH]; cbn [scan_levels].
  - apply quiet_ret.
  - repeat quiet_step; try exact IH. apply quiet_level_downsamples.
Qed.

Lemma quiet_get_best_level (r : WSIReader) (d : Q) :
  quiet (get_best_level_for_downsample r d).
Proof.
  unfold get_best_level_for_downsample.
  repeat quiet_step;
    auto using quiet_level_downsamples, quiet_scan_levels.
Qed.

Lemma quiet_call_read_region (r : WSIReader) x_y level tile_size :
  backend_quiet r -> quiet (call_read_region r x_y level tile_size).
Proof. intros H s. apply H. Qed.

Lemma quiet_read_region K (r : WSIReader) x_y level tile_size
      (normalize downsample_level_0 : bool) :
  backend_quiet r ->
  quiet (read_region K r x_y level tile_size normalize downsample_level_0).
Proof.
  intros Hb. unfold read_region. destruct x_y as [x y].
  repeat quiet_step; auto using quiet_call_read_region.
  all: destruct (clip _ _ _ _ _ _) as [[? ?] [? ?]].
  all: repeat quiet_step; auto using quiet_call_read_region.
Qed.

Lemma quiet_get_dimensions_tail (r : WSIReader) (d : Q) :
  Py.leb d 0 = false -> quiet (get_dimensions_for_downsample r d).
Proof.
  intros Hd. unfold get_dimensions_for_downsample. rewrite Hd.
  repeat quiet_step; auto using quiet_level_downsamples.
Qed.

Lemma quiet_read_region_ds K (r : WSIReader) x_y (d : Q) tile_size
      (normalize downsample_level_0 : bool) :
  backend_quiet r -> Py.leb d 0 = false ->
  quiet (read_region_ds K r x_y d tile_size normalize downsample_level_0).
Proof.
  intros Hb Hd. unfold read_region_ds. rewrite Hd.
  repeat quiet_step;
    auto using quiet_level_downsamples, quiet_get_best_level,
               quiet_read_region.
Qed.

Lemma tiff_backend_quiet (z : list Tiff.zarr_array) :
  backend_quiet (Tiff.TiffReader z).
Proof.
  intros [x y] level [w h]. unfold benign. cbn.
  unfold Tiff.level_array.
  destruct (level <? 0); [discriminate|].
  destruct (nth_error z (Z.to_nat level)); [|discriminate].
  cbn. unfold np_ones. destruct (_ || _); discriminate.
Qed.

(** C6.  [read_region_ds] and [get_dimensions_for_downsample] raise the
    invalid-argument error exactly when [downsample <= 0]: for such a
    downsample they raise it at once, leaving the handle as it was (no
    backend fetch, nothing memoised); for a positive downsample neither of
    them ends in that error. *)
Theorem invalid_downsample_iff_not_positive
        (INTER_CUBIC : ndarray -> Z * Z -> Z -> Z -> list scalar)
        (r : WSIReader) (x_y : Z * Z) (downsample : Q)
        (tile_size : size_arg) (normalize downsample_level_0 : bool)
        (s : handle) :
  backend_quiet r ->
  ((downsample <= 0)%Q ->
   read_region_ds INTER_CUBIC r x_y downsample tile_size normalize
                  downsample_level_0 s
   = (Raise invalid_downsample, s) /\
   get_dimensions_for_downsample r downsample s
   = (Raise invalid_downsample, s)) /\
  ((0 < downsample)%Q ->
   fst (read_region_ds INTER_CUBIC r x_y downsample tile_size normalize
                       downsample_level_0 s)
   <> Raise invalid_downsample /\
   fst (get_dimensions_for_downsample r downsample s)
   <> Raise invalid_downsample).
Proof.
  intros Hb. split.
  - intros Hd. apply leb_true in Hd.
    unfold read_region_ds, get_dimensions_for_downsample.
    rewrite Hd. split; reflexivity.
  - intros Hd. apply leb_false in Hd. split.
    + now apply quiet_read_region_ds.
    + now apply quiet_get_dimensions_tail.
Qed.

Lemma invalid_downsample_iff_not_positive_witness :
  backend_quiet Samples.pyramid /\
  (-1 <= 0)%Q /\
  (read_region_ds Samples.nearest Samples.pyramid (0, 0) (-1) (Pair 100 100)
                  true false Samples.fresh
   = (Raise invalid_downsample, Samples.fresh) /\
   get_dimensions_for_downsample Samples.pyramid (-1) Samples.fresh
   = (Raise invalid_downsample, Samples.fresh)) /\
  (0 < 3)%Q /\
  (fst (read_region_ds Samples.nearest Samples.pyramid (0, 0) 3
                       (Pair 100 100) true false Samples.fresh)
   <> Raise invalid_downsample /\
   fst (get_dimensions_for_downsample Samples.pyramid 3 Samples.fresh)
   <> Raise invalid_downsample).
Proof.
  split; [apply tiff_backend_quiet|].
  split; [discriminate|].
  split.
  - apply (invalid_downsample_iff_not_positive
             Samples.nearest Samples.pyramid (0, 0) (-1) (Pair 100 100)
             true false Samples.fresh);
      [apply tiff_backend_quiet | discriminate].
  - split; [reflexivity|].
    apply (invalid_downsample_iff_not_positive
             Samples.nearest Samples.pyramid (0, 0) 3 (Pair 100 100)
             true false Samples.fresh);
      [apply tiff_backend_quiet | reflexivity].
Defined.

(** ** The level-indexed read *)

Lemma clip_bounds (x0 y0 w h W H x y tw th : Z) :
  clip x0 y0 w h W H = ((x, y), (tw, th)) ->
  x = Z.max x0 0 /\ y = Z.max y0 0 /\
  x + tw <= W /\ y + th <= H /\
  tw <= w + Z.min x0 0 /\ th <= h + Z.min y0 0 /\
  (tw = w + Z.min x0 0 \/ tw = W - x) /\
  (th = h + Z.min y0 0 \/ th = H - y).
Proof.
  unfold clip. intros E.
  destruct (Z.ltb_spec x0 0), (Z.ltb_spec y0 0);
    destruct (Z.gtb_spec (Z.max x0 0 + (w + x0)) W);
    destruct (Z.gtb_spec (Z.max x0 0 + w) W);
    destruct (Z.gtb_spec (Z.max y0 0 + (h + y0)) H);
    destruct (Z.gtb_spec (Z.max y0 0 + h) H);
    inversion E; subst; lia.
Qed.

(** [read_region] when nothing is synthesised from level 0: one fetch of
    the clipped rectangle, then normalisation and padding. *)
Lemma read_region_plain K (r : WSIReader) (x0 y0 level w h : Z)
      (normalize downsample_level_0 : bool) (s : handle)
      (W H x y tw th : Z) :
  downsample_level_0 && (level >? 0) = false ->
  Py.index (level_dimensions r) level = Ok (W, H) ->
  clip x0 y0 w h W H = ((x, y), (tw, th)) ->
  read_region K r (x0, y0) level (Pair w h) normalize downsample_level_0 s
  = (result_bind
       (_read_region r (x, y) (if downsample_level_0 then 0 else level)
                     (tw, th))
       (fun fetched =>
          let padding := padding_of (x0, y0) (w, h) (x, y) (tw, th) in
          result_bind
            (np_pad (if normalize then _normalize (fst fetched)
                     else fst fetched) padding)
            (fun tile =>
               result_bind (np_pad_mask (snd fetched) padding)
                           (fun alfa_mask => Ok (tile, alfa_mask)))),
     Handle (_level_downsamples s)
            (Fetch (x, y) (if downsample_level_0 then 0 else level) (tw, th)
             :: fetches s)).
Proof.
  intros Hsynth Hidx Hclip. unfold read_region. rewrite Hsynth. run.
  rewrite Hidx. cbn [as_pair]. rewrite Hclip. unfold call_read_region.
  destruct (_read_region r (x, y) _ (tw, th)) as [[bt bm]|e];
    [|reflexivity].
  cbn [result_bind fst snd]. unfold padding_of. cbn [fst snd].
  destruct (np_pad _ _) as [t|e]; [|reflexivity]. cbn [result_bind].
  destruct (np_pad_mask _ _) as [m|e]; reflexivity.
Qed.

Lemma normalize_shape (t : ndarray) : shape (px (_normalize t)) = shape (px t).
Proof. unfold _normalize. destruct (dtype t); reflexivity. Qed.

Lemma np_pad_shape (a b : ndarray) (padding : (Z * Z) * (Z * Z)) :
  np_pad a padding = Ok b ->
  shape (px b)
  = (fst (fst padding) + fst (shape (px a)) + snd (fst padding),
     fst (snd padding) + snd (shape (px a)) + snd (snd padding)).
Proof.
  unfold np_pad. destruct padding as [[top bottom] [lft rgt]].
  destruct (negative_pad _); [discriminate|].
  intros E. inversion E; subst. cbn [px fst snd].
  apply pad_cells_shape.
Qed.

Lemma np_pad_mask_shape (a b : mask) (padding : (Z * Z) * (Z * Z)) :
  np_pad_mask a padding = Ok b ->
  shape b
  = (fst (fst padding) + fst (shape a) + snd (fst padding),
     fst (snd padding) + snd (shape a) + snd (snd padding)).
Proof.
  unfold np_pad_mask. destruct padding as [[top bottom] [lft rgt]].
  destruct (negative_pad _); [discriminate|].
  intros E. inversion E; subst. cbn [fst snd].
  apply pad_cells_shape.
Qed.

(** Whenever the plain path of [read_region] returns, both buffers have
    exactly the requested size. *)
Lemma read_region_plain_shape K (r : WSIReader) (x0 y0 level w h : Z)
      (normalize downsample_level_0 : bool) (s s' : handle)
      (t : ndarray) (m : mask) :
  backend_exact r -> downsample_level_0 = false \/ level = 0 ->
  read_region K r (x0, y0) level (Pair w h) normalize downsample_level_0 s
  = (Ok (t, m), s') ->
  shape (px t) = (h, w) /\ shape m = (h, w).
Proof.
  intros Hb Hlevel Hrun.
  assert (Hfl : (if downsample_level_0 then 0 else level) = level).
  { destruct Hlevel as [-> | ->]; [reflexivity|].
    now destruct downsample_level_0. }
  assert (Hsynth : downsample_level_0 && (level >? 0) = false).
  { destruct Hlevel as [-> | ->]; [reflexivity|].
    now destruct downsample_level_0. }
  destruct (Py.index (level_dimensions r) level) as [[W H]|e] eqn:Hidx.
  2:{ unfold read_region in Hrun. rewrite Hsynth in Hrun. run.
      rewrite Hidx in Hrun. discriminate. }
  destruct (clip x0 y0 w h W H) as [[x y] [tw th]] eqn:Hclip.
  rewrite (read_region_plain K r x0 y0 level w h normalize
             downsample_level_0 s W H x y tw th Hsynth Hidx Hclip) in Hrun.
  rewrite Hfl in Hrun.
  destruct (_read_region r (x, y) level (tw, th)) as [[bt bm]|e] eqn:Hf;
    [|discriminate].
  cbn [result_bind fst snd] in Hrun.
  destruct (np_pad _ _) as [t'|e] eqn:Ht; [|discriminate].
  cbn [result_bind] in Hrun.
  destruct (np_pad_mask _ _) as [m'|e] eqn:Hm; [|discriminate].
  cbn [result_bind] in Hrun. inversion Hrun; subst t' m' s'.
  apply clip_bounds in Hclip.
  destruct (Hb (x, y) level (tw, th) bt bm) as (Hst & Hsm & _).
  { exists W, H. cbn [fst snd]. repeat split; try assumption; lia. }
  { exact Hf. }
  apply np_pad_shape in Ht. apply np_pad_mask_shape in Hm.
  assert (Hshape : shape (px (if normalize then _normalize bt else bt))
                   = (th, tw)).
  { destruct normalize; [rewrite normalize_shape|]; exact Hst. }
  rewrite Hshape in Ht. rewrite Hsm in Hm.
  unfold padding_of in *. cbn [fst snd] in *.
  rewrite Ht, Hm. split; f_equal; lia.
Qed.



(** ** The downsample-indexed read *)

Lemma pad_cells_nothing {A} (fill : A) (g : grid A) :
  pad_cells fill 0 0 0 0 g = g.
Proof.
  unfold pad_cells. destruct g as [[h w] rws]. cbn [shape rows].
  cbn [Z.to_nat repeat app]. f_equal.
  - f_equal; lia.
  - rewrite app_nil_r. rewrite <- (map_id rws) at 2.
    apply map_ext. intros row. apply app_nil_r.
Qed.

Lemma np_pad_nothing (a : ndarray) : np_pad a ((0, 0), (0, 0)) = Ok a.
Proof.
  unfold np_pad. cbn [negative_pad Z.ltb Z.compare orb].
  rewrite pad_cells_nothing. now destruct a.
Qed.

Lemma np_pad_mask_nothing (m : mask) : np_pad_mask m ((0, 0), (0, 0)) = Ok m.
Proof.
  unfold np_pad_mask. cbn [negative_pad Z.ltb Z.compare orb].
  now rewrite pad_cells_nothing.
Qed.





Lemma cv2_resize_shape K (src a : ndarray) (w h : Z) :
  cv2_resize K src (w, h) = Ok a -> shape (px a) = (h, w).
Proof.
  unfold cv2_resize. destruct (is_empty (px src)); [discriminate|].
  destruct (Z.leb_spec w 0); [discriminate|].
  destruct (Z.leb_spec h 0); [discriminate|]. cbn [orb].
  intros E. inversion E; subst. cbn [px tabulate shape]. f_equal; lia.
Qed.

Lemma resize_mask_shape K (m a : mask) (w h : Z) :
  resize_mask K m (w, h) = Ok a -> shape a = (h, w).
Proof.
  unfold resize_mask.
  destruct (cv2_resize K (mask_astype_uint8 m) (w, h)) as [b|e] eqn:E;
    [|discriminate].
  cbn [result_bind]. intros H. inversion H; subst.
  apply cv2_resize_shape in E. exact E.
Qed.

(** Whenever [read_region_ds] returns without synthesising from level 0,
    both buffers have exactly the requested size. *)
Lemma read_region_ds_shape K (r : WSIReader) (x_y : Z * Z) (d : Q)
      (w h : Z) (normalize : bool) (s s' : handle)
      (t : ndarray) (m : mask) :
  backend_exact r ->
  read_region_ds K r x_y d (Pair w h) normalize false s = (Ok (t, m), s') ->
  shape (px t) = (h, w) /\ shape m = (h, w).
Proof.
  intros Hb. unfold read_region_ds. destruct (Py.leb d 0); [discriminate|].
  replace (if Qeq_bool d 1 then false else false) with false
    by (destruct (Qeq_bool d 1); reflexivity).
  cbn [as_pair fst snd negb].
  destruct x_y as [x0 y0]. run.
  destruct (level_downsamples r s) as [[lds|e] s1]; [|discriminate].
  rewrite andb_true_r. destruct (Py.contains d lds).
  - destruct (get_best_level_for_downsample r d s1) as [[level|e] s2];
      [|discriminate].
    destruct (read_region K r (x0, y0) level (Pair w h) false false s2)
      as [[[t1 m1]|e] s3] eqn:Hr; [|discriminate].
    intros E. inversion E; subst.
    apply read_region_plain_shape in Hr; [|assumption | now left].
    destruct normalize; [rewrite normalize_shape|]; exact Hr.
  - repeat destruct_innermost; try discriminate.
    all: intros E; inversion E; subst.
    all: repeat match goal with
           | H : cv2_resize _ _ _ = Ok _ |- _ => apply cv2_resize_shape in H
           | H : resize_mask _ _ _ = Ok _ |- _ => apply resize_mask_shape in H
           end.
    all: rewrite ?normalize_shape; split; assumption.
Qed.

(** ** The whole-slide thumbnail *)

Lemma round_proper (x y : Q) : (x == y)%Q -> Py.round x = Py.round y.
Proof.
  intros E. apply Z.le_antisymm; apply round_mono; rewrite E; apply Qle_refl.
Qed.

Lemma inject_pos (z : Z) : 0 < z -> (0 < inject_Z z)%Q.
Proof. intros H. unfold Qlt, inject_Z. cbn. lia. Qed.

Lemma div_pos (a b : Q) : (0 < a)%Q -> (0 < b)%Q -> (0 < a / b)%Q.
Proof.
  intros Ha Hb. apply Qlt_shift_div_l; [exact Hb|].
  now rewrite Qmult_0_l.
Qed.

Lemma box_axis (a b c e : Q) :
  (0 < a)%Q -> (0 < b)%Q -> (0 < c)%Q -> (0 < e)%Q ->
  (a / b <= c / e)%Q ->
  (a / (a / b) == b)%Q /\ (e <= c / (a / b))%Q.
Proof.
  intros Ha Hb Hc He Hle.
  assert (Ha' : ~ (a == 0)%Q) by (intros E; rewrite E in Ha;
                                  exact (Qlt_irrefl _ Ha)).
  assert (Hb' : ~ (b == 0)%Q) by (intros E; rewrite E in Hb;
                                  exact (Qlt_irrefl _ Hb)).
  assert (He' : ~ (e == 0)%Q) by (intros E; rewrite E in He;
                                  exact (Qlt_irrefl _ He)).
  split.
  - field. split; assumption.
  - apply Qle_shift_div_l; [now apply div_pos|].
    rewrite Qmult_comm.
    assert (E : (c == c / e * e)%Q) by (field; assumption).
    rewrite E. apply Qmult_le_compat_r; [exact Hle|].
    now apply Qlt_le_weak.
Qed.

Lemma uniform_factor_min (W H w h : Z) :
  let d := uniform_factor W H w h in
  (d <= inject_Z W / inject_Z w)%Q /\ (d <= inject_Z H / inject_Z h)%Q /\
  ((d == inject_Z W / inject_Z w)%Q \/ (d == inject_Z H / inject_Z h)%Q).
Proof.
  cbv zeta. unfold uniform_factor.
  destruct (Py.ltb _ _) eqn:E.
  - apply ltb_true in E. rewrite !Qred_correct in *.
    repeat split; [now apply Qlt_le_weak | apply Qle_refl | now right].
  - apply ltb_false in E. rewrite !Qred_correct in *.
    repeat split; [apply Qle_refl | assumption | now left].
Qed.

Lemma uniform_factor_pos (W H w h : Z) :
  0 < W -> 0 < H -> 0 < w -> 0 < h -> (0 < uniform_factor W H w h)%Q.
Proof.
  intros HW HH Hw Hh. unfold uniform_factor.
  destruct (Py.ltb _ _); rewrite Qred_correct;
    apply div_pos; now apply inject_pos.
Qed.

(** The size requested for a factor that is no stored level's downsample
    covers the box: it is the box's extent on one axis and at least the
    box's extent on the other. *)
Lemma rounded_size_covers (W H w h : Z) :
  0 < W -> 0 < H -> 0 < w -> 0 < h ->
  let d := uniform_factor W H w h in
  let dw := Py.round (Qred (inject_Z W / d)) in
  let dh := Py.round (Qred (inject_Z H / d)) in
  w <= dw /\ h <= dh /\ (dw = w \/ dh = h).
Proof.
  intros HW HH Hw Hh. cbv zeta. unfold uniform_factor.
  pose proof (inject_pos W HW) as Ha. pose proof (inject_pos w Hw) as Hb.
  pose proof (inject_pos H HH) as Hc. pose proof (inject_pos h Hh) as He.
  destruct (Py.ltb _ _) eqn:E.
  - apply ltb_true in E. rewrite !Qred_correct in E.
    apply Qlt_le_weak in E.
    destruct (box_axis _ _ _ _ Hc He Ha Hb E) as [E1 E2].
    assert (Hdh : Py.round
                    (Qred (inject_Z H / Qred (inject_Z H / inject_Z h)))
                  = h).
    { rewrite <- (round_inject h) at 2. apply round_proper.
      now rewrite !Qred_correct. }
    assert (Hdw : w <= Py.round
                         (Qred (inject_Z W / Qred (inject_Z H / inject_Z h)))).
    { rewrite <- (round_inject w) at 1. apply round_mono.
      now rewrite !Qred_correct. }
    rewrite Hdh. repeat split; [exact Hdw | lia | now right].
  - apply ltb_false in E. rewrite !Qred_correct in E.
    destruct (box_axis _ _ _ _ Ha Hb Hc He E) as [E1 E2].
    assert (Hdw : Py.round
                    (Qred (inject_Z W / Qred (inject_Z W / inject_Z w)))
                  = w).
    { rewrite <- (round_inject w) at 2. apply round_proper.
      now rewrite !Qred_correct. }
    assert (Hdh : h <= Py.round
                         (Qred (inject_Z H / Qred (inject_Z W / inject_Z w)))).
    { rewrite <- (round_inject h) at 1. apply round_mono.
      now rewrite !Qred_correct. }
    rewrite Hdw. repeat split; [lia | exact Hdh | now left].
Qed.

Lemma get_downsampled_slide_eval K (r : WSIReader) (w h W H : Z)
      (rest : list (Z * Z)) (normalize : bool) (s : handle) :
  w <> 0 -> h <> 0 -> level_dimensions r = (W, H) :: rest ->
  get_downsampled_slide K r (w, h) normalize s
  = (size <- get_dimensions_for_downsample r (uniform_factor W H w h) ;;
     read_region_ds K r (0, 0) (uniform_factor W H w h)
                    (Pair (fst size) (snd size)) normalize false) s.
Proof.
  intros Hw Hh Hdims. unfold get_downsampled_slide. run.
  rewrite Hdims. change (Py.index ((W, H) :: rest) 0) with (Ok (W, H)).
  cbn [fst snd]. rewrite !truediv_eval by assumption. reflexivity.
Qed.

Lemma get_dimensions_rounded (r : WSIReader) (d : Q) (W H : Z)
      (rest : list (Z * Z)) (lds : list Q) (s s1 : handle) :
  (0 < d)%Q -> level_dimensions r = (W, H) :: rest ->
  level_downsamples r s = (Ok lds, s1) -> Py.contains d lds = false ->
  get_dimensions_for_downsample r d s
  = (Ok (Py.round (Qred (inject_Z W / d)), Py.round (Qred (inject_Z H / d))),
     s1).
Proof.
  intros Hd Hdims Hlds Hc. unfold get_dimensions_for_downsample.
  assert (E : Py.leb d 0 = false) by now apply leb_false.
  rewrite E. run. rewrite Hlds, Hc, Hdims.
  change (Py.index ((W, H) :: rest) 0) with (Ok (W, H)). cbn beta iota.
  unfold Py.fdiv.
  assert (E0 : Qeq_bool d 0 = false).
  { destruct (Qeq_bool d 0) eqn:Q0; [|reflexivity].
    apply Qeq_bool_iff in Q0. rewrite Q0 in Hd.
    exfalso. exact (Qlt_irrefl _ Hd). }
  rewrite E0. reflexivity.
Qed.

(** C7.  The result of [get_downsampled_slide] does not stay within the
    requested box.  On a slide of 8 x 8 whose second level is 4 x 4, a
    box of 4 x 2 gives the factor min(8 / 4, 8 / 2) = 2, the smaller of
    the two ratios and so the larger image: the region read is the whole
    of level 1 and the buffers returned are 4 x 4, twice the requested
    height.  A box of 3 x 2 gives the factor 8 / 3, which no level has:
    level 1 is read and resampled to 3 x 3, again above the requested
    height. *)
Theorem downsampled_slide_exceeds_box
        (INTER_CUBIC : ndarray -> Z * Z -> Z -> Z -> list scalar)
        (normalize : bool) :
  (uniform_factor 8 8 4 2 = 2%Q /\
   exists (t : ndarray) (m : mask),
     get_downsampled_slide INTER_CUBIC Cases.two_level (4, 2) normalize
                           Samples.fresh
     = (Ok (t, m), Handle (Some [1%Q; 2%Q]) [Fetch (0, 0) 1 (4, 4)]) /\
     shape (px t) = (4, 4) /\ shape m = (4, 4) /\
     ~ (fst (shape (px t)) <= 2)) /\
  (uniform_factor 8 8 3 2 = (8 # 3)%Q /\
   exists (t : ndarray) (m : mask),
     get_downsampled_slide INTER_CUBIC Cases.two_level (3, 2) normalize
                           Samples.fresh
     = (Ok (t, m), Handle (Some [1%Q; 2%Q]) [Fetch (0, 0) 1 (4, 4)]) /\
     shape (px t) = (3, 3) /\ shape m = (3, 3) /\
     ~ (fst (shape (px t)) <= 2)).
Proof.
  split; (split; [reflexivity|]); destruct normalize;
    (do 2 eexists; split; [vm_compute; reflexivity|];
     split; [reflexivity|]; split; [reflexivity|]; cbn; lia).
Qed.

(** The tifffile backend honours the contract. *)
Lemma tiff_backend_exact (z : list Tiff.zarr_array) :
  backend_exact (Tiff.TiffReader z).
Proof.
  intros [x y] level [tw th] bt bm (W & H & Hidx & Hx & Hy & Hxw & Hyh) Hf.
  cbn [fst snd] in *. cbn [_read_region Tiff.TiffReader] in Hf.
  cbn [level_dimensions Tiff.TiffReader] in Hidx.
  unfold Tiff._read_region, Tiff.level_array in Hf.
  destruct (Z.ltb_spec level 0) as [|Hl]; [discriminate|].
  apply index_nonneg in Hidx; [|assumption].
  rewrite nth_error_map in Hidx.
  destruct (nth_error z (Z.to_nat level)) as [a|]; [|discriminate].
  cbn [option_map result_bind] in *. inversion Hidx; subst W H.
  unfold np_ones in Hf.
  destruct (Z.ltb_spec th 0); [discriminate|].
  destruct (Z.ltb_spec tw 0); [discriminate|].
  cbn [orb result_bind] in Hf. inversion Hf; subst bt bm.
  unfold Tiff.getitem, Tiff.slice_bounds, ndarray_wf.
  destruct (Tiff.z_shape a) as [ah aw]. cbn [fst snd] in *.
  destruct (Z.ltb_spec y 0); [lia|]. destruct (Z.ltb_spec x 0); [lia|].
  destruct (Z.ltb_spec (y + th) 0); [lia|].
  destruct (Z.ltb_spec (x + tw) 0); [lia|].
  cbn [px tabulate shape].
  repeat split; try apply tabulate_wf; f_equal; lia.
Qed.

(** ** When the level-indexed read returns *)

(** On the plain path the pad widths are never negative, so the outcome
    is decided by the backend alone: [read_region] returns exactly when
    the fetch of the clipped rectangle does. *)
Lemma read_region_plain_returns K (r : WSIReader) (x0 y0 level w h : Z)
      (normalize : bool) (s : handle) (W H x y tw th : Z)
      (bt : ndarray) (bm : mask) :
  Py.index (level_dimensions r) level = Ok (W, H) ->
  clip x0 y0 w h W H = ((x, y), (tw, th)) ->
  _read_region r (x, y) level (tw, th) = Ok (bt, bm) ->
  exists t m,
    read_region K r (x0, y0) level (Pair w h) normalize false s
    = (Ok (t, m),
       Handle (_level_downsamples s)
              (Fetch (x, y) level (tw, th) :: fetches s)).
Proof.
  intros Hidx Hclip Hf.
  rewrite (read_region_plain K r x0 y0 level w h normalize false s
             W H x y tw th eq_refl Hidx Hclip).
  rewrite Hf. cbn [result_bind fst snd].
  apply clip_bounds in Hclip.
  assert (Hpad : negative_pad (padding_of (x0, y0) (w, h) (x, y) (tw, th))
                 = false).
  { unfold negative_pad, padding_of. cbn [fst snd].
    repeat match goal with
           | |- context [?a <? 0] => destruct (Z.ltb_spec a 0); [lia|]
           end.
    reflexivity. }
  unfold np_pad, np_pad_mask.
  destruct (padding_of (x0, y0) (w, h) (x, y) (tw, th))
    as [[top bottom] [lft rgt]].
  rewrite Hpad. cbn [result_bind]. eauto.
Qed.

Lemma read_region_scalar K (r : WSIReader) (x_y : Z * Z) (level n : Z)
      (normalize downsample_level_0 : bool) :
  read_region K r x_y level (Scalar n) normalize downsample_level_0
  = read_region K r x_y level (Pair n n) normalize downsample_level_0.
Proof. reflexivity. Qed.

Lemma round_nonneg (q : Q) : (0 <= q)%Q -> 0 <= Py.round q.
Proof. intros H. apply round_mono in H. exact H. Qed.

(** [read_region] when the region is synthesised from level 0. *)
Lemma read_region_synth K (r : WSIReader) (x0 y0 level w h : Z)
      (normalize : bool) (s : handle)
      (W0 H0 Wl Hl ds x y tw th : Z) :
  0 < level ->
  Py.index (level_dimensions r) 0 = Ok (W0, H0) ->
  Py.index (level_dimensions r) level = Ok (Wl, Hl) ->
  Wl <> 0 ->
  ds = Py.round (Qred (inject_Z W0 / inject_Z Wl)) ->
  clip (x0 * ds) (y0 * ds) (w * ds) (h * ds) W0 H0 = ((x, y), (tw, th)) ->
  read_region K r (x0, y0) level (Pair w h) normalize true s
  = (result_bind (_read_region r (x, y) 0 (tw, th)) (fun fetched =>
     result_bind (Py.floordiv tw ds) (fun tw' =>
     result_bind (Py.floordiv th ds) (fun th' =>
     result_bind (Py.floordiv x ds) (fun x' =>
     result_bind (Py.floordiv y ds) (fun y' =>
     result_bind (cv2_resize K (fst fetched) (tw', th')) (fun tile =>
     result_bind (resize_mask K (snd fetched) (tw', th')) (fun alfa_mask =>
     let padding := padding_of (x0, y0) (w, h) (x', y') (tw', th') in
     result_bind (np_pad (if normalize then _normalize tile else tile)
                         padding) (fun tile =>
     result_bind (np_pad_mask alfa_mask padding) (fun alfa_mask =>
     Ok (tile, alfa_mask)))))))))),
     Handle (_level_downsamples s) (Fetch (x, y) 0 (tw, th) :: fetches s)).
Proof.
  intros Hlevel H0i Hli HWl Hds Hclip. unfold read_region.
  assert (E : true && (level >? 0) = true).
  { cbn. destruct (Z.gtb_spec level 0); [reflexivity | lia]. }
  rewrite E. run. rewrite H0i, Hli. cbn [fst snd as_pair].
  rewrite truediv_eval by assumption. rewrite <- Hds, Hclip.
  unfold call_read_region.
  destruct (_read_region r (x, y) 0 (tw, th)) as [[bt bm]|e]; [|reflexivity].
  cbn [result_bind fst snd]. unfold padding_of. cbn [fst snd].
  repeat (destruct_innermost; cbn [result_bind]; try reflexivity).
Qed.

(** Whenever the synthesised path returns, both buffers have exactly the
    requested size. *)
Lemma read_region_synth_shape K (r : WSIReader) (x0 y0 level w h : Z)
      (normalize : bool) (s s' : handle) (W0 H0 Wl Hl : Z)
      (t : ndarray) (m : mask) :
  0 < level ->
  Py.index (level_dimensions r) 0 = Ok (W0, H0) ->
  Py.index (level_dimensions r) level = Ok (Wl, Hl) ->
  0 < W0 -> 0 < Wl ->
  read_region K r (x0, y0) level (Pair w h) normalize true s
  = (Ok (t, m), s') ->
  shape (px t) = (h, w) /\ shape m = (h, w).
Proof.
  intros Hlevel H0i Hli HW0 HWl Hrun.
  set (ds := Py.round (Qred (inject_Z W0 / inject_Z Wl))) in *.
  assert (Hds : 0 <= ds).
  { apply round_nonneg. rewrite Qred_correct. apply Qlt_le_weak.
    apply div_pos; now apply inject_pos. }
  destruct (clip (x0 * ds) (y0 * ds) (w * ds) (h * ds) W0 H0)
    as [[x y] [tw th]] eqn:Hclip.
  rewrite (read_region_synth K r x0 y0 level w h normalize s
             W0 H0 Wl Hl ds x y tw th Hlevel H0i Hli ltac:(lia)
             eq_refl Hclip) in Hrun.
  destruct (_read_region r (x, y) 0 (tw, th)) as [[bt bm]|e];
    [|discriminate].
  cbn [result_bind fst snd] in Hrun. unfold Py.floordiv in Hrun.
  destruct (Z.eqb_spec ds 0) as [|Hnz]; [discriminate|].
  cbn [result_bind] in Hrun.
  destruct (cv2_resize K bt (tw / ds, th / ds)) as [t1|e] eqn:Ht1;
    [|discriminate].
  cbn [result_bind] in Hrun.
  destruct (resize_mask K bm (tw / ds, th / ds)) as [m1|e] eqn:Hm1;
    [|discriminate].
  cbn [result_bind] in Hrun.
  destruct (np_pad _ _) as [t2|e] eqn:Ht2; [|discriminate].
  cbn [result_bind] in Hrun.
  destruct (np_pad_mask _ _) as [m2|e] eqn:Hm2; [|discriminate].
  cbn [result_bind] in Hrun. inversion Hrun; subst t2 m2 s'.
  apply cv2_resize_shape in Ht1. apply resize_mask_shape in Hm1.
  apply np_pad_shape in Ht2. apply np_pad_mask_shape in Hm2.
  assert (Hs : shape (px (if normalize then _normalize t1 else t1))
               = (th / ds, tw / ds)).
  { destruct normalize; [rewrite normalize_shape|]; exact Ht1. }
  rewrite Hs in Ht2. rewrite Hm1 in Hm2.
  unfold padding_of in *. cbn [fst snd] in *.
  apply clip_bounds in Hclip. destruct Hclip as (Hx & Hy & _).
  assert (Hxd : x / ds = Z.max x0 0).
  { subst x. destruct (Z.max_spec (x0 * ds) 0) as [[? ->]|[? ->]].
    - rewrite Z.div_0_l by lia. nia.
    - rewrite Z.div_mul by lia. nia. }
  assert (Hyd : y / ds = Z.max y0 0).
  { subst y. destruct (Z.max_spec (y0 * ds) 0) as [[? ->]|[? ->]].
    - rewrite Z.div_0_l by lia. nia.
    - rewrite Z.div_mul by lia. nia. }
  rewrite Ht2, Hm2, Hxd, Hyd. split; f_equal; lia.
Qed.

(** However the region is obtained, whenever [read_region] returns on a
    slide with levels of positive width, both buffers have exactly the
    size the caller asked for. *)
Lemma read_region_shape K (r : WSIReader) (x_y : Z * Z) (level : Z)
      (tile_size : size_arg) (normalize downsample_level_0 : bool)
      (s s' : handle) (t : ndarray) (m : mask) :
  backend_exact r -> 0 <= level ->
  Forall (fun wh => 0 < fst wh) (level_dimensions r) ->
  read_region K r x_y level tile_size normalize downsample_level_0 s
  = (Ok (t, m), s') ->
  shape (px t) = (snd (as_pair tile_size), fst (as_pair tile_size)) /\
  shape m = (snd (as_pair tile_size), fst (as_pair tile_size)).
Proof.
  intros Hb Hlevel Hpos Hrun. destruct x_y as [x0 y0].
  assert (Hrun' : read_region K r (x0, y0) level
                    (Pair (fst (as_pair tile_size)) (snd (as_pair tile_size)))
                    normalize downsample_level_0 s = (Ok (t, m), s')).
  { destruct tile_size; exact Hrun. }
  clear Hrun.
  destruct downsample_level_0.
  - destruct (Z.eq_dec level 0) as [->|Hne].
    + exact (read_region_plain_shape K r x0 y0 0 _ _ normalize true s s'
               t m Hb (or_intror eq_refl) Hrun').
    + destruct (Py.index (level_dimensions r) 0) as [[W0 H0]|e] eqn:H0i.
      2:{ unfold read_region in Hrun'.
          replace (true && (level >? 0)) with true in Hrun'
            by (cbn; destruct (Z.gtb_spec level 0); [reflexivity | lia]).
          run. rewrite H0i in Hrun'. discriminate. }
      destruct (Py.index (level_dimensions r) level) as [[Wl Hl]|e] eqn:Hli.
      2:{ unfold read_region in Hrun'.
          replace (true && (level >? 0)) with true in Hrun'
            by (cbn; destruct (Z.gtb_spec level 0); [reflexivity | lia]).
          run. rewrite H0i, Hli in Hrun'. discriminate. }
      assert (HW0 : 0 < W0).
      { apply index_nonneg in H0i; [|lia]. apply nth_error_In in H0i.
        rewrite Forall_forall in Hpos. exact (Hpos _ H0i). }
      assert (HWl : 0 < Wl).
      { apply index_nonneg in Hli; [|lia]. apply nth_error_In in Hli.
        rewrite Forall_forall in Hpos. exact (Hpos _ Hli). }
      eapply read_region_synth_shape with (level := level); eauto. lia.
  - exact (read_region_plain_shape K r x0 y0 level _ _ normalize false s s'
             t m Hb (or_introl eq_refl) Hrun').
Qed.

(** ** Requests that miss the slide *)

(** When clipping leaves a negative extent on an axis, no backend that
    returns arrays of non-negative shape can make the plain path of
    [read_region] return a buffer of the requested size: the padding alone
    is already larger. *)
Lemma negative_extent_never_exact K (r : WSIReader) (x0 y0 level w h : Z)
      (normalize : bool) (s s' : handle) (W H x y tw th : Z)
      (t : ndarray) (m : mask) :
  Py.index (level_dimensions r) level = Ok (W, H) ->
  clip x0 y0 w h W H = ((x, y), (tw, th)) ->
  tw < 0 \/ th < 0 ->
  (forall bt bm, _read_region r (x, y) level (tw, th) = Ok (bt, bm) ->
                 0 <= fst (shape (px bt)) /\ 0 <= snd (shape (px bt))) ->
  read_region K r (x0, y0) level (Pair w h) normalize false s
  = (Ok (t, m), s') ->
  shape (px t) <> (h, w).
Proof.
  intros Hidx Hclip Hneg Hback Hrun.
  rewrite (read_region_plain K r x0 y0 level w h normalize false s
             W H x y tw th eq_refl Hidx Hclip) in Hrun.
  destruct (_read_region r (x, y) level (tw, th)) as [[bt bm]|e] eqn:Hf;
    [|discriminate].
  destruct (Hback bt bm eq_refl) as [Hbh Hbw].
  cbn [result_bind fst snd] in Hrun.
  destruct (np_pad _ _) as [t'|e] eqn:Ht; [|discriminate].
  cbn [result_bind] in Hrun.
  destruct (np_pad_mask _ _) as [m'|e]; [|discriminate].
  cbn [result_bind] in Hrun. inversion Hrun; subst t' m' s'.
  apply np_pad_shape in Ht. apply clip_bounds in Hclip.
  assert (Hs : shape (px (if normalize then _normalize bt else bt))
               = shape (px bt)).
  { destruct normalize; [apply normalize_shape | reflexivity]. }
  rewrite Hs in Ht. unfold padding_of in Ht. cbn [fst snd] in Ht.
  rewrite Ht. intros E. inversion E. lia.
Qed.

(** A request that only touches the far edge (clipped extent zero) is
    served as pure padding of the requested size. *)
Lemma touching_edge_is_all_padding :
  exists (t : ndarray) (m : mask),
    fst (read_region Samples.nearest Samples.pyramid (1000, 0) 0
                     (Pair 50 50) false false Samples.fresh)
    = Ok (t, m) /\
    shape (px t) = (50, 50) /\ shape m = (50, 50) /\
    (forall i j, 0 <= i < 50 -> 0 <= j < 50 -> cell m i j = Some false).
Proof.
  exists (NDArray np_integer (Some 1%nat)
            (pad_cells [Int 0] 0 0 0 50 (tabulate 50 0 (fun _ _ => [])))).
  exists (pad_cells false 0 0 0 50 (tabulate 50 0 (fun _ _ => true))).
  split; [reflexivity|]. split; [reflexivity|]. split; [reflexivity|].
  intros i j Hi Hj.
  apply cell_pad_cells_fill; try apply tabulate_wf; cbn; lia.
Qed.

(** C2 (the code departs from it).  On the 1000 x 1000 level of the
    sample pyramid, a 50 x 50 request at x = 2000 (beyond the right edge)
    or at x = -100 (before the left edge) reaches the tifffile backend
    with a negative width and ends in ValueError instead of an all-padding
    buffer. *)
Theorem out_of_bounds_read_raises :
  read_region Samples.nearest Samples.pyramid (2000, 0) 0 (Pair 50 50)
              true false Samples.fresh
  = (Raise ValueError, Handle None [Fetch (2000, 0) 0 (-1000, 50)]) /\
  read_region Samples.nearest Samples.pyramid (-100, 0) 0 (Pair 50 50)
              true false Samples.fresh
  = (Raise ValueError, Handle None [Fetch (0, 0) 0 (-50, 50)]).
Proof. split; reflexivity. Qed.

(** C1 (the code departs from it).  With sizes of 50 x 50 and origins
    below the bottom edge, neither [read_region] nor [read_region_ds]
    returns buffers at all: both end in ValueError, on the exact-level
    path (downsample 1.0) and on the resampling path (downsample 3.0)
    alike. *)
Theorem out_of_bounds_shape_not_returned :
  fst (read_region Samples.nearest Samples.pyramid (0, 1200) 0 (Pair 50 50)
                   false false Samples.fresh)
  = Raise ValueError /\
  fst (read_region_ds Samples.nearest Samples.pyramid (0, 1200) 1
                      (Pair 50 50) false false Samples.fresh)
  = Raise ValueError /\
  fst (read_region_ds Samples.nearest Samples.pyramid (0, 700) 3
                      (Pair 50 50) false false Samples.fresh)
  = Raise ValueError.
Proof. repeat split; reflexivity. Qed.

(** * Further properties of the code *)

(** ** The level selector picks the finest level that suffices *)

Lemma scan_value_brackets (lds : list Q) (d : Q) (n : Z) (k : nat) :
  forall (a : Z) (p : Q) (o : option Z),
    Z.to_nat (n - a) = k -> 1 <= a <= n ->
    Py.index lds (a - 1) = Ok p -> (p <= d)%Q ->
    scan_value lds d (Py.range a n) = Ok o ->
    match o with
    | Some v =>
        a - 1 <= v /\
        (exists x, Py.index lds v = Ok x /\ (x <= d)%Q) /\
        (exists y, Py.index lds (v + 1) = Ok y /\ (d < y)%Q)
    | None => exists x, Py.index lds (n - 1) = Ok x /\ (x <= d)%Q
    end.
Proof.
  induction k as [|k IH]; intros a p o Hk Ha Hp Hpd Hscan.
  - assert (a = n) by lia. subst a.
    rewrite range_nil in Hscan by lia. inversion Hscan; subst. eauto.
  - rewrite range_cons in Hscan by lia. cbn [scan_value] in Hscan.
    destruct (Py.index lds a) as [y|e] eqn:Hy; [|discriminate].
    cbn [result_bind] in Hscan.
    destruct (Py.ltb d y) eqn:Hlt.
    + inversion Hscan; subst o. apply ltb_true in Hlt.
      split; [lia|]. split; [eauto|].
      exists y. replace (a - 1 + 1) with a by lia. auto.
    + apply ltb_false in Hlt.
      specialize (IH (a + 1) y o ltac:(lia) ltac:(lia)).
      replace (a + 1 - 1) with a in IH by lia.
      specialize (IH Hy Hlt Hscan).
      destruct o as [v|]; [|exact IH].
      destruct IH as (Hv & Hx & Hnext). split; [lia|]. auto.
Qed.

(** X1.  When the target is at least [level_downsamples[0]], the level
    returned by [get_best_level_for_downsample] has a downsample that does
    not exceed the target, and the next level, if there is one, has a
    downsample above it. *)
Theorem best_level_brackets_target
        (r : WSIReader) (s s' : handle) (lds : list Q) (d d0 : Q) (l : Z) :
  level_downsamples r s = (Ok lds, s') ->
  1 <= level_count r ->
  Py.index lds 0 = Ok d0 -> (d0 <= d)%Q ->
  fst (get_best_level_for_downsample r d s) = Ok l ->
  0 <= l < level_count r /\
  (exists x, Py.index lds l = Ok x /\ (x <= d)%Q) /\
  (l + 1 < level_count r ->
   exists y, Py.index lds (l + 1) = Ok y /\ (d < y)%Q).
Proof.
  intros Hlds Hn H0 Hd0 Hbest.
  rewrite (get_best_level_eval _ _ _ _ _ Hlds) in Hbest. cbn [fst] in Hbest.
  unfold best_level_value in Hbest. rewrite H0 in Hbest.
  cbn [result_bind] in Hbest.
  apply ltb_false in Hd0. rewrite Hd0 in Hbest. apply ltb_false in Hd0.
  destruct (scan_value lds d (Py.range 1 (level_count r))) as [o|e] eqn:Hs;
    [|discriminate].
  cbn [result_bind] in Hbest.
  pose proof (scan_value_brackets lds d (level_count r) _ 1 d0 o eq_refl
                ltac:(lia) H0 Hd0 Hs) as Hb.
  destruct o as [v|]; inversion Hbest; subst l.
  - destruct Hb as (Hv & Hx & Hy).
    apply scan_value_found, In_range in Hs.
    split; [lia|]. split; [exact Hx|]. intros _. exact Hy.
  - split; [lia|]. split; [exact Hb|]. intros Hlt. lia.
Qed.

Lemma best_level_brackets_target_witness :
  level_downsamples Samples.pyramid Samples.fresh
  = (Ok [1%Q; 2%Q; 4%Q], Cases.memoised) /\
  1 <= level_count Samples.pyramid /\
  Py.index [1%Q; 2%Q; 4%Q] 0 = Ok 1%Q /\ (1 <= 3)%Q /\
  fst (get_best_level_for_downsample Samples.pyramid 3 Samples.fresh)
  = Ok 1 /\
  0 <= 1 < level_count Samples.pyramid /\
  (exists x, Py.index [1%Q; 2%Q; 4%Q] 1 = Ok x /\ (x <= 3)%Q) /\
  (1 + 1 < level_count Samples.pyramid ->
   exists y, Py.index [1%Q; 2%Q; 4%Q] (1 + 1) = Ok y /\ (3 < y)%Q).
Proof.
  split; [reflexivity|]. split; [cbn; lia|]. split; [reflexivity|].
  split; [discriminate|]. split; [reflexivity|].
  apply (best_level_brackets_target
           Samples.pyramid Samples.fresh Cases.memoised
           [1%Q; 2%Q; 4%Q] 3 1%Q 1);
    [reflexivity | cbn; lia | reflexivity | discriminate | reflexivity].
Defined.

(** ** Dimensions at a stored level *)

Lemma contains_nth (lds : list Q) (i : nat) (d : Q) :
  nth_error lds i = Some d -> Py.contains d lds = true.
Proof.
  intros H. unfold Py.contains. apply existsb_exists.
  exists d. split; [eapply nth_error_In; eauto|].
  apply Qeq_bool_iff. apply Qeq_refl.
Qed.

Lemma index_of_strictly_increasing (lds : list Q) :
  strictly_increasing lds ->
  forall (i : nat) (d : Q),
    nth_error lds i = Some d -> Py.index_of d lds = Ok (Z.of_nat i).
Proof.
  induction lds as [|y t IH]; intros Hinc i d Hd.
  - destruct i; discriminate.
  - cbn [Py.index_of]. destruct i as [|i]; cbn [nth_error] in Hd.
    + inversion Hd; subst.
      assert (E : Qeq_bool d d = true) by (apply Qeq_bool_iff, Qeq_refl).
      now rewrite E.
    + assert (Hlt : (y < d)%Q).
      { eapply (strictly_increasing_nth (y :: t) 0 (S i));
          [exact Hinc | lia | reflexivity | exact Hd]. }
      assert (E : Qeq_bool y d = false).
      { destruct (Qeq_bool y d) eqn:Q0; [|reflexivity].
        apply Qeq_bool_iff in Q0. rewrite Q0 in Hlt.
        exfalso. exact (Qlt_irrefl _ Hlt). }
      rewrite E, (IH (chain_tail _ _ _ Hinc) i d Hd). cbn [result_bind].
      f_equal. lia.
Qed.

(** X2.  With strictly increasing [level_downsamples],
    [get_dimensions_for_downsample] applied to the (positive) downsample of
    level [i] answers with [level_dimensions[i]] itself, whatever that
    lookup gives, and not with a rounded quotient. *)
Theorem dimensions_at_stored_level
        (r : WSIReader) (s s' : handle) (lds : list Q) (i : Z) (d : Q) :
  level_downsamples r s = (Ok lds, s') ->
  strictly_increasing lds ->
  0 <= i -> Py.index lds i = Ok d -> (0 < d)%Q ->
  get_dimensions_for_downsample r d s
  = (Py.index (level_dimensions r) i, s').
Proof.
  intros Hlds Hinc Hi Hd Hpos.
  destruct (level_downsamples_settles _ _ _ _ Hlds) as [Hset _].
  apply index_nonneg in Hd; [|assumption].
  unfold get_dimensions_for_downsample.
  apply leb_false in Hpos. rewrite Hpos. run. rewrite Hlds.
  rewrite (contains_nth _ _ _ Hd), (settled_eval _ _ _ Hset).
  rewrite (index_of_strictly_increasing lds Hinc _ _ Hd).
  rewrite Z2Nat.id by assumption. reflexivity.
Qed.

Lemma dimensions_at_stored_level_witness :
  level_downsamples Samples.pyramid Samples.fresh
  = (Ok [1%Q; 2%Q; 4%Q], Cases.memoised) /\
  strictly_increasing [1%Q; 2%Q; 4%Q] /\
  0 <= 2 /\ Py.index [1%Q; 2%Q; 4%Q] 2 = Ok 4%Q /\ (0 < 4)%Q /\
  get_dimensions_for_downsample Samples.pyramid 4 Samples.fresh
  = (Py.index (level_dimensions Samples.pyramid) 2, Cases.memoised).
Proof.
  assert (Hinc : strictly_increasing [1%Q; 2%Q; 4%Q]).
  { vm_compute. repeat split. }
  split; [reflexivity|]. split; [exact Hinc|]. split; [lia|].
  split; [reflexivity|]. split; [reflexivity|].
  apply (dimensions_at_stored_level
           Samples.pyramid Samples.fresh Cases.memoised
           [1%Q; 2%Q; 4%Q] 2 4);
    [reflexivity | exact Hinc | lia | reflexivity | reflexivity].
Defined.

(** ** Memoisation of [level_downsamples] *)

Lemma level_downsamples_no_fetch (r : WSIReader) (s s' : handle)
      (res : result (list Q)) :
  level_downsamples r s = (res, s') -> fetches s' = fetches s.
Proof.
  unfold level_downsamples.
  destruct (level_downsamples_native r).
  { unfold ret. intros H. now inversion H. }
  destruct (_level_downsamples s).
  { intros H. now inversion H. }
  run. cbn [fetches _level_downsamples].
  destruct (Py.index (level_dimensions r) 0) as [wh|e].
  2:{ intros H. now inversion H. }
  destruct (fill_level_downsamples r (fst wh) (Py.range 0 (level_count r))
              (Handle (Some []) (fetches s))) as [[u|e] s1] eqn:Ef;
    apply fill_level_downsamples_frame in Ef;
    cbn [fetches] in Ef; destruct Ef as [Hf _];
    intros H; inversion H; subst; exact Hf.
Qed.

(** X3.  Once [level_downsamples] has returned a list, every later access
    returns the same list and changes nothing in the handle, whatever
    fetches happen in between; the property itself never fetches. *)
Theorem level_downsamples_memoised
        (r : WSIReader) (s s' : handle) (lds : list Q) :
  level_downsamples r s = (Ok lds, s') ->
  fetches s' = fetches s /\
  forall f : list fetch,
    level_downsamples r (Handle (_level_downsamples s') f)
    = (Ok lds, Handle (_level_downsamples s') f).
Proof.
  intros H. destruct (level_downsamples_settles _ _ _ _ H) as [Hset Hf].
  split; [exact Hf|]. intros f.
  apply settled_eval. now apply settled_fetches.
Qed.

Lemma level_downsamples_memoised_witness :
  level_downsamples Samples.pyramid Samples.fresh
  = (Ok [1%Q; 2%Q; 4%Q], Cases.memoised) /\
  fetches Cases.memoised = fetches Samples.fresh /\
  forall f : list fetch,
    level_downsamples Samples.pyramid
                      (Handle (_level_downsamples Cases.memoised) f)
    = (Ok [1%Q; 2%Q; 4%Q], Handle (_level_downsamples Cases.memoised) f).
Proof.
  split; [reflexivity|].
  apply (level_downsamples_memoised
           Samples.pyramid Samples.fresh Cases.memoised [1%Q; 2%Q; 4%Q]).
  reflexivity.
Defined.

Lemma fill_level_downsamples_raises (r : WSIReader) (width : Z)
      (levels : list Z) :
  forall (acc : list Q) (f : list fetch) (e : exn) (s' : handle),
    fill_level_downsamples r width levels (Handle (Some acc) f)
    = (Raise e, s') ->
    (e = IndexError \/ e = ZeroDivisionError) /\
    exists l, s' = Handle (Some (acc ++ l)) f /\
              (length l < length levels)%nat.
Proof.
  induction levels as [|level rest IH]; intros acc f e s' H.
  - cbn in H. run. discriminate.
  - cbn [fill_level_downsamples] in H. run.
    destruct (Py.index (level_dimensions r) level) as [wh|e1] eqn:Hi.
    2:{ inversion H; subst. apply index_raises in Hi. split; [now left|].
        exists []. rewrite app_nil_r. cbn. split; [reflexivity | lia]. }
    unfold Py.truediv in H.
    destruct (fst wh =? 0).
    { inversion H; subst. split; [now right|].
      exists []. rewrite app_nil_r. cbn. split; [reflexivity | lia]. }
    cbn [_level_downsamples fetches] in H.
    apply IH in H. destruct H as (He & l & -> & Hl). split; [exact He|].
    eexists (_ :: l). rewrite <- app_assoc. cbn [app length].
    split; [reflexivity | lia].
Qed.

(** X4.  When the first access to the inherited [level_downsamples] fails
    (a missing level or a level of width 0), the attribute is left holding
    the factors appended so far: the next access does not fail any more
    but returns that truncated list, shorter than [level_count]. *)
Theorem level_downsamples_stale_after_failure
        (r : WSIReader) (s s' : handle) (e : exn) :
  level_downsamples_native r = None ->
  _level_downsamples s = None ->
  level_downsamples r s = (Raise e, s') ->
  (e = IndexError \/ e = ZeroDivisionError) /\
  exists l,
    level_downsamples r s' = (Ok l, s') /\
    (l = [] \/ Z.of_nat (length l) < level_count r).
Proof.
  intros Hnat Hcache H. unfold level_downsamples in H.
  rewrite Hnat, Hcache in H. run. cbn [fetches _level_downsamples] in H.
  destruct (Py.index (level_dimensions r) 0) as [wh|e1] eqn:H0.
  2:{ inversion H; subst. apply index_raises in H0. split; [now left|].
      exists []. split; [|now left].
      unfold level_downsamples. now rewrite Hnat. }
  destruct (fill_level_downsamples r (fst wh) (Py.range 0 (level_count r))
              (Handle (Some []) (fetches s))) as [[u|e1] s1] eqn:Ef.
  { destruct (_level_downsamples s1); discriminate. }
  inversion H; subst e1 s1.
  apply fill_level_downsamples_raises in Ef.
  destruct Ef as (He & l & -> & Hl). split; [exact He|].
  exists l. cbn [app]. split.
  - unfold level_downsamples. now rewrite Hnat.
  - right. rewrite range_length in Hl. lia.
Qed.

Lemma level_downsamples_stale_after_failure_witness :
  level_downsamples_native Cases.broken = None /\
  _level_downsamples Samples.fresh = None /\
  level_downsamples Cases.broken Samples.fresh
  = (Raise ZeroDivisionError, Cases.stale) /\
  (ZeroDivisionError = IndexError \/ ZeroDivisionError = ZeroDivisionError) /\
  exists l,
    level_downsamples Cases.broken Cases.stale = (Ok l, Cases.stale) /\
    (l = [] \/ Z.of_nat (length l) < level_count Cases.broken).
Proof.
  split; [reflexivity|]. split; [reflexivity|]. split; [reflexivity|].
  apply (level_downsamples_stale_after_failure
           Cases.broken Samples.fresh Cases.stale ZeroDivisionError);
    reflexivity.
Defined.

(** ** What [read_region] asks of the backend *)

(** X5.  A call of [read_region] (at a level that is not negative when
    level 0 is forced) calls the backend's [_read_region] at most once:
    not at all when it fails before reaching the backend, otherwise
    exactly once, at the fetch level, with an origin that is never
    negative and a far corner that never lies beyond that level's
    dimensions. *)
Theorem read_region_fetch_discipline
        (INTER_CUBIC : ndarray -> Z * Z -> Z -> Z -> list scalar)
        (r : WSIReader) (x_y : Z * Z) (level : Z) (tile_size : size_arg)
        (normalize downsample_level_0 : bool) (s s' : handle)
        (res : result (ndarray * mask)) :
  downsample_level_0 = false \/ 0 <= level ->
  read_region INTER_CUBIC r x_y level tile_size normalize
              downsample_level_0 s = (res, s') ->
  (fetches s' = fetches s /\ exists e, res = Raise e) \/
  exists (x y tw th : Z),
    fetches s'
    = Fetch (x, y) (if downsample_level_0 then 0 else level) (tw, th)
      :: fetches s /\
    within r (x, y) (if downsample_level_0 then 0 else level) (tw, th).
Proof.
  intros Hlevel Hrun. destruct x_y as [x0 y0].
  assert (Hrun' : read_region INTER_CUBIC r (x0, y0) level
                    (Pair (fst (as_pair tile_size)) (snd (as_pair tile_size)))
                    normalize downsample_level_0 s = (res, s')).
  { destruct tile_size; exact Hrun. }
  clear Hrun. set (w := fst (as_pair tile_size)) in *.
  set (h := snd (as_pair tile_size)) in *.
  destruct (downsample_level_0 && (level >? 0)) eqn:Hsynth.
  - apply andb_prop in Hsynth. destruct Hsynth as [-> Hgt].
    assert (Hpos : 0 < level).
    { destruct (Z.gtb_spec level 0); [lia | discriminate]. }
    destruct (Py.index (level_dimensions r) 0) as [[W0 H0]|e] eqn:H0i.
    2:{ unfold read_region in Hrun'.
        rewrite Hgt in Hrun'. cbn [andb] in Hrun'.
        run. rewrite H0i in Hrun'. inversion Hrun'; subst. eauto. }
    destruct (Py.index (level_dimensions r) level) as [[Wl Hl]|e] eqn:Hli.
    2:{ unfold read_region in Hrun'.
        rewrite Hgt in Hrun'. cbn [andb] in Hrun'.
        run. rewrite H0i, Hli in Hrun'. inversion Hrun'; subst. eauto. }
    destruct (Z.eq_dec Wl 0) as [->|HWl].
    { unfold read_region in Hrun'.
      rewrite Hgt in Hrun'. cbn [andb] in Hrun'.
      run. rewrite H0i, Hli in Hrun'. cbn in Hrun'.
      inversion Hrun'; subst. eauto. }
    set (ds := Py.round (Qred (inject_Z W0 / inject_Z Wl))) in *.
    destruct (clip (x0 * ds) (y0 * ds) (w * ds) (h * ds) W0 H0)
      as [[x y] [tw th]] eqn:Hclip.
    rewrite (read_region_synth INTER_CUBIC r x0 y0 level w h normalize s
               W0 H0 Wl Hl ds x y tw th ltac:(lia) H0i Hli HWl eq_refl Hclip)
      in Hrun'.
    inversion Hrun'; subst. right.
    exists x, y, tw, th. split; [reflexivity|].
    apply clip_bounds in Hclip. exists W0, H0. cbn [fst snd].
    repeat split; try assumption; lia.
  - assert (Hfl : (if downsample_level_0 then 0 else level) = level).
    { destruct downsample_level_0; [|reflexivity].
      cbn in Hsynth. destruct (Z.gtb_spec level 0); [discriminate|].
      destruct Hlevel; [discriminate | lia]. }
    destruct (Py.index (level_dimensions r) level) as [[W H]|e] eqn:Hidx.
    2:{ unfold read_region in Hrun'. rewrite Hsynth in Hrun'. run.
        rewrite Hidx in Hrun'. inversion Hrun'; subst. eauto. }
    destruct (clip x0 y0 w h W H) as [[x y] [tw th]] eqn:Hclip.
    rewrite (read_region_plain INTER_CUBIC r x0 y0 level w h normalize
               downsample_level_0 s W H x y tw th Hsynth Hidx Hclip)
      in Hrun'.
    inversion Hrun'; subst. right.
    exists x, y, tw, th. split; [reflexivity|].
    apply clip_bounds in Hclip. rewrite Hfl. exists W, H. cbn [fst snd].
    repeat split; try assumption; lia.
Qed.

Lemma read_region_fetch_discipline_witness :
  (true = false \/ 0 <= 1) /\
  read_region Samples.nearest Samples.pyramid (-3, 498) 1 (Scalar 4)
              false true Samples.fresh
  = (fst (read_region Samples.nearest Samples.pyramid (-3, 498) 1 (Scalar 4)
                      false true Samples.fresh),
     Handle None [Fetch (0, 996) 0 (2, 4)]) /\
  ((fetches (Handle None [Fetch (0, 996) 0 (2, 4)]) = fetches Samples.fresh /\
    exists e,
      fst (read_region Samples.nearest Samples.pyramid (-3, 498) 1
                       (Scalar 4) false true Samples.fresh) = Raise e) \/
   exists (x y tw th : Z),
     fetches (Handle None [Fetch (0, 996) 0 (2, 4)])
     = Fetch (x, y) 0 (tw, th) :: fetches Samples.fresh /\
     within Samples.pyramid (x, y) 0 (tw, th)).
Proof.
  assert (Hrun : read_region Samples.nearest Samples.pyramid (-3, 498) 1
                   (Scalar 4) false true Samples.fresh
                 = (fst (read_region Samples.nearest Samples.pyramid
                                     (-3, 498) 1 (Scalar 4) false true
                                     Samples.fresh),
                    Handle None [Fetch (0, 996) 0 (2, 4)]))
    by reflexivity.
  split; [right; lia|]. split; [exact Hrun|].
  apply (read_region_fetch_discipline
           Samples.nearest Samples.pyramid (-3, 498) 1 (Scalar 4) false true
           Samples.fresh (Handle None [Fetch (0, 996) 0 (2, 4)]));
    [right; lia | exact Hrun].
Defined.

(** X6.  A request that lies inside its level is passed to the backend as
    it is, and what the backend returns comes back unpadded: the block
    (through [_normalize] when asked for) and the backend's own mask. *)
Theorem read_region_inside_is_backend_block
        (INTER_CUBIC : ndarray -> Z * Z -> Z -> Z -> list scalar)
        (r : WSIReader) (x0 y0 level w h W H : Z) (normalize : bool)
        (s : handle) (bt : ndarray) (bm : mask) :
  Py.index (level_dimensions r) level = Ok (W, H) ->
  0 <= x0 -> 0 <= y0 -> x0 + w <= W -> y0 + h <= H ->
  _read_region r (x0, y0) level (w, h) = Ok (bt, bm) ->
  read_region INTER_CUBIC r (x0, y0) level (Pair w h) normalize false s
  = (Ok (if normalize then _normalize bt else bt, bm),
     Handle (_level_downsamples s)
            (Fetch (x0, y0) level (w, h) :: fetches s)).
Proof.
  intros Hidx Hx Hy Hxw Hyh Hf.
  assert (Hclip : clip x0 y0 w h W H = ((x0, y0), (w, h))).
  { unfold clip.
    destruct (Z.ltb_spec x0 0); [lia|]. destruct (Z.ltb_spec y0 0); [lia|].
    rewrite !Z.max_l by lia.
    destruct (Z.gtb_spec (x0 + w) W); [lia|].
    destruct (Z.gtb_spec (y0 + h) H); [lia|]. reflexivity. }
  rewrite (read_region_plain INTER_CUBIC r x0 y0 level w h normalize false s
             W H x0 y0 w h eq_refl Hidx Hclip).
  rewrite Hf. cbn [result_bind fst snd].
  assert (Hpad : padding_of (x0, y0) (w, h) (x0, y0) (w, h)
                 = ((0, 0), (0, 0))).
  { unfold padding_of. cbn [fst snd]. rewrite !Z.min_r by lia.
    repeat f_equal; lia. }
  rewrite Hpad, np_pad_nothing, np_pad_mask_nothing. reflexivity.
Qed.

Lemma read_region_inside_is_backend_block_witness :
  Py.index (level_dimensions Samples.pyramid) 1 = Ok (500, 500) /\
  0 <= 0 /\ 0 <= 0 /\ 0 + 150 <= 500 /\ 0 + 150 <= 500 /\
  _read_region Samples.pyramid (0, 0) 1 (150, 150)
  = Ok (Samples.block150, Samples.ones150) /\
  read_region Samples.nearest Samples.pyramid (0, 0) 1 (Pair 150 150) true
              false Samples.fresh
  = (Ok (_normalize Samples.block150, Samples.ones150),
     Handle (_level_downsamples Samples.fresh)
            (Fetch (0, 0) 1 (150, 150) :: fetches Samples.fresh)).
Proof.
  assert (Hf : _read_region Samples.pyramid (0, 0) 1 (150, 150)
               = Ok (Samples.block150, Samples.ones150)) by reflexivity.
  split; [reflexivity|]. repeat (split; [lia|]). split; [exact Hf|].
  apply (read_region_inside_is_backend_block
           Samples.nearest Samples.pyramid 0 0 1 150 150 500 500 true
           Samples.fresh Samples.block150 Samples.ones150);
    [reflexivity | lia | lia | lia | lia | exact Hf].
Defined.

(** ** The size of what is returned *)

(** X7.  On a slide whose levels have positive width, with a backend that
    honours its contract, whatever [read_region] returns has exactly the
    requested size, pixel buffer and mask alike: on the plain path and on
    the path synthesised from level 0, for a scalar or a pair as
    [tile_size], clipped or not. *)
Theorem read_region_returns_requested_size
        (INTER_CUBIC : ndarray -> Z * Z -> Z -> Z -> list scalar)
        (r : WSIReader) (x_y : Z * Z) (level : Z) (tile_size : size_arg)
        (normalize downsample_level_0 : bool) (s s' : handle)
        (t : ndarray) (m : mask) :
  backend_exact r -> 0 <= level ->
  Forall (fun wh => 0 < fst wh) (level_dimensions r) ->
  read_region INTER_CUBIC r x_y level tile_size normalize
              downsample_level_0 s = (Ok (t, m), s') ->
  shape (px t) = (snd (as_pair tile_size), fst (as_pair tile_size)) /\
  shape m = shape (px t).
Proof.
  intros Hb Hlevel Hpos Hrun.
  destruct (read_region_shape INTER_CUBIC r x_y level tile_size normalize
              downsample_level_0 s s' t m Hb Hlevel Hpos Hrun) as [Ht Hm].
  split; [exact Ht | congruence].
Qed.

Lemma read_region_returns_requested_size_witness :
  backend_exact Samples.pyramid /\ 0 <= 1 /\
  Forall (fun wh => 0 < fst wh) (level_dimensions Samples.pyramid) /\
  read_region Samples.nearest Samples.pyramid (-3, 498) 1 (Scalar 4)
              false true Samples.fresh
  = (Ok (Runs.synthesised_tile, Runs.synthesised_mask),
     Handle None [Fetch (0, 996) 0 (2, 4)]) /\
  shape (px Runs.synthesised_tile)
  = (snd (as_pair (Scalar 4)), fst (as_pair (Scalar 4))) /\
  shape Runs.synthesised_mask = shape (px Runs.synthesised_tile).
Proof.
  assert (Hpos : Forall (fun wh => 0 < fst wh)
                        (level_dimensions Samples.pyramid)).
  { repeat constructor. }
  assert (Hrun : read_region Samples.nearest Samples.pyramid (-3, 498) 1
                   (Scalar 4) false true Samples.fresh
                 = (Ok (Runs.synthesised_tile, Runs.synthesised_mask),
                    Handle None [Fetch (0, 996) 0 (2, 4)]))
    by (vm_compute; reflexivity).
  split; [apply tiff_backend_exact|]. split; [lia|].
  split; [exact Hpos|]. split; [exact Hrun|].
  apply (read_region_returns_requested_size
           Samples.nearest Samples.pyramid (-3, 498) 1 (Scalar 4) false true
           Samples.fresh (Handle None [Fetch (0, 996) 0 (2, 4)])
           Runs.synthesised_tile Runs.synthesised_mask);
    [apply tiff_backend_exact | lia | exact Hpos | exact Hrun].
Defined.

(** X8.  With a backend that honours its contract, whatever
    [read_region_ds] returns has exactly the requested size, on the
    exact-level path, on the resampling path and when level 0 is
    forced. *)
Theorem read_region_ds_returns_requested_size
        (INTER_CUBIC : ndarray -> Z * Z -> Z -> Z -> list scalar)
        (r : WSIReader) (x_y : Z * Z) (downsample : Q)
        (tile_size : size_arg) (normalize downsample_level_0 : bool)
        (s s' : handle) (t : ndarray) (m : mask) :
  backend_exact r ->
  read_region_ds INTER_CUBIC r x_y downsample tile_size normalize
                 downsample_level_0 s = (Ok (t, m), s') ->
  shape (px t) = (snd (as_pair tile_size), fst (as_pair tile_size)) /\
  shape m = shape (px t).
Proof.
  intros Hb. unfold read_region_ds.
  destruct (Py.leb downsample 0); [discriminate|].
  set (forced := if Qeq_bool downsample 1 then false
                 else downsample_level_0).
  destruct (as_pair tile_size) as [w h]. cbn [fst snd].
  destruct x_y as [x0 y0]. run.
  destruct (level_downsamples r s) as [[lds|e] s1]; [|discriminate].
  destruct (Py.contains downsample lds && negb forced) eqn:Hexact.
  - apply andb_prop in Hexact. destruct Hexact as [_ Hf].
    destruct (get_best_level_for_downsample r downsample s1)
      as [[level|e] s2]; [|discriminate].
    destruct (read_region INTER_CUBIC r (x0, y0) level (Pair w h) false
                          false s2) as [[[t1 m1]|e] s3] eqn:Hr;
      [|discriminate].
    intros E. inversion E; subst.
    apply read_region_plain_shape in Hr; [|assumption | now left].
    destruct Hr as [Ht Hm]. rewrite Hm.
    destruct normalize; [rewrite normalize_shape|]; auto.
  - repeat destruct_innermost; try discriminate.
    all: intros E; inversion E; subst.
    all: repeat match goal with
           | H : cv2_resize _ _ _ = Ok _ |- _ => apply cv2_resize_shape in H
           | H : resize_mask _ _ _ = Ok _ |- _ => apply resize_mask_shape in H
           end.
    all: rewrite ?normalize_shape; split; congruence.
Qed.

Lemma read_region_ds_returns_requested_size_witness :
  backend_exact Samples.pyramid /\
  read_region_ds Samples.nearest Samples.pyramid (1, 1) 3 (Pair 3 2)
                 true true Samples.fresh
  = (Ok (Runs.resampled_tile, Runs.resampled_mask),
     Handle (Some [1%Q; 2%Q; 4%Q]) [Fetch (3, 3) 0 (9, 6)]) /\
  shape (px Runs.resampled_tile)
  = (snd (as_pair (Pair 3 2)), fst (as_pair (Pair 3 2))) /\
  shape Runs.resampled_mask = shape (px Runs.resampled_tile).
Proof.
  assert (Hrun : read_region_ds Samples.nearest Samples.pyramid (1, 1) 3
                   (Pair 3 2) true true Samples.fresh
                 = (Ok (Runs.resampled_tile, Runs.resampled_mask),
                    Handle (Some [1%Q; 2%Q; 4%Q]) [Fetch (3, 3) 0 (9, 6)]))
    by (vm_compute; reflexivity).
  split; [apply tiff_backend_exact|]. split; [exact Hrun|].
  apply (read_region_ds_returns_requested_size
           Samples.nearest Samples.pyramid (1, 1) 3 (Pair 3 2) true true
           Samples.fresh
           (Handle (Some [1%Q; 2%Q; 4%Q]) [Fetch (3, 3) 0 (9, 6)])
           Runs.resampled_tile Runs.resampled_mask);
    [apply tiff_backend_exact | exact Hrun].
Defined.

(** ** One fetch per request *)

Lemma scan_levels_no_fetch (r : WSIReader) (d : Q) (levels : list Z) :
  forall (s s' : handle) (res : result (option Z)),
    scan_levels r d levels s = (res, s') -> fetches s' = fetches s.
Proof.
  induction levels as [|i rest IH]; intros s s' res H.
  - cbn in H. run. now inversion H.
  - cbn [scan_levels] in H. run.
    destruct (level_downsamples r s) as [[lds|e] s1] eqn:Hl;
      apply level_downsamples_no_fetch in Hl.
    2:{ inversion H; subst. exact Hl. }
    destruct (Py.index lds i) as [x|e].
    2:{ inversion H; subst. exact Hl. }
    destruct (Py.ltb d x).
    + inversion H; subst. exact Hl.
    + apply IH in H. congruence.
Qed.

Lemma get_best_level_no_fetch (r : WSIReader) (d : Q) (s s' : handle)
      (res : result Z) :
  get_best_level_for_downsample r d s = (res, s') ->
  fetches s' = fetches s.
Proof.
  unfold get_best_level_for_downsample. run.
  destruct (level_downsamples r s) as [[lds|e] s1] eqn:Hl;
    apply level_downsamples_no_fetch in Hl.
  2:{ intros H. inversion H; subst. exact Hl. }
  destruct (Py.index lds 0) as [d0|e].
  2:{ intros H. inversion H; subst. exact Hl. }
  destruct (Py.ltb d d0).
  { intros H. inversion H; subst. exact Hl. }
  destruct (scan_levels r d (Py.range 1 (level_count r)) s1)
    as [[[l|]|e] s2] eqn:Hs;
    apply scan_levels_no_fetch in Hs;
    intros H; inversion H; subst; congruence.
Qed.

Lemma read_region_fetches K (r : WSIReader) (x_y : Z * Z) (level : Z)
      (tile_size : size_arg) (normalize downsample_level_0 : bool)
      (s s' : handle) (res : result (ndarray * mask)) :
  read_region K r x_y level tile_size normalize downsample_level_0 s
  = (res, s') ->
  fetches s' = fetches s \/ exists f, fetches s' = f :: fetches s.
Proof.
  unfold read_region, call_read_region. destruct x_y as [x y]. run.
  repeat destruct_innermost.
  all: intros H; inversion H; subst; cbn [fetches]; eauto.
  all: repeat match goal with
         | H : (if ?b then _ else _) _ = _ |- _ => destruct b
         | H : context [match ?X with _ => _ end] |- _ =>
             lazymatch X with
             | context [match _ with _ => _ end] => fail
             | _ => destruct X
             end
         | H : (_, _) = (_, _) |- _ => inversion H; clear H; subst
         end; cbn [fetches]; eauto.
Qed.

Lemma read_region_ds_fetches K (r : WSIReader) (x_y : Z * Z)
      (downsample : Q) (tile_size : size_arg)
      (normalize downsample_level_0 : bool)
      (s s' : handle) (res : result (ndarray * mask)) :
  read_region_ds K r x_y downsample tile_size normalize
                 downsample_level_0 s = (res, s') ->
  fetches s' = fetches s \/ exists f, fetches s' = f :: fetches s.
Proof.
  unfold read_region_ds.
  destruct (Py.leb downsample 0).
  { unfold raise. intros H. inversion H; subst. now left. }
  set (forced := if Qeq_bool downsample 1 then false
                 else downsample_level_0).
  destruct (as_pair tile_size) as [w h]. cbn [fst snd]. run.
  repeat destruct_innermost.
  all: intros H; inversion H; subst.
  all: repeat match goal with
         | H : level_downsamples _ _ = _ |- _ =>
             apply level_downsamples_no_fetch in H
         | H : get_best_level_for_downsample _ _ _ = _ |- _ =>
             apply get_best_level_no_fetch in H
         | H : read_region _ _ _ _ _ _ _ _ = _ |- _ =>
             apply read_region_fetches in H
         | H : (_, _) = (_, _) |- _ => inversion H; clear H; subst
         end.
  all: repeat match goal with
         | H : _ \/ _ |- _ => destruct H
         | H : exists _, _ |- _ => destruct H
         end.
  all: first [ left; congruence
             | match goal with
               | H : fetches _ = ?f :: _ |- _ => right; exists f; congruence
               end ].
Qed.

(** X9.  A call of [read_region_ds] makes at most one backend fetch,
    whichever path it takes and however it ends; computing or re-reading
    [level_downsamples] and selecting the level fetch nothing. *)
Theorem read_region_ds_fetches_at_most_once
        (INTER_CUBIC : ndarray -> Z * Z -> Z -> Z -> list scalar)
        (r : WSIReader) (x_y : Z * Z) (downsample : Q)
        (tile_size : size_arg) (normalize downsample_level_0 : bool)
        (s : handle) :
  let s' := snd (read_region_ds INTER_CUBIC r x_y downsample tile_size
                                normalize downsample_level_0 s) in
  fetches s' = fetches s \/ exists f, fetches s' = f :: fetches s.
Proof.
  cbv zeta.
  destruct (read_region_ds INTER_CUBIC r x_y downsample tile_size
                           normalize downsample_level_0 s)
    as [res s'] eqn:Hrun.
  cbn [snd]. exact (read_region_ds_fetches _ _ _ _ _ _ _ _ _ _ Hrun).
Qed.

(** ** A stored downsample addresses its level *)

(** X10.  With strictly increasing [level_downsamples], reading by the
    (positive) downsample of level [i] without forcing level 0 is the
    same as reading level [i] directly: the same outcome, normalised or
    not, and the same fetch. *)
Theorem read_region_ds_at_stored_level
        (INTER_CUBIC : ndarray -> Z * Z -> Z -> Z -> list scalar)
        (r : WSIReader) (x_y : Z * Z) (tile_size : size_arg)
        (normalize : bool) (s s1 : handle) (lds : list Q) (i : Z) (d : Q) :
  level_downsamples r s = (Ok lds, s1) ->
  Z.of_nat (length lds) = level_count r ->
  strictly_increasing lds ->
  0 <= i < level_count r -> Py.index lds i = Ok d -> (0 < d)%Q ->
  read_region_ds INTER_CUBIC r x_y d tile_size normalize false s
  = read_region INTER_CUBIC r x_y i tile_size normalize false s1.
Proof.
  intros Hlds Hlen Hinc Hi Hd Hpos.
  destruct (level_downsamples_settles _ _ _ _ Hlds) as [Hset _].
  pose proof (best_level_value_exact _ lds i d Hlen Hinc Hi Hd) as Hbest.
  pose proof Hd as Hnth. apply index_nonneg in Hnth; [|lia].
  unfold read_region_ds. apply leb_false in Hpos. rewrite Hpos.
  replace (if Qeq_bool d 1 then false else false) with false
    by (destruct (Qeq_bool d 1); reflexivity).
  run. rewrite Hlds, (contains_nth _ _ _ Hnth). cbn [negb andb].
  rewrite (get_best_level_settled r lds d s1 Hset), Hbest.
  assert (Hsame : read_region INTER_CUBIC r x_y i
                    (Pair (fst (as_pair tile_size))
                          (snd (as_pair tile_size))) false false s1
                  = read_region INTER_CUBIC r x_y i tile_size false false s1).
  { destruct tile_size; reflexivity. }
  rewrite Hsame. destruct normalize.
  - rewrite read_region_normalize_after.
    destruct (read_region INTER_CUBIC r x_y i tile_size false false s1)
      as [[[t m]|e] s2]; reflexivity.
  - destruct (read_region INTER_CUBIC r x_y i tile_size false false s1)
      as [[[t m]|e] s2]; reflexivity.
Qed.

Lemma read_region_ds_at_stored_level_witness :
  level_downsamples Samples.pyramid Samples.fresh
  = (Ok [1%Q; 2%Q; 4%Q], Cases.memoised) /\
  Z.of_nat (length [1%Q; 2%Q; 4%Q]) = level_count Samples.pyramid /\
  strictly_increasing [1%Q; 2%Q; 4%Q] /\
  0 <= 2 < level_count Samples.pyramid /\
  Py.index [1%Q; 2%Q; 4%Q] 2 = Ok 4%Q /\ (0 < 4)%Q /\
  read_region_ds Samples.nearest Samples.pyramid (248, -1) 4 (Scalar 3)
                 true false Samples.fresh
  = read_region Samples.nearest Samples.pyramid (248, -1) 2 (Scalar 3)
                true false Cases.memoised.
Proof.
  assert (Hinc : strictly_increasing [1%Q; 2%Q; 4%Q]).
  { vm_compute. repeat split. }
  split; [reflexivity|]. split; [reflexivity|]. split; [exact Hinc|].
  split; [cbn; lia|]. split; [reflexivity|]. split; [reflexivity|].
  apply (read_region_ds_at_stored_level
           Samples.nearest Samples.pyramid (248, -1) (Scalar 3) true
           Samples.fresh Cases.memoised [1%Q; 2%Q; 4%Q] 2 4);
    [reflexivity | reflexivity | exact Hinc | cbn; lia
     | reflexivity | reflexivity].
Defined.

(** ** What [_normalize] does to the samples *)

Lemma div255_unit_range (v : scalar) : is_uint8 v -> in_unit_range (div255 v).
Proof.
  intros (z & -> & Hz). exists (Qred (inject_Z z / 255)).
  split; [reflexivity|]. rewrite Qred_correct.
  unfold Qle, Qdiv, Qmult, Qinv, inject_Z. cbn [Qnum Qden]. lia.
Qed.

(** X11.  On an integer-typed buffer of 8-bit samples, [_normalize] gives
    a floating buffer of the same shape and channel count whose samples
    all lie in [0, 1]; applying it again changes nothing.  The divisor is
    255 whatever the integer type: a sample above 255 comes out above
    1. *)
Theorem normalize_unit_range (t : ndarray) :
  dtype t = np_integer -> all_samples is_uint8 t ->
  dtype (_normalize t) = np_floating /\
  channels (_normalize t) = channels t /\
  shape (px (_normalize t)) = shape (px t) /\
  all_samples in_unit_range (_normalize t) /\
  _normalize (_normalize t) = _normalize t /\
  (forall z q, 255 < z -> div255 (Int z) = Float q -> (1 < q)%Q).
Proof.
  intros Hd Hall. unfold _normalize at 1 2 3 4. rewrite Hd.
  cbn [dtype channels px grid_map shape].
  repeat split.
  - unfold all_samples in *. cbn [px rows]. apply Forall_map.
    eapply Forall_impl; [|exact Hall]. intros row Hrow. apply Forall_map.
    eapply Forall_impl; [|exact Hrow]. intros c Hc. apply Forall_map.
    eapply Forall_impl; [|exact Hc]. apply div255_unit_range.
  - unfold _normalize. rewrite Hd. reflexivity.
  - intros z q Hz E. cbn [div255] in E.
    assert (Hq : q = Qred (inject_Z z / 255)) by congruence.
    rewrite Hq, Qred_correct.
    unfold Qlt, Qdiv, Qmult, Qinv, inject_Z. cbn [Qnum Qden]. lia.
Qed.

Lemma normalize_unit_range_witness :
  dtype Samples.corner40 = np_integer /\
  all_samples is_uint8 Samples.corner40 /\
  dtype (_normalize Samples.corner40) = np_floating /\
  channels (_normalize Samples.corner40) = channels Samples.corner40 /\
  shape (px (_normalize Samples.corner40)) = shape (px Samples.corner40) /\
  all_samples in_unit_range (_normalize Samples.corner40) /\
  _normalize (_normalize Samples.corner40) = _normalize Samples.corner40 /\
  (forall z q, 255 < z -> div255 (Int z) = Float q -> (1 < q)%Q).
Proof.
  assert (Hall : all_samples is_uint8 Samples.corner40).
  { unfold all_samples, Samples.corner40, Tiff.getitem.
    cbn [Samples.gradient Tiff.z_shape Tiff.z_dtype Tiff.z_channels
         Tiff.z_at px tabulate rows].
    apply Forall_map, Forall_forall. intros r _.
    apply Forall_map, Forall_forall. intros c _.
    constructor; [|constructor].
    eexists. split; [reflexivity|].
    match goal with
    | |- 0 <= ?n mod 256 <= 255 =>
        pose proof (Z.mod_pos_bound n 256 ltac:(lia)); lia
    end. }
  split; [reflexivity|]. split; [exact Hall|].
  apply (normalize_unit_range Samples.corner40); [reflexivity | exact Hall].
Defined.

(** ** The tifffile backend, end to end *)

Lemma tiff_level_dimensions (z : list Tiff.zarr_array) (level : Z)
      (a : Tiff.zarr_array) (H W : Z) :
  0 <= level -> nth_error z (Z.to_nat level) = Some a ->
  Tiff.z_shape a = (H, W) ->
  Py.index (level_dimensions (Tiff.TiffReader z)) level = Ok (W, H).
Proof.
  intros Hl Hn Hs. apply index_nonneg; [assumption|].
  cbn [level_dimensions Tiff.TiffReader].
  rewrite nth_error_map, Hn. cbn [option_map]. now rewrite Hs.
Qed.

Lemma tiff_getitem_inside (a : Tiff.zarr_array) (H W x y tw th : Z) :
  Tiff.z_shape a = (H, W) ->
  0 <= x -> 0 <= y -> 0 <= tw -> 0 <= th -> x + tw <= W -> y + th <= H ->
  Tiff.getitem a y (y + th) x (x + tw)
  = NDArray (Tiff.z_dtype a) (Tiff.z_channels a)
            (tabulate (y + th - y) (x + tw - x)
                      (fun r c => Tiff.z_at a (y + r) (x + c))).
Proof.
  intros Hs Hx Hy Htw Hth Hxw Hyh. unfold Tiff.getitem, Tiff.slice_bounds.
  rewrite Hs.
  destruct (Z.ltb_spec y 0); [lia|]. destruct (Z.ltb_spec x 0); [lia|].
  destruct (Z.ltb_spec (y + th) 0); [lia|].
  destruct (Z.ltb_spec (x + tw) 0); [lia|].
  rewrite !Z.min_l by lia. reflexivity.
Qed.

(** X13.  On a pyramidal tiff slide, a request whose rectangle overlaps
    or touches the level ([-w <= x <= W] and [-h <= y <= H]) is served
    with buffers of the requested size in which every cell lying over the
    slide holds the stored pixel at its position, with mask true, and
    every other cell holds zero, with mask false. *)
Theorem tiff_read_region_pixels
        (INTER_CUBIC : ndarray -> Z * Z -> Z -> Z -> list scalar)
        (z : list Tiff.zarr_array) (level : Z) (a : Tiff.zarr_array)
        (H W x0 y0 w h : Z) (s : handle) :
  Tiff.pyramidal z ->
  0 <= level -> nth_error z (Z.to_nat level) = Some a ->
  Tiff.z_shape a = (H, W) -> 0 <= H -> 0 <= W ->
  0 <= w -> 0 <= h -> - w <= x0 <= W -> - h <= y0 <= H ->
  exists (t : ndarray) (m : mask) (s' : handle),
    read_region INTER_CUBIC (Tiff.TiffReader z) (x0, y0) level (Pair w h)
                false false s = (Ok (t, m), s') /\
    shape (px t) = (h, w) /\ shape m = (h, w) /\
    dtype t = Tiff.z_dtype a /\
    forall r c, 0 <= r < h -> 0 <= c < w ->
      (0 <= y0 + r < H /\ 0 <= x0 + c < W ->
       cell m r c = Some true /\
       cell (px t) r c = Some (Tiff.z_at a (y0 + r) (x0 + c))) /\
      (~ (0 <= y0 + r < H /\ 0 <= x0 + c < W) ->
       cell m r c = Some false /\
       cell (px t) r c
       = Some (repeat (zero_of (Tiff.z_dtype a))
                      (match Tiff.z_channels a with
                       | Some n => n
                       | None => 1%nat
                       end))).
Proof.
  intros _ Hl Hn Hs HH HW Hw Hh Hx0 Hy0.
  pose proof (tiff_level_dimensions z level a H W Hl Hn Hs) as Hidx.
  destruct (clip x0 y0 w h W H) as [[x y] [tw th]] eqn:Hclip.
  rewrite (read_region_plain INTER_CUBIC (Tiff.TiffReader z) x0 y0 level
             w h false false s W H x y tw th eq_refl Hidx Hclip).
  apply clip_bounds in Hclip.
  destruct Hclip as (Hx & Hy & Hxw & Hyh & Htw & Hth & Htw' & Hth').
  assert (Htw0 : 0 <= tw) by lia. assert (Hth0 : 0 <= th) by lia.
  assert (Hf : _read_region (Tiff.TiffReader z) (x, y) level (tw, th)
               = Ok (Tiff.getitem a y (y + th) x (x + tw),
                     tabulate th tw (fun _ _ => true))).
  { cbn [_read_region Tiff.TiffReader].
    unfold Tiff._read_region, Tiff.level_array, np_ones.
    destruct (Z.ltb_spec level 0); [lia|]. rewrite Hn. cbn [result_bind].
    destruct (Z.ltb_spec th 0); [lia|]. destruct (Z.ltb_spec tw 0); [lia|].
    reflexivity. }
  rewrite Hf. cbn [result_bind fst snd].
  rewrite (tiff_getitem_inside a H W x y tw th) by (assumption || lia).
  replace (y + th - y) with th by lia. replace (x + tw - x) with tw by lia.
  unfold padding_of. cbn [fst snd].
  set (top := y - y0). set (bottom := h - th + Z.min y0 0).
  set (lft := x - x0). set (rgt := w - tw + Z.min x0 0).
  assert (Hpad : negative_pad ((top, bottom), (lft, rgt)) = false).
  { unfold negative_pad, top, bottom, lft, rgt.
    repeat match goal with
           | |- context [?n <? 0] => destruct (Z.ltb_spec n 0); [lia|]
           end.
    reflexivity. }
  unfold np_pad, np_pad_mask. rewrite Hpad. cbn [result_bind].
  do 3 eexists. split; [reflexivity|]. cbn [px dtype channels].
  rewrite !pad_cells_shape. cbn [tabulate shape fst snd].
  rewrite !Z.max_r by lia.
  split; [unfold top, bottom, lft, rgt; f_equal; lia|].
  split; [unfold top, bottom, lft, rgt; f_equal; lia|].
  split; [reflexivity|].
  intros r c Hr Hc. split.
  - intros [Hin_r Hin_c].
    rewrite !cell_pad_cells_inner;
      try apply tabulate_wf; cbn [tabulate shape fst snd];
      rewrite ?Z.max_r by lia; unfold top, lft; try lia.
    rewrite !cell_tabulate by lia. split; [reflexivity|].
    do 2 f_equal; lia.
  - intros Hout.
    rewrite !cell_pad_cells_fill;
      try apply tabulate_wf; cbn [tabulate shape fst snd];
      rewrite ?Z.max_r by lia; unfold top, bottom, lft, rgt; try lia.
    split; reflexivity.
Qed.

Lemma tiff_read_region_pixels_witness :
  Tiff.pyramidal Cases.two_level_store /\
  0 <= 1 /\
  nth_error Cases.two_level_store (Z.to_nat 1)
  = Some (Samples.gradient 4 4) /\
  Tiff.z_shape (Samples.gradient 4 4) = (4, 4) /\ 0 <= 4 /\ 0 <= 4 /\
  0 <= 5 /\ 0 <= 5 /\ - 5 <= -2 <= 4 /\ - 5 <= 3 <= 4 /\
  exists (t : ndarray) (m : mask) (s' : handle),
    read_region Samples.nearest (Tiff.TiffReader Cases.two_level_store)
                (-2, 3) 1 (Pair 5 5) false false Samples.fresh
    = (Ok (t, m), s') /\
    shape (px t) = (5, 5) /\ shape m = (5, 5) /\
    dtype t = Tiff.z_dtype (Samples.gradient 4 4) /\
    forall r c, 0 <= r < 5 -> 0 <= c < 5 ->
      (0 <= 3 + r < 4 /\ 0 <= -2 + c < 4 ->
       cell m r c = Some true /\
       cell (px t) r c
       = Some (Tiff.z_at (Samples.gradient 4 4) (3 + r) (-2 + c))) /\
      (~ (0 <= 3 + r < 4 /\ 0 <= -2 + c < 4) ->
       cell m r c = Some false /\
       cell (px t) r c
       = Some (repeat (zero_of (Tiff.z_dtype (Samples.gradient 4 4)))
                      (match Tiff.z_channels (Samples.gradient 4 4) with
                       | Some n => n
                       | None => 1%nat
                       end))).
Proof.
  split; [unfold Tiff.pyramidal; cbn; lia|].
  split; [lia|]. split; [reflexivity|]. split; [reflexivity|].
  repeat (split; [lia|]).
  apply (tiff_read_region_pixels
           Samples.nearest Cases.two_level_store 1 (Samples.gradient 4 4)
           4 4 (-2) 3 5 5 Samples.fresh);
    try lia; try reflexivity.
  unfold Tiff.pyramidal; cbn; lia.
Defined.

(** X14.  On a pyramidal tiff slide, a request of non-negative size whose
    rectangle lies strictly beyond the level on some side ([x < -w],
    [x > W], [y < -h] or [y > H]) makes [read_region] end in ValueError,
    after one fetch of negative width or height. *)
Theorem tiff_read_region_outside_raises
        (INTER_CUBIC : ndarray -> Z * Z -> Z -> Z -> list scalar)
        (z : list Tiff.zarr_array) (level : Z) (a : Tiff.zarr_array)
        (H W x0 y0 w h : Z) (normalize : bool) (s : handle) :
  Tiff.pyramidal z ->
  0 <= level -> nth_error z (Z.to_nat level) = Some a ->
  Tiff.z_shape a = (H, W) -> 0 <= H -> 0 <= W -> 0 <= w -> 0 <= h ->
  x0 < - w \/ W < x0 \/ y0 < - h \/ H < y0 ->
  exists x y tw th,
    (tw < 0 \/ th < 0) /\
    read_region INTER_CUBIC (Tiff.TiffReader z) (x0, y0) level (Pair w h)
                normalize false s
    = (Raise ValueError,
       Handle (_level_downsamples s)
              (Fetch (x, y) level (tw, th) :: fetches s)).
Proof.
  intros _ Hl Hn Hs HH HW Hw Hh Hout.
  pose proof (tiff_level_dimensions z level a H W Hl Hn Hs) as Hidx.
  destruct (clip x0 y0 w h W H) as [[x y] [tw th]] eqn:Hclip.
  exists x, y, tw, th.
  rewrite (read_region_plain INTER_CUBIC (Tiff.TiffReader z) x0 y0 level
             w h normalize false s W H x y tw th eq_refl Hidx Hclip).
  apply clip_bounds in Hclip.
  destruct Hclip as (Hx & Hy & Hxw & Hyh & Htw & Hth & _).
  assert (Hneg : tw < 0 \/ th < 0) by lia.
  split; [exact Hneg|].
  cbn [_read_region Tiff.TiffReader].
  unfold Tiff._read_region, Tiff.level_array, np_ones.
  destruct (Z.ltb_spec level 0); [lia|]. rewrite Hn. cbn [result_bind].
  destruct (Z.ltb_spec th 0), (Z.ltb_spec tw 0); cbn [orb result_bind];
    try reflexivity. lia.
Qed.

Lemma tiff_read_region_outside_raises_witness :
  Tiff.pyramidal Cases.two_level_store /\
  0 <= 0 /\
  nth_error Cases.two_level_store (Z.to_nat 0)
  = Some (Samples.gradient 8 8) /\
  Tiff.z_shape (Samples.gradient 8 8) = (8, 8) /\ 0 <= 8 /\ 0 <= 8 /\
  0 <= 5 /\ 0 <= 5 /\
  (9 < - 5 \/ 8 < 9 \/ 0 < - 5 \/ 8 < 0) /\
  exists x y tw th,
    (tw < 0 \/ th < 0) /\
    read_region Samples.nearest (Tiff.TiffReader Cases.two_level_store)
                (9, 0) 0 (Pair 5 5) true false Samples.fresh
    = (Raise ValueError,
       Handle (_level_downsamples Samples.fresh)
              (Fetch (x, y) 0 (tw, th) :: fetches Samples.fresh)).
Proof.
  split; [unfold Tiff.pyramidal; cbn; lia|].
  split; [lia|]. split; [reflexivity|]. split; [reflexivity|].
  repeat (split; [lia|]).
  apply (tiff_read_region_outside_raises
           Samples.nearest Cases.two_level_store 0 (Samples.gradient 8 8)
           8 8 9 0 5 5 true Samples.fresh);
    try lia; try reflexivity.
  unfold Tiff.pyramidal; cbn; lia.
Defined.

(** ** Thumbnails of impossible size *)

Lemma ratio_negative (a b : Z) :
  0 < a -> b < 0 -> (Qred (inject_Z a / inject_Z b) < 0)%Q.
Proof.
  intros Ha Hb. rewrite Qred_correct.
  destruct b as [|p|p]; try lia.
  unfold Qlt, Qdiv, Qmult, Qinv, inject_Z. cbn [Qnum Qden]. lia.
Qed.

(** The two rejections of [get_downsampled_slide], with the handle they
    leave behind. *)
Lemma get_downsampled_slide_rejects K (r : WSIReader) (w h W H : Z)
      (rest : list (Z * Z)) (normalize : bool) (s : handle) :
  level_dimensions r = (W, H) :: rest -> 0 < W -> 0 < H ->
  (w = 0 \/ h = 0 ->
   get_downsampled_slide K r (w, h) normalize s
   = (Raise ZeroDivisionError, s)) /\
  (w <> 0 -> h <> 0 -> w < 0 \/ h < 0 ->
   get_downsampled_slide K r (w, h) normalize s
   = (Raise invalid_downsample, s)).
Proof.
  intros Hdims HW HH. split.
  - intros Hz. unfold get_downsampled_slide. run. rewrite Hdims.
    change (Py.index ((W, H) :: rest) 0) with (Ok (W, H)).
    cbn [fst snd]. unfold Py.truediv.
    destruct (Z.eqb_spec w 0); [reflexivity|].
    destruct (Z.eqb_spec h 0); [reflexivity | lia].
  - intros Hw Hh Hneg.
    rewrite (get_downsampled_slide_eval K r w h W H rest
               normalize s Hw Hh Hdims).
    assert (Hd : (uniform_factor W H w h <= 0)%Q).
    { unfold uniform_factor. destruct (Py.ltb _ _) eqn:E.
      - apply ltb_true in E. destruct (Z_lt_le_dec h 0) as [Hh0|Hh0].
        + apply Qlt_le_weak. now apply ratio_negative.
        + apply Qlt_le_weak. eapply Qlt_trans; [exact E|].
          apply ratio_negative; lia.
      - apply ltb_false in E. destruct (Z_lt_le_dec w 0) as [Hw0|Hw0].
        + apply Qlt_le_weak. now apply ratio_negative.
        + eapply Qle_trans; [exact E|]. apply Qlt_le_weak.
          apply ratio_negative; lia. }
    apply leb_true in Hd. run.
    unfold get_dimensions_for_downsample. rewrite Hd. reflexivity.
Qed.

(** X15.  On a slide of positive size, [get_downsampled_slide] with a
    zero in [dims] ends in ZeroDivisionError, and with a negative
    component (and no zero) in the invalid-downsample error.  Both
    errors come before the [level_downsamples] property is evaluated and
    before the backend's [_read_region] is called: the memoised
    [_level_downsamples] and the list of fetches stay as they were. *)
Theorem downsampled_slide_rejects_bad_dims
        (INTER_CUBIC : ndarray -> Z * Z -> Z -> Z -> list scalar)
        (r : WSIReader) (w h W H : Z) (rest : list (Z * Z))
        (normalize : bool) (s : handle) :
  level_dimensions r = (W, H) :: rest -> 0 < W -> 0 < H ->
  w <= 0 \/ h <= 0 ->
  fst (get_downsampled_slide INTER_CUBIC r (w, h) normalize s)
  = Raise (if (w =? 0) || (h =? 0) then ZeroDivisionError
           else invalid_downsample) /\
  _level_downsamples
    (snd (get_downsampled_slide INTER_CUBIC r (w, h) normalize s))
  = _level_downsamples s /\
  fetches (snd (get_downsampled_slide INTER_CUBIC r (w, h) normalize s))
  = fetches s.
Proof.
  intros Hdims HW HH Hbad.
  destruct (get_downsampled_slide_rejects INTER_CUBIC r w h W H rest
              normalize s Hdims HW HH) as [Hzero Hneg].
  destruct (Z.eqb_spec w 0) as [Hw|Hw].
  { rewrite Hzero by (now left). cbn [orb fst snd]. now repeat split. }
  destruct (Z.eqb_spec h 0) as [Hh|Hh].
  { rewrite Hzero by (now right). cbn [orb fst snd]. now repeat split. }
  rewrite Hneg by (assumption || lia). cbn [orb fst snd]. now repeat split.
Qed.

Lemma downsampled_slide_rejects_bad_dims_witness :
  level_dimensions Cases.two_level = (8, 8) :: [(4, 4)] /\
  0 < 8 /\ 0 < 8 /\ (-4 <= 0 \/ 2 <= 0) /\
  fst (get_downsampled_slide Samples.nearest Cases.two_level (-4, 2) true
                             Samples.fresh)
  = Raise invalid_downsample /\
  _level_downsamples
    (snd (get_downsampled_slide Samples.nearest Cases.two_level (-4, 2) true
                                Samples.fresh))
  = _level_downsamples Samples.fresh /\
  fetches (snd (get_downsampled_slide Samples.nearest Cases.two_level
                                      (-4, 2) true Samples.fresh))
  = fetches Samples.fresh.
Proof.
  split; [reflexivity|]. split; [lia|]. split; [lia|]. split; [lia|].
  apply (downsampled_slide_rejects_bad_dims
           Samples.nearest Cases.two_level (-4) 2 8 8 [(4, 4)] true
           Samples.fresh);
    [reflexivity | lia | lia | lia].
Defined.

(** ** Failures of the plain path *)

(** X16.  Without synthesis from level 0, [read_region] fails only where
    the lookup of the level's dimensions fails or where the backend's
    fetch of the clipped rectangle fails, and with that very exception:
    the padding it computes is never negative, so [np.pad] never
    refuses. *)
Theorem read_region_plain_failures
        (INTER_CUBIC : ndarray -> Z * Z -> Z -> Z -> list scalar)
        (r : WSIReader) (x0 y0 level w h : Z) (normalize : bool)
        (s s' : handle) (e : exn) :
  read_region INTER_CUBIC r (x0, y0) level (Pair w h) normalize false s
  = (Raise e, s') ->
  (Py.index (level_dimensions r) level = Raise e /\ s' = s) \/
  exists W H x y tw th,
    Py.index (level_dimensions r) level = Ok (W, H) /\
    clip x0 y0 w h W H = ((x, y), (tw, th)) /\
    _read_region r (x, y) level (tw, th) = Raise e.
Proof.
  intros Hrun.
  destruct (Py.index (level_dimensions r) level) as [[W H]|e1] eqn:Hidx.
  2:{ unfold read_region in Hrun. cbn [andb] in Hrun. run.
      rewrite Hidx in Hrun. inversion Hrun; subst. now left. }
  right. destruct (clip x0 y0 w h W H) as [[x y] [tw th]] eqn:Hclip.
  exists W, H, x, y, tw, th. split; [reflexivity|]. split; [exact Hclip|].
  destruct (_read_region r (x, y) level (tw, th)) as [[bt bm]|e1] eqn:Hf.
  - destruct (read_region_plain_returns INTER_CUBIC r x0 y0 level w h
                normalize s W H x y tw th bt bm Hidx Hclip Hf)
      as (t & m & Hok).
    rewrite Hok in Hrun. discriminate.
  - rewrite (read_region_plain INTER_CUBIC r x0 y0 level w h normalize
               false s W H x y tw th eq_refl Hidx Hclip) in Hrun.
    rewrite Hf in Hrun. cbn [result_bind] in Hrun. congruence.
Qed.

Lemma read_region_plain_failures_witness :
  read_region Samples.nearest Samples.pyramid (2000, 0) 0 (Pair 50 50)
              true false Samples.fresh
  = (Raise ValueError, Handle None [Fetch (2000, 0) 0 (-1000, 50)]) /\
  ((Py.index (level_dimensions Samples.pyramid) 0 = Raise ValueError /\
    Handle None [Fetch (2000, 0) 0 (-1000, 50)] = Samples.fresh) \/
   exists W H x y tw th,
     Py.index (level_dimensions Samples.pyramid) 0 = Ok (W, H) /\
     clip 2000 0 50 50 W H = ((x, y), (tw, th)) /\
     _read_region Samples.pyramid (x, y) 0 (tw, th) = Raise ValueError).
Proof.
  split; [reflexivity|].
  apply (read_region_plain_failures
           Samples.nearest Samples.pyramid 2000 0 0 50 50 true
           Samples.fresh (Handle None [Fetch (2000, 0) 0 (-1000, 50)])
           ValueError).
  reflexivity.
Defined.

(** ** The Philips backend: from level coordinates to the view *)

(** X18.  For a level whose x and y ranges both have step [k >= 1], a
    fetch of at least one pixel each way that lies inside the level's
    dimensions is turned by [IsyntaxReader._read_region] into the view
    range from [(x * k, y * k)] to [((x + w - 1) * k, (y + h - 1) * k)]:
    exactly [w] by [h] grid points of step [k], none of them beyond the
    ends of the level's ranges. *)
Theorem philips_view_range_within
        (rx ry : Philips.dimension_range) (k level x y tw th W H : Z) :
  Philips.step rx = k -> Philips.step ry = k -> 1 <= k ->
  Philips.level_dimension rx ry = Ok (W, H) ->
  0 <= x -> 0 <= y -> 1 <= tw -> 1 <= th -> x + tw <= W -> y + th <= H ->
  Philips.view_range (Philips.level_downsample rx) (x, y) level (tw, th)
  = [x * k; (x + tw - 1) * k; y * k; (y + th - 1) * k; level] /\
  0 <= x * k <= (x + tw - 1) * k /\ (x + tw - 1) * k <= Philips.last rx /\
  0 <= y * k <= (y + th - 1) * k /\ (y + th - 1) * k <= Philips.last ry /\
  ((x + tw - 1) * k - x * k) / k + 1 = tw /\
  ((y + th - 1) * k - y * k) / k + 1 = th.
Proof.
  intros Hkx Hky Hk Hdim Hx Hy Htw Hth Hxw Hyh.
  unfold Philips.level_dimension, Py.floordiv in Hdim.
  rewrite Hkx, Hky in Hdim.
  destruct (Z.eqb_spec k 0); [lia|]. cbn [result_bind] in Hdim.
  inversion Hdim as [[HW HH]].
  pose proof (Z.mul_div_le (Philips.last rx + 1) k ltac:(lia)) as Hxe.
  pose proof (Z.mul_div_le (Philips.last ry + 1) k ltac:(lia)) as Hye.
  rewrite HW in Hxe. rewrite HH in Hye.
  split.
  - unfold Philips.view_range, Philips.level_downsample. rewrite Hkx.
    cbv beta zeta.
    rewrite <- !inject_Z_mult, !round_inject, <- !inject_Z_plus,
      !round_inject.
    replace (x * k + (tw - 1) * k) with ((x + tw - 1) * k) by lia.
    replace (y * k + (th - 1) * k) with ((y + th - 1) * k) by lia.
    reflexivity.
  - replace ((x + tw - 1) * k - x * k) with ((tw - 1) * k) by lia.
    replace ((y + th - 1) * k - y * k) with ((th - 1) * k) by lia.
    rewrite !Z.div_mul by lia. repeat split; nia.
Qed.

Lemma philips_view_range_within_witness :
  Philips.step (Philips.Range 0 4 999) = 4 /\
  Philips.step (Philips.Range 0 4 799) = 4 /\ 1 <= 4 /\
  Philips.level_dimension (Philips.Range 0 4 999) (Philips.Range 0 4 799)
  = Ok (250, 200) /\
  0 <= 240 /\ 0 <= 0 /\ 1 <= 10 /\ 1 <= 5 /\
  240 + 10 <= 250 /\ 0 + 5 <= 200 /\
  Philips.view_range (Philips.level_downsample (Philips.Range 0 4 999))
                     (240, 0) 2 (10, 5)
  = [240 * 4; (240 + 10 - 1) * 4; 0 * 4; (0 + 5 - 1) * 4; 2] /\
  0 <= 240 * 4 <= (240 + 10 - 1) * 4 /\
  (240 + 10 - 1) * 4 <= Philips.last (Philips.Range 0 4 999) /\
  0 <= 0 * 4 <= (0 + 5 - 1) * 4 /\
  (0 + 5 - 1) * 4 <= Philips.last (Philips.Range 0 4 799) /\
  ((240 + 10 - 1) * 4 - 240 * 4) / 4 + 1 = 10 /\
  ((0 + 5 - 1) * 4 - 0 * 4) / 4 + 1 = 5.
Proof.
  split; [reflexivity|]. split; [reflexivity|]. split; [lia|].
  split; [reflexivity|]. repeat (split; [lia|]).
  apply (philips_view_range_within
           (Philips.Range 0 4 999) (Philips.Range 0 4 799) 4 2 240 0 10 5
           250 200);
    try reflexivity; lia.
Defined.

(** ** Resampling only shrinks *)

Lemma best_level_value_le (n : Z) (lds : list Q) (d d0 : Q) (l : Z) :
  1 <= n -> Py.index lds 0 = Ok d0 -> (d0 <= d)%Q ->
  best_level_value n lds d = Ok l ->
  exists x, Py.index lds l = Ok x /\ (x <= d)%Q.
Proof.
  intros Hn H0 Hd0 Hbest. unfold best_level_value in Hbest.
  rewrite H0 in Hbest. cbn [result_bind] in Hbest.
  apply ltb_false in Hd0. rewrite Hd0 in Hbest. apply ltb_false in Hd0.
  destruct (scan_value lds d (Py.range 1 n)) as [o|e] eqn:Hs;
    [|discriminate].
  cbn [result_bind] in Hbest.
  pose proof (scan_value_brackets lds d n _ 1 d0 o eq_refl
                ltac:(lia) H0 Hd0 Hs) as Hb.
  destruct o as [v|]; inversion Hbest; subst l.
  - tauto.
  - exact Hb.
Qed.

Lemma fdiv_eval (a b : Q) :
  (0 < b)%Q -> Py.fdiv a b = Ok (Qred (a / b)).
Proof.
  intros Hb. unfold Py.fdiv.
  destruct (Qeq_bool b 0) eqn:Q0; [|reflexivity].
  apply Qeq_bool_iff in Q0. rewrite Q0 in Hb.
  exfalso. exact (Qlt_irrefl _ Hb).
Qed.

Lemma scaled_extent_ge (d x : Q) (w : Z) :
  (0 < x)%Q -> (x <= d)%Q -> 0 <= w ->
  w <= Py.round (Qred (inject_Z w * d / x)).
Proof.
  intros Hpos Hle Hw.
  rewrite <- (round_inject w) at 1. apply round_mono.
  rewrite Qred_correct. apply Qle_shift_div_l; [exact Hpos|].
  rewrite !(Qmult_comm (inject_Z w)).
  apply Qmult_le_compat_r; [exact Hle|].
  change 0%Q with (inject_Z 0). now rewrite <- Zle_Qle.
Qed.

(** X19.  When the requested downsample is no stored level's downsample
    and is at least [level_downsamples[0]], and the chosen level's
    downsample is positive, [read_region_ds] reads from the chosen level
    a rectangle that is at least as wide and as high as the requested
    tile, and resizes what [read_region] gives for it to the requested
    size: the final resize never enlarges. *)
Theorem resampling_reads_at_least_requested
        (INTER_CUBIC : ndarray -> Z * Z -> Z -> Z -> list scalar)
        (r : WSIReader) (s s1 : handle) (lds : list Q) (d d0 x : Q)
        (l x0 y0 w h : Z) (normalize : bool) :
  level_downsamples r s = (Ok lds, s1) ->
  1 <= level_count r ->
  Py.index lds 0 = Ok d0 -> (d0 <= d)%Q ->
  Py.contains d lds = false ->
  fst (get_best_level_for_downsample r d s) = Ok l ->
  Py.index lds l = Ok x -> (0 < x)%Q -> 0 <= w -> 0 <= h ->
  exists X Y tw th,
    w <= tw /\ h <= th /\
    read_region_ds INTER_CUBIC r (x0, y0) d (Pair w h) normalize false s
    = (resampled INTER_CUBIC (w, h) normalize
         (fst (read_region INTER_CUBIC r (X, Y) l (Pair tw th)
                           false false s1)),
       snd (read_region INTER_CUBIC r (X, Y) l (Pair tw th)
                        false false s1)).
Proof.
  intros Hlds Hn H0 Hd0 Hc Hbest Hx Hpos Hw Hh.
  rewrite (get_best_level_eval _ _ _ _ _ Hlds) in Hbest. cbn [fst] in Hbest.
  destruct (best_level_value_le _ lds d d0 l Hn H0 Hd0 Hbest)
    as (x' & Hx' & Hle).
  assert (x' = x) by congruence. subst x'.
  assert (Hdpos : (0 < d)%Q) by (eapply Qlt_le_trans; eassumption).
  destruct (level_downsamples_settles _ _ _ _ Hlds) as [Hset _].
  exists (Py.round (Qred (inject_Z x0 * d / x))),
         (Py.round (Qred (inject_Z y0 * d / x))),
         (Py.round (Qred (inject_Z w * d / x))),
         (Py.round (Qred (inject_Z h * d / x))).
  split; [now apply scaled_extent_ge|].
  split; [now apply scaled_extent_ge|].
  unfold read_region_ds.
  assert (E : Py.leb d 0 = false) by now apply leb_false.
  rewrite E.
  replace (if Qeq_bool d 1 then false else false) with false
    by (destruct (Qeq_bool d 1); reflexivity).
  cbn [as_pair fst snd negb]. run. rewrite Hlds, Hc. cbn [andb].
  rewrite (get_best_level_settled r lds d s1 Hset), Hbest.
  rewrite !(settled_eval r lds s1 Hset), Hx. cbn beta iota.
  rewrite !fdiv_eval by assumption. cbn beta iota.
  destruct (read_region INTER_CUBIC r _ l _ false false s1)
    as [[[t m]|e] s2]; [|reflexivity].
  cbn [fst snd resampled].
  destruct (cv2_resize INTER_CUBIC t (w, h)) as [t'|e]; [|reflexivity].
  cbn [result_bind].
  destruct (resize_mask INTER_CUBIC m (w, h)) as [m'|e]; reflexivity.
Qed.

Lemma resampling_reads_at_least_requested_witness :
  level_downsamples Samples.pyramid Samples.fresh
  = (Ok [1%Q; 2%Q; 4%Q], Cases.memoised) /\
  1 <= level_count Samples.pyramid /\
  Py.index [1%Q; 2%Q; 4%Q] 0 = Ok 1%Q /\ (1 <= 3)%Q /\
  Py.contains 3 [1%Q; 2%Q; 4%Q] = false /\
  fst (get_best_level_for_downsample Samples.pyramid 3 Samples.fresh)
  = Ok 1 /\
  Py.index [1%Q; 2%Q; 4%Q] 1 = Ok 2%Q /\ (0 < 2)%Q /\
  0 <= 100 /\ 0 <= 60 /\
  exists X Y tw th,
    100 <= tw /\ 60 <= th /\
    read_region_ds Samples.nearest Samples.pyramid (10, 20) 3 (Pair 100 60)
                   true false Samples.fresh
    = (resampled Samples.nearest (100, 60) true
         (fst (read_region Samples.nearest Samples.pyramid (X, Y) 1
                           (Pair tw th) false false Cases.memoised)),
       snd (read_region Samples.nearest Samples.pyramid (X, Y) 1
                        (Pair tw th) false false Cases.memoised)).
Proof.
  split; [reflexivity|]. split; [cbn; lia|]. split; [reflexivity|].
  split; [discriminate|]. split; [reflexivity|]. split; [reflexivity|].
  split; [reflexivity|]. split; [reflexivity|].
  split; [lia|]. split; [lia|].
  apply (resampling_reads_at_least_requested
           Samples.nearest Samples.pyramid Samples.fresh Cases.memoised
           [1%Q; 2%Q; 4%Q] 3 1%Q 2%Q 1 10 20 100 60 true);
    try reflexivity; try discriminate; cbn; lia.
Defined.

(** ** A thumbnail of the slide's own aspect ratio *)

Lemma same_aspect_ratio (W H w h : Z) :
  0 < w -> 0 < h -> W * h = H * w ->
  (inject_Z W / inject_Z w == inject_Z H / inject_Z h)%Q.
Proof.
  intros Hw Hh E. destruct w as [|p|p]; try lia.
  destruct h as [|q|q]; try lia.
  unfold Qeq, Qdiv, Qmult, Qinv, inject_Z. cbn [Qnum Qden].
  rewrite !Pos.mul_1_l. lia.
Qed.

Lemma ratio_cancel (a b : Q) :
  (0 < a)%Q -> (0 < b)%Q -> (a / (a / b) == b)%Q.
Proof.
  intros Ha Hb.
  assert (Ha' : ~ (a == 0)%Q)
    by (intros E; rewrite E in Ha; exact (Qlt_irrefl _ Ha)).
  assert (Hb' : ~ (b == 0)%Q)
    by (intros E; rewrite E in Hb; exact (Qlt_irrefl _ Hb)).
  field. split; assumption.
Qed.

(** X20.  When the requested box has the slide's own aspect ratio
    ([W * h = H * w]) and the resulting factor is no stored level's
    downsample, [get_downsampled_slide] asks for exactly the requested
    dimensions, and whatever it returns has exactly that size. *)
Theorem downsampled_slide_exact_for_same_aspect
        (INTER_CUBIC : ndarray -> Z * Z -> Z -> Z -> list scalar)
        (r : WSIReader) (w h W H : Z) (rest : list (Z * Z))
        (normalize : bool) (s s1 : handle) (lds : list Q) :
  0 < w -> 0 < h ->
  level_dimensions r = (W, H) :: rest -> 0 < W -> 0 < H ->
  backend_exact r -> W * h = H * w ->
  level_downsamples r s = (Ok lds, s1) ->
  Py.contains (uniform_factor W H w h) lds = false ->
  get_dimensions_for_downsample r (uniform_factor W H w h) s
  = (Ok (w, h), s1) /\
  forall t m s',
    get_downsampled_slide INTER_CUBIC r (w, h) normalize s
    = (Ok (t, m), s') ->
    shape (px t) = (h, w) /\ shape m = (h, w).
Proof.
  intros Hw Hh Hdims HW HH Hb Hasp Hlds Hc.
  set (d := uniform_factor W H w h) in *.
  pose proof (same_aspect_ratio W H w h Hw Hh Hasp) as Heq.
  pose proof (inject_pos W HW) as Ha. pose proof (inject_pos w Hw) as Hbq.
  pose proof (inject_pos H HH) as Hcq. pose proof (inject_pos h Hh) as He.
  assert (Hdw : (d == inject_Z W / inject_Z w)%Q).
  { destruct (uniform_factor_min W H w h) as (_ & _ & [E|E]);
      fold d in E; [exact E|]. now rewrite Heq. }
  assert (Hdh : (d == inject_Z H / inject_Z h)%Q) by (now rewrite <- Heq).
  assert (Hdims' : get_dimensions_for_downsample r d s = (Ok (w, h), s1)).
  { assert (Hd : (0 < d)%Q) by (now apply uniform_factor_pos).
    rewrite (get_dimensions_rounded r d W H rest lds s s1 Hd Hdims Hlds Hc).
    do 2 f_equal. f_equal.
    - transitivity (Py.round (inject_Z w)); [|apply round_inject].
      apply round_proper.
      rewrite Qred_correct, Hdw. now apply ratio_cancel.
    - transitivity (Py.round (inject_Z h)); [|apply round_inject].
      apply round_proper.
      rewrite Qred_correct, Hdh. now apply ratio_cancel. }
  split; [exact Hdims'|].
  intros t m s' Hrun.
  rewrite (get_downsampled_slide_eval INTER_CUBIC r w h W H rest normalize s
             ltac:(lia) ltac:(lia) Hdims) in Hrun.
  fold d in Hrun. run. rewrite Hdims' in Hrun. cbn [fst snd] in Hrun.
  eapply read_region_ds_shape; eauto.
Qed.

Lemma downsampled_slide_exact_for_same_aspect_witness :
  0 < 3 /\ 0 < 3 /\
  level_dimensions Cases.two_level = (8, 8) :: [(4, 4)] /\
  0 < 8 /\ 0 < 8 /\
  backend_exact Cases.two_level /\ 8 * 3 = 8 * 3 /\
  level_downsamples Cases.two_level Samples.fresh
  = (Ok [1%Q; 2%Q], Handle (Some [1%Q; 2%Q]) []) /\
  Py.contains (uniform_factor 8 8 3 3) [1%Q; 2%Q] = false /\
  get_dimensions_for_downsample Cases.two_level (uniform_factor 8 8 3 3)
                                Samples.fresh
  = (Ok (3, 3), Handle (Some [1%Q; 2%Q]) []) /\
  forall t m s',
    get_downsampled_slide Samples.nearest Cases.two_level (3, 3) false
                          Samples.fresh
    = (Ok (t, m), s') ->
    shape (px t) = (3, 3) /\ shape m = (3, 3).
Proof.
  split; [lia|]. split; [lia|]. split; [reflexivity|].
  split; [lia|]. split; [lia|]. split; [apply tiff_backend_exact|].
  split; [reflexivity|]. split; [reflexivity|]. split; [reflexivity|].
  apply (downsampled_slide_exact_for_same_aspect
           Samples.nearest Cases.two_level 3 3 8 8 [(4, 4)] false
           Samples.fresh (Handle (Some [1%Q; 2%Q]) []) [1%Q; 2%Q]);
    try lia; try reflexivity.
  apply tiff_backend_exact.
Defined.
